(** * Event registration and check-in: the data-access facade [DB] of db.ts

    The facade talks to a hosted relational store through the supabase
    client.  The embedding is shallow:

    - the four tables of the setup script at the top of db.ts are lists of
      rows ([Store]); a request is a pure function of the store;
    - every request is answered by a [PostgrestResponse] with the two fields
      [data] and [error] the source destructures;
    - what the program does not decide is taken from an explicit environment
      record per operation: whether a request fails before reaching the
      tables (network, gateway), the uuid that [gen_random_uuid()] draws, the
      client clock [new Date().toISOString()] and the server clock [now()];
    - an [async] function returns a [Promise]: [Resolved v] or [Rejected e],
      paired with the store it leaves behind. *)

From Stdlib Require Import String Ascii List Bool ZArith Arith Lia Permutation.
Import ListNotations.
Open Scope string_scope.

(** ** Column types of the schema *)

(** [role text check (role in ('student', 'organizer', 'admin'))],
    [UserRole] of types.ts. *)
Inductive UserRole : Type := student | organizer | admin.

(** [status text check (status in ('pending', 'approved', 'rejected'))]. *)
Inductive ApprovalStatus : Type := pending | approved | rejected.

(** [status text check (status in ('registered', 'checked-in'))]. *)
Inductive RegistrationStatus : Type := registered | checked_in.

Definition UserRole_eqb (a b : UserRole) : bool :=
  match a, b with
  | student, student | organizer, organizer | admin, admin => true
  | _, _ => false
  end.

Definition ApprovalStatus_eqb (a b : ApprovalStatus) : bool :=
  match a, b with
  | pending, pending | approved, approved | rejected, rejected => true
  | _, _ => false
  end.

Definition RegistrationStatus_eqb (a b : RegistrationStatus) : bool :=
  match a, b with
  | registered, registered | checked_in, checked_in => true
  | _, _ => false
  end.

Definition UserRole_text (r : UserRole) : string :=
  match r with
  | student => "student"
  | organizer => "organizer"
  | admin => "admin"
  end.

(** ** Rows of the four tables (snake_case columns, as stored) *)

Module UserRow.
Record t : Type := mk {
    id : string;
    name : string;
    email : string;
    password : option string;
    role : UserRole;
    uni_id : string;
    profile_photo : option string;
    status : option ApprovalStatus;
    created_at : string
  }.
End UserRow.

Module EventRow.
Record t : Type := mk {
    id : string;
    title : string;
    description : string;
    organizer_name : string;
    organizer_email : string;
    organizer_id : string;
    department : string;
    venue : string;
    date : string;
    start_time : string;
    end_time : string;
    max_participants : Z;
    status : ApprovalStatus;
    poster_url : option string;
    created_at : string
  }.
End EventRow.

Module RegistrationRow.
Record t : Type := mk {
    id : string;
    user_id : string;
    user_name : string;
    event_id : string;
    event_title : string;
    timestamp : string;
    status : RegistrationStatus;
    qr_payload : string;
    check_in_time : option string
  }.
End RegistrationRow.

Module ParticipantRow.
Record t : Type := mk {
    id : string;
    registration_id : string;
    user_id : string;
    event_id : string;
    user_name : string;
    event_title : string;
    check_in_time : string
  }.
End ParticipantRow.

(** ** The interfaces of types.ts (camelCase, as the UI sees them) *)

Module User.
Record t : Type := mk {
    _id : string;
    name : string;
    email : string;
    password : option string;
    role : UserRole;
    indexNumber : option string;
    uniId : string;
    profilePhoto : option string;
    status : option ApprovalStatus
  }.
End User.

Module Event.
Record t : Type := mk {
    _id : string;
    title : string;
    description : string;
    organizerName : string;
    organizerEmail : string;
    organizerId : string;
    department : string;
    venue : string;
    date : string;
    startTime : string;
    endTime : string;
    maxParticipants : Z;
    status : ApprovalStatus;
    createdAt : string;
    posterUrl : option string
  }.
End Event.

Module Registration.
Record t : Type := mk {
    _id : string;
    userId : string;
    userName : string;
    eventId : string;
    eventTitle : string;
    timestamp : string;
    status : RegistrationStatus;
    qrPayload : string;
    checkInTime : option string
  }.
End Registration.

(** [Omit<User, '_id'>], the argument of [createUser]. *)
Module NewUser.
Record t : Type := mk {
    name : string;
    email : string;
    password : option string;
    role : UserRole;
    indexNumber : option string;
    uniId : string;
    profilePhoto : option string;
    status : option ApprovalStatus
  }.
End NewUser.

(** [Omit<Event, '_id' | 'status' | 'createdAt'>], the argument of
    [createEvent]. *)
Module NewEvent.
Record t : Type := mk {
    title : string;
    description : string;
    organizerName : string;
    organizerEmail : string;
    organizerId : string;
    department : string;
    venue : string;
    date : string;
    startTime : string;
    endTime : string;
    maxParticipants : Z;
    posterUrl : option string
  }.
End NewEvent.

(** ** The store *)

Record Store : Type := mkStore {
  users : list UserRow.t;
  events : list EventRow.t;
  registrations : list RegistrationRow.t;
  participants : list ParticipantRow.t
}.

Definition with_users (us : list UserRow.t) (db : Store) : Store :=
  {| users := us; events := events db;
     registrations := registrations db; participants := participants db |}.

Definition with_events (es : list EventRow.t) (db : Store) : Store :=
  {| users := users db; events := es;
     registrations := registrations db; participants := participants db |}.

Definition with_registrations (rs : list RegistrationRow.t) (db : Store) : Store :=
  {| users := users db; events := events db;
     registrations := rs; participants := participants db |}.

Definition with_participants (ps : list ParticipantRow.t) (db : Store) : Store :=
  {| users := users db; events := events db;
     registrations := registrations db; participants := ps |}.

(** ** Responses of the client *)

Definition PostgrestError : Type := string.

Record PostgrestResponse (T : Type) : Type := mkResponse {
  data : option T;
  error : option PostgrestError
}.

Arguments mkResponse {T} data error.
Arguments data {T} p.
Arguments error {T} p.

Definition answered {T : Type} (d : T) : PostgrestResponse T :=
  {| data := Some d; error := None |}.

Definition failed {T : Type} (e : PostgrestError) : PostgrestResponse T :=
  {| data := None; error := Some e |}.

Definition no_row {T : Type} : PostgrestResponse T :=
  {| data := None; error := None |}.

(** Code PostgREST reports when [single]/[maybeSingle] does not get its row
    count, and the SQLSTATEs of the constraints of the schema. *)
Definition PGRST116 : PostgrestError := "PGRST116".
Definition unique_violation : PostgrestError := "23505".
Definition foreign_key_violation : PostgrestError := "23503".
Definition not_null_violation : PostgrestError := "23502".

(** [fault] is what the environment says of one request: [Some e] when it
    fails before the tables are consulted, [None] when it is served. *)
Definition Fault : Type := option PostgrestError.

(** [.select('*')] with no row-count modifier. *)
Definition select_all {T : Type} (fault : Fault) (rows : list T)
  : PostgrestResponse (list T) :=
  match fault with
  | Some e => failed e
  | None => answered rows
  end.

(** [.maybeSingle()]: no row gives [data = null] without an error, one row is
    returned, more than one is an error. *)
Definition maybeSingle {T : Type} (fault : Fault) (rows : list T)
  : PostgrestResponse T :=
  match fault with
  | Some e => failed e
  | None =>
      match rows with
      | [] => no_row
      | [r] => answered r
      | _ :: _ :: _ => failed PGRST116
      end
  end.

(** [.single()]: exactly one row, anything else is an error. *)
Definition single {T : Type} (fault : Fault) (rows : list T)
  : PostgrestResponse T :=
  match fault with
  | Some e => failed e
  | None =>
      match rows with
      | [r] => answered r
      | _ => failed PGRST116
      end
  end.

(** [.update(...).eq(...)]: every row selected by [sel] is rewritten by
    [set]; a failed request leaves the table as it was. *)
Definition update_where {T : Type} (fault : Fault) (sel : T -> bool)
    (set : T -> T) (rows : list T) : option PostgrestError * list T :=
  match fault with
  | Some e => (Some e, rows)
  | None => (None, map (fun r => if sel r then set r else r) rows)
  end.

Definition mem (x : string) (l : list string) : bool :=
  existsb (String.eqb x) l.

(** ** Inserts, with the constraints of the setup script *)

(** [users]: [password text not null], primary key [id], [email unique],
    [uni_id unique]. *)
Definition insert_user (fault : Fault) (row : UserRow.t) (db : Store)
  : PostgrestResponse UserRow.t * Store :=
  match fault with
  | Some e => (failed e, db)
  | None =>
      if match UserRow.password row with None => true | Some _ => false end
      then (failed not_null_violation, db)
      else if mem (UserRow.id row) (map UserRow.id (users db))
         || mem (UserRow.email row) (map UserRow.email (users db))
         || mem (UserRow.uni_id row) (map UserRow.uni_id (users db))
      then (failed unique_violation, db)
      else (answered row, with_users (users db ++ [row]) db)
  end.

(** [events]: primary key [id], [organizer_id references users(id)]. *)
Definition insert_event (fault : Fault) (row : EventRow.t) (db : Store)
  : PostgrestResponse EventRow.t * Store :=
  match fault with
  | Some e => (failed e, db)
  | None =>
      if mem (EventRow.id row) (map EventRow.id (events db))
      then (failed unique_violation, db)
      else if negb (mem (EventRow.organizer_id row) (map UserRow.id (users db)))
      then (failed foreign_key_violation, db)
      else (answered row, with_events (events db ++ [row]) db)
  end.

(** [registrations]: primary key [id], [user_id references users(id)],
    [event_id references events(id)].  There is no constraint on the pair
    (user_id, event_id). *)
Definition insert_registration (fault : Fault) (row : RegistrationRow.t)
    (db : Store) : PostgrestResponse RegistrationRow.t * Store :=
  match fault with
  | Some e => (failed e, db)
  | None =>
      if mem (RegistrationRow.id row) (map RegistrationRow.id (registrations db))
      then (failed unique_violation, db)
      else if negb (mem (RegistrationRow.user_id row) (map UserRow.id (users db)))
              || negb (mem (RegistrationRow.event_id row) (map EventRow.id (events db)))
      then (failed foreign_key_violation, db)
      else (answered row, with_registrations (registrations db ++ [row]) db)
  end.

(** [participants]: primary key [id] and three foreign keys. *)
Definition insert_participant (fault : Fault) (row : ParticipantRow.t)
    (db : Store) : PostgrestResponse ParticipantRow.t * Store :=
  match fault with
  | Some e => (failed e, db)
  | None =>
      if mem (ParticipantRow.id row) (map ParticipantRow.id (participants db))
      then (failed unique_violation, db)
      else if negb (mem (ParticipantRow.registration_id row)
                        (map RegistrationRow.id (registrations db)))
              || negb (mem (ParticipantRow.user_id row) (map UserRow.id (users db)))
              || negb (mem (ParticipantRow.event_id row) (map EventRow.id (events db)))
      then (failed foreign_key_violation, db)
      else (answered row, with_participants (participants db ++ [row]) db)
  end.

(** [delete from events where id = eventId], with the [on delete cascade] of
    [registrations.event_id], [participants.event_id] and
    [participants.registration_id]. *)
Definition delete_event (fault : Fault) (eventId : string) (db : Store)
  : option PostgrestError * Store :=
  match fault with
  | Some e => (Some e, db)
  | None =>
      let gone :=
        filter (fun r => String.eqb (RegistrationRow.event_id r) eventId)
               (registrations db) in
      (None,
       {| users := users db;
          events :=
            filter (fun e => negb (String.eqb (EventRow.id e) eventId)) (events db);
          registrations :=
            filter (fun r => negb (String.eqb (RegistrationRow.event_id r) eventId))
                   (registrations db);
          participants :=
            filter (fun p =>
                      negb (String.eqb (ParticipantRow.event_id p) eventId)
                      && negb (mem (ParticipantRow.registration_id p)
                                   (map RegistrationRow.id gone)))
                   (participants db) |})
  end.

(** ** The client of the module *)

(** The two variables of [process.env] the module reads; [None] is
    [undefined]. *)
Record ProcessEnv : Type := mkProcessEnv {
  env_SUPABASE_URL : option string;
  env_SUPABASE_ANON_KEY : option string
}.

(** Truthiness of a JavaScript string: every string but the empty one. *)
Definition truthy (s : string) : bool := negb (String.eqb s "").

(** [v || fallback] on a string that may be undefined. *)
Definition or_else (v : option string) (fallback : string) : string :=
  match v with
  | Some s => if truthy s then s else fallback
  | None => fallback
  end.

Definition SUPABASE_URL (pe : ProcessEnv) : string :=
  or_else (env_SUPABASE_URL pe) "https://kfbnobnuqlnugqesdwmj.supabase.co".

Definition SUPABASE_ANON_KEY (pe : ProcessEnv) : string :=
  or_else (env_SUPABASE_ANON_KEY pe)
          "sb_publishable_wHrJ8oJPCDLD6Kr75ItsPA_LgvqUZcD".

Record SupabaseClient : Type := createClient {
  supabaseUrl : string;
  supabaseKey : string
}.

(** [let supabase = null; if (SUPABASE_URL && SUPABASE_ANON_KEY) supabase =
    createClient(...)]. *)
Definition supabase (pe : ProcessEnv) : option SupabaseClient :=
  if truthy (SUPABASE_URL pe) && truthy (SUPABASE_ANON_KEY pe)
  then Some (createClient (SUPABASE_URL pe) (SUPABASE_ANON_KEY pe))
  else None.

(** ** Promises *)

Inductive JSError : Type :=
| Error (message : string)
| Thrown (e : PostgrestError)
| TypeError (message : string).

Inductive Promise (T : Type) : Type :=
| Resolved (v : T)
| Rejected (e : JSError).

Arguments Resolved {T} v.
Arguments Rejected {T} e.

Definition not_configured : JSError := Error "Database not configured".

(** What reading a property of [null] throws. *)
Definition null_property : JSError :=
  TypeError "Cannot read properties of null".

(** ** Row mappers *)

Definition mapUser (data : UserRow.t) : User.t :=
  {| User._id := UserRow.id data;
     User.name := UserRow.name data;
     User.email := UserRow.email data;
     User.password := UserRow.password data;
     User.role := UserRow.role data;
     User.indexNumber := None;
     User.uniId := UserRow.uni_id data;
     User.profilePhoto := UserRow.profile_photo data;
     User.status :=
       match UserRow.status data with
       | Some s => Some s
       | None => Some approved
       end |}.

Definition mapEvent (data : EventRow.t) : Event.t :=
  {| Event._id := EventRow.id data;
     Event.title := EventRow.title data;
     Event.description := EventRow.description data;
     Event.organizerName := EventRow.organizer_name data;
     Event.organizerEmail := EventRow.organizer_email data;
     Event.organizerId := EventRow.organizer_id data;
     Event.department := EventRow.department data;
     Event.venue := EventRow.venue data;
     Event.date := EventRow.date data;
     Event.startTime := EventRow.start_time data;
     Event.endTime := EventRow.end_time data;
     Event.maxParticipants := EventRow.max_participants data;
     Event.status := EventRow.status data;
     Event.createdAt := EventRow.created_at data;
     Event.posterUrl := EventRow.poster_url data |}.

Definition mapReg (data : RegistrationRow.t) : Registration.t :=
  {| Registration._id := RegistrationRow.id data;
     Registration.userId := RegistrationRow.user_id data;
     Registration.userName := RegistrationRow.user_name data;
     Registration.eventId := RegistrationRow.event_id data;
     Registration.eventTitle := RegistrationRow.event_title data;
     Registration.timestamp := RegistrationRow.timestamp data;
     Registration.status := RegistrationRow.status data;
     Registration.qrPayload := RegistrationRow.qr_payload data;
     Registration.checkInTime := RegistrationRow.check_in_time data |}.

(** ** Environments of the operations *)

(** One read request. *)
Module ReadEnv.
Record t : Type := mk {
  fault : Fault
}.
End ReadEnv.

(** One write request that draws an id and the server's [now()]. *)
Module InsertEnv.
Record t : Type := mk {
  fault : Fault;
  uuid : string;
  server_now : string
}.
End InsertEnv.

(** [init]: the lookup of the admin, then the insert of the seed row. *)
Module InitEnv.
Record t : Type := mk {
  lookupFault : Fault;
  insertFault : Fault;
  uuid : string;
  server_now : string
}.
End InitEnv.

(** [registerForEvent]: the existence lookup, then the insert; [now] is the
    client clock. *)
Module RegisterEnv.
Record t : Type := mk {
  lookupFault : Fault;
  insertFault : Fault;
  uuid : string;
  now : string
}.
End RegisterEnv.

(** [checkInUser]: the lookup by payload, the update, the insert of the audit
    row and the final re-read; [now] is the client clock, [uuid] the id of
    the audit row. *)
Module CheckInEnv.
Record t : Type := mk {
  fetchFault : Fault;
  updateFault : Fault;
  insertFault : Fault;
  finalFault : Fault;
  now : string;
  uuid : string
}.
End CheckInEnv.

(** The object [checkInUser] resolves to. *)
Record CheckInResult : Type := mkCheckInResult {
  success : bool;
  message : option string;
  registration : option Registration.t
}.

(** The [status] argument of [updateUserStatus] and [updateEventStatus],
    typed ['approved' | 'rejected']. *)
Inductive Verdict : Type := verdict_approved | verdict_rejected.

Definition Verdict_status (v : Verdict) : ApprovalStatus :=
  match v with
  | verdict_approved => approved
  | verdict_rejected => rejected
  end.

(** The columns [checkInUser] writes: [{ status: 'checked-in', check_in_time:
    now }]. *)
Definition set_checked_in (now : string) (r : RegistrationRow.t)
  : RegistrationRow.t :=
  {| RegistrationRow.id := RegistrationRow.id r;
     RegistrationRow.user_id := RegistrationRow.user_id r;
     RegistrationRow.user_name := RegistrationRow.user_name r;
     RegistrationRow.event_id := RegistrationRow.event_id r;
     RegistrationRow.event_title := RegistrationRow.event_title r;
     RegistrationRow.timestamp := RegistrationRow.timestamp r;
     RegistrationRow.status := checked_in;
     RegistrationRow.qr_payload := RegistrationRow.qr_payload r;
     RegistrationRow.check_in_time := Some now |}.

Definition set_user_status (s : ApprovalStatus) (u : UserRow.t) : UserRow.t :=
  {| UserRow.id := UserRow.id u;
     UserRow.name := UserRow.name u;
     UserRow.email := UserRow.email u;
     UserRow.password := UserRow.password u;
     UserRow.role := UserRow.role u;
     UserRow.uni_id := UserRow.uni_id u;
     UserRow.profile_photo := UserRow.profile_photo u;
     UserRow.status := Some s;
     UserRow.created_at := UserRow.created_at u |}.

Definition set_event_status (s : ApprovalStatus) (e : EventRow.t) : EventRow.t :=
  {| EventRow.id := EventRow.id e;
     EventRow.title := EventRow.title e;
     EventRow.description := EventRow.description e;
     EventRow.organizer_name := EventRow.organizer_name e;
     EventRow.organizer_email := EventRow.organizer_email e;
     EventRow.organizer_id := EventRow.organizer_id e;
     EventRow.department := EventRow.department e;
     EventRow.venue := EventRow.venue e;
     EventRow.date := EventRow.date e;
     EventRow.start_time := EventRow.start_time e;
     EventRow.end_time := EventRow.end_time e;
     EventRow.max_participants := EventRow.max_participants e;
     EventRow.status := s;
     EventRow.poster_url := EventRow.poster_url e;
     EventRow.created_at := EventRow.created_at e |}.

(** The first request of [checkInUser]:
    [from('registrations').select('*').eq('qr_payload', qrPayload).maybeSingle()]. *)
Definition fetch_by_payload (env : CheckInEnv.t) (qrPayload : string)
    (db : Store) : PostgrestResponse RegistrationRow.t :=
  maybeSingle (CheckInEnv.fetchFault env)
    (filter (fun r => String.eqb (RegistrationRow.qr_payload r) qrPayload)
            (registrations db)).

(** The table after [update({ status: 'checked-in', check_in_time: now })
    .eq('id', id)] has been served. *)
Definition mark_checked_in (now id : string) (rows : list RegistrationRow.t)
  : list RegistrationRow.t :=
  snd (update_where None (fun r => String.eqb (RegistrationRow.id r) id)
         (set_checked_in now) rows).

(** ** The facade [DB] *)

Module DB.
Section Facade.

(** The client the functions close over ([supabase] in the source; the
    program runs them with [supabase pe]). *)
Variable client : option SupabaseClient.

(** The backend's [ORDER BY column]: [order key ascending rows].  Collation
    and timestamp comparison belong to the database; nothing is assumed of
    it. *)
Variable order : forall T : Type, (T -> string) -> bool -> list T -> list T.

Definition isConfigured : bool :=
  match client with
  | Some _ => true
  | None => false
  end.

Definition admin_seed (env : InitEnv.t) : UserRow.t :=
  {| UserRow.id := InitEnv.uuid env;
     UserRow.name := "System Admin";
     UserRow.email := "admin@gmail.com";
     UserRow.password := Some "123";
     UserRow.role := admin;
     UserRow.uni_id := "ADMIN-001";
     UserRow.profile_photo := Some "/admin.png";
     UserRow.status := Some approved;
     UserRow.created_at := InitEnv.server_now env |}.

(** [init]: neither response's [error] is read, and the [try] swallows
    whatever is thrown. *)
Definition init (env : InitEnv.t) (db : Store) : Promise unit * Store :=
  match client with
  | None => (Resolved tt, db)
  | Some _ =>
      let found :=
        maybeSingle (InitEnv.lookupFault env)
          (map UserRow.id
             (filter (fun u => String.eqb (UserRow.email u) "admin@gmail.com")
                     (users db))) in
      match data found with
      | Some _ => (Resolved tt, db)
      | None =>
          (Resolved tt,
           snd (insert_user (InitEnv.insertFault env) (admin_seed env) db))
      end
  end.

Definition findUserByEmail (env : ReadEnv.t) (email : string) (db : Store)
  : Promise (option User.t) * Store :=
  match client with
  | None => (Rejected not_configured, db)
  | Some _ =>
      let res :=
        maybeSingle (ReadEnv.fault env)
          (filter (fun u => String.eqb (UserRow.email u) email) (users db)) in
      match error res with
      | Some e => (Rejected (Thrown e), db)
      | None =>
          match data res with
          | None => (Resolved None, db)
          | Some d => (Resolved (Some (mapUser d)), db)
          end
      end
  end.

Definition createUser (env : InsertEnv.t) (user : NewUser.t) (db : Store)
  : Promise User.t * Store :=
  match client with
  | None => (Rejected not_configured, db)
  | Some _ =>
      let status :=
        if UserRole_eqb (NewUser.role user) organizer then pending else approved in
      let (res, db') :=
        insert_user (InsertEnv.fault env)
          {| UserRow.id := InsertEnv.uuid env;
             UserRow.name := NewUser.name user;
             UserRow.email := NewUser.email user;
             UserRow.password := NewUser.password user;
             UserRow.role := NewUser.role user;
             UserRow.uni_id := NewUser.uniId user;
             UserRow.profile_photo := NewUser.profilePhoto user;
             UserRow.status := Some status;
             UserRow.created_at := InsertEnv.server_now env |} db in
      match error res with
      | Some e => (Rejected (Thrown e), db')
      | None =>
          match data res with
          | Some d => (Resolved (mapUser d), db')
          | None => (Rejected null_property, db')
          end
      end
  end.

Definition getAllUsers (env : ReadEnv.t) (db : Store)
  : Promise (list User.t) * Store :=
  match client with
  | None => (Resolved [], db)
  | Some _ =>
      let res :=
        select_all (ReadEnv.fault env)
          (order _ (fun u => UserRole_text (UserRow.role u)) true (users db)) in
      match error res with
      | Some _ => (Resolved [], db)
      | None =>
          match data res with
          | Some d => (Resolved (map mapUser d), db)
          | None => (Rejected null_property, db)
          end
      end
  end.

Definition getPendingUsers (env : ReadEnv.t) (db : Store)
  : Promise (list User.t) * Store :=
  match client with
  | None => (Resolved [], db)
  | Some _ =>
      let res :=
        select_all (ReadEnv.fault env)
          (filter (fun u =>
                     UserRole_eqb (UserRow.role u) organizer
                     && match UserRow.status u with
                        | Some s => ApprovalStatus_eqb s pending
                        | None => false
                        end)
                  (users db)) in
      match error res with
      | Some _ => (Resolved [], db)
      | None =>
          match data res with
          | Some d => (Resolved (map mapUser d), db)
          | None => (Rejected null_property, db)
          end
      end
  end.

Definition updateUserStatus (env : ReadEnv.t) (userId : string)
    (status : Verdict) (db : Store) : Promise bool * Store :=
  match client with
  | None => (Rejected not_configured, db)
  | Some _ =>
      let (err, us) :=
        update_where (ReadEnv.fault env)
          (fun u => String.eqb (UserRow.id u) userId)
          (set_user_status (Verdict_status status)) (users db) in
      (Resolved match err with Some _ => false | None => true end,
       with_users us db)
  end.

Definition getEvents (env : ReadEnv.t) (db : Store)
  : Promise (list Event.t) * Store :=
  match client with
  | None => (Resolved [], db)
  | Some _ =>
      let res :=
        select_all (ReadEnv.fault env)
          (order _ EventRow.created_at false (events db)) in
      match error res with
      | Some _ => (Resolved [], db)
      | None =>
          match data res with
          | Some d => (Resolved (map mapEvent d), db)
          | None => (Rejected null_property, db)
          end
      end
  end.

Definition createEvent (env : InsertEnv.t) (evt : NewEvent.t) (db : Store)
  : Promise Event.t * Store :=
  match client with
  | None => (Rejected not_configured, db)
  | Some _ =>
      let (res, db') :=
        insert_event (InsertEnv.fault env)
          {| EventRow.id := InsertEnv.uuid env;
             EventRow.title := NewEvent.title evt;
             EventRow.description := NewEvent.description evt;
             EventRow.organizer_name := NewEvent.organizerName evt;
             EventRow.organizer_email := NewEvent.organizerEmail evt;
             EventRow.organizer_id := NewEvent.organizerId evt;
             EventRow.department := NewEvent.department evt;
             EventRow.venue := NewEvent.venue evt;
             EventRow.date := NewEvent.date evt;
             EventRow.start_time := NewEvent.startTime evt;
             EventRow.end_time := NewEvent.endTime evt;
             EventRow.max_participants := NewEvent.maxParticipants evt;
             EventRow.status := pending;
             EventRow.poster_url := NewEvent.posterUrl evt;
             EventRow.created_at := InsertEnv.server_now env |} db in
      match error res with
      | Some e => (Rejected (Thrown e), db')
      | None =>
          match data res with
          | Some d => (Resolved (mapEvent d), db')
          | None => (Rejected null_property, db')
          end
      end
  end.

Definition updateEventStatus (env : ReadEnv.t) (eventId : string)
    (status : Verdict) (db : Store) : Promise bool * Store :=
  match client with
  | None => (Rejected not_configured, db)
  | Some _ =>
      let (err, es) :=
        update_where (ReadEnv.fault env)
          (fun e => String.eqb (EventRow.id e) eventId)
          (set_event_status (Verdict_status status)) (events db) in
      (Resolved match err with Some _ => false | None => true end,
       with_events es db)
  end.

Definition deleteEvent (env : ReadEnv.t) (eventId : string) (db : Store)
  : Promise unit * Store :=
  match client with
  | None => (Resolved tt, db)
  | Some _ => (Resolved tt, snd (delete_event (ReadEnv.fault env) eventId db))
  end.

(** [registerForEvent]: only [data] of the existence lookup is read; its
    [error] is dropped. *)
Definition registerForEvent (env : RegisterEnv.t)
    (userId userName eventId eventTitle : string) (db : Store)
  : Promise (option Registration.t) * Store :=
  match client with
  | None => (Rejected not_configured, db)
  | Some _ =>
      let existing :=
        data (maybeSingle (RegisterEnv.lookupFault env)
                (map RegistrationRow.id
                   (filter (fun r =>
                              String.eqb (RegistrationRow.user_id r) userId
                              && String.eqb (RegistrationRow.event_id r) eventId)
                           (registrations db)))) in
      match existing with
      | Some _ => (Resolved None, db)
      | None =>
          let (res, db') :=
            insert_registration (RegisterEnv.insertFault env)
              {| RegistrationRow.id := RegisterEnv.uuid env;
                 RegistrationRow.user_id := userId;
                 RegistrationRow.user_name := userName;
                 RegistrationRow.event_id := eventId;
                 RegistrationRow.event_title := eventTitle;
                 RegistrationRow.timestamp := RegisterEnv.now env;
                 RegistrationRow.status := registered;
                 RegistrationRow.qr_payload := eventId ++ ":" ++ userId;
                 RegistrationRow.check_in_time := None |} db in
          match error res with
          | Some e => (Rejected (Thrown e), db')
          | None =>
              match data res with
              | Some d => (Resolved (Some (mapReg d)), db')
              | None => (Rejected null_property, db')
              end
          end
      end
  end.

Definition getRegistrationsByUser (env : ReadEnv.t) (userId : string)
    (db : Store) : Promise (list Registration.t) * Store :=
  match client with
  | None => (Resolved [], db)
  | Some _ =>
      let res :=
        select_all (ReadEnv.fault env)
          (filter (fun r => String.eqb (RegistrationRow.user_id r) userId)
                  (registrations db)) in
      match error res with
      | Some _ => (Resolved [], db)
      | None =>
          match data res with
          | Some d => (Resolved (map mapReg d), db)
          | None => (Rejected null_property, db)
          end
      end
  end.

Definition getRegistrationsByEvent (env : ReadEnv.t) (eventId : string)
    (db : Store) : Promise (list Registration.t) * Store :=
  match client with
  | None => (Resolved [], db)
  | Some _ =>
      let res :=
        select_all (ReadEnv.fault env)
          (filter (fun r => String.eqb (RegistrationRow.event_id r) eventId)
                  (registrations db)) in
      match error res with
      | Some _ => (Resolved [], db)
      | None =>
          match data res with
          | Some d => (Resolved (map mapReg d), db)
          | None => (Rejected null_property, db)
          end
      end
  end.

(** [getAllParticipants] hands the rows over as they are ([any[]]). *)
Definition getAllParticipants (env : ReadEnv.t) (db : Store)
  : Promise (list ParticipantRow.t) * Store :=
  match client with
  | None => (Resolved [], db)
  | Some _ =>
      let res :=
        select_all (ReadEnv.fault env)
          (order _ ParticipantRow.check_in_time false (participants db)) in
      match error res with
      | Some _ => (Resolved [], db)
      | None =>
          match data res with
          | Some d => (Resolved d, db)
          | None => (Rejected null_property, db)
          end
      end
  end.

Definition audit_row (env : CheckInEnv.t) (reg : RegistrationRow.t)
  : ParticipantRow.t :=
  {| ParticipantRow.id := CheckInEnv.uuid env;
     ParticipantRow.registration_id := RegistrationRow.id reg;
     ParticipantRow.user_id := RegistrationRow.user_id reg;
     ParticipantRow.event_id := RegistrationRow.event_id reg;
     ParticipantRow.user_name := RegistrationRow.user_name reg;
     ParticipantRow.event_title := RegistrationRow.event_title reg;
     ParticipantRow.check_in_time := CheckInEnv.now env |}.

(** [checkInUser]: fetch by payload, inspect the status, update by id, insert
    the audit row (its response is not read), re-read by id. *)
Definition checkInUser (env : CheckInEnv.t) (qrPayload : string) (db : Store)
  : Promise CheckInResult * Store :=
  match client with
  | None => (Rejected not_configured, db)
  | Some _ =>
      let fetch := fetch_by_payload env qrPayload db in
      match error fetch, data fetch with
      | None, Some reg =>
          if RegistrationStatus_eqb (RegistrationRow.status reg) checked_in
          then (Resolved {| success := false;
                            message := Some "Already checked in!";
                            registration := Some (mapReg reg) |}, db)
          else
            let (updateError, regs) :=
              update_where (CheckInEnv.updateFault env)
                (fun r => String.eqb (RegistrationRow.id r) (RegistrationRow.id reg))
                (set_checked_in (CheckInEnv.now env)) (registrations db) in
            match updateError with
            | Some _ =>
                (Resolved {| success := false;
                             message := Some "Check-in failed.";
                             registration := None |},
                 with_registrations regs db)
            | None =>
                let db1 := with_registrations regs db in
                let db2 :=
                  snd (insert_participant (CheckInEnv.insertFault env)
                         (audit_row env reg) db1) in
                let final :=
                  single (CheckInEnv.finalFault env)
                    (filter (fun r => String.eqb (RegistrationRow.id r)
                                                 (RegistrationRow.id reg))
                            (registrations db2)) in
                match data final with
                | Some finalReg =>
                    (Resolved {| success := true;
                                 message := None;
                                 registration := Some (mapReg finalReg) |}, db2)
                | None => (Rejected null_property, db2)
                end
            end
      | _, _ =>
          (Resolved {| success := false;
                       message := Some "Invalid registration code.";
                       registration := None |}, db)
      end
  end.

End Facade.
End DB.

(** ** Calls and runs *)

(** One call of the facade with the environment it meets. *)
Inductive Call : Type :=
| call_init (env : InitEnv.t)
| call_findUserByEmail (env : ReadEnv.t) (email : string)
| call_createUser (env : InsertEnv.t) (user : NewUser.t)
| call_getAllUsers (env : ReadEnv.t)
| call_getPendingUsers (env : ReadEnv.t)
| call_updateUserStatus (env : ReadEnv.t) (userId : string) (status : Verdict)
| call_getEvents (env : ReadEnv.t)
| call_createEvent (env : InsertEnv.t) (evt : NewEvent.t)
| call_updateEventStatus (env : ReadEnv.t) (eventId : string) (status : Verdict)
| call_deleteEvent (env : ReadEnv.t) (eventId : string)
| call_registerForEvent (env : RegisterEnv.t)
    (userId userName eventId eventTitle : string)
| call_getRegistrationsByUser (env : ReadEnv.t) (userId : string)
| call_getRegistrationsByEvent (env : ReadEnv.t) (eventId : string)
| call_getAllParticipants (env : ReadEnv.t)
| call_checkInUser (env : CheckInEnv.t) (qrPayload : string).

Section Runs.

Variable client : option SupabaseClient.
Variable order : forall T : Type, (T -> string) -> bool -> list T -> list T.

(** The store a call leaves behind. *)
Definition run (c : Call) (db : Store) : Store :=
  match c with
  | call_init env => snd (DB.init client env db)
  | call_findUserByEmail env email => snd (DB.findUserByEmail client env email db)
  | call_createUser env user => snd (DB.createUser client env user db)
  | call_getAllUsers env => snd (DB.getAllUsers client order env db)
  | call_getPendingUsers env => snd (DB.getPendingUsers client env db)
  | call_updateUserStatus env userId status =>
      snd (DB.updateUserStatus client env userId status db)
  | call_getEvents env => snd (DB.getEvents client order env db)
  | call_createEvent env evt => snd (DB.createEvent client env evt db)
  | call_updateEventStatus env eventId status =>
      snd (DB.updateEventStatus client env eventId status db)
  | call_deleteEvent env eventId => snd (DB.deleteEvent client env eventId db)
  | call_registerForEvent env userId userName eventId eventTitle =>
      snd (DB.registerForEvent client env userId userName eventId eventTitle db)
  | call_getRegistrationsByUser env userId =>
      snd (DB.getRegistrationsByUser client env userId db)
  | call_getRegistrationsByEvent env eventId =>
      snd (DB.getRegistrationsByEvent client env eventId db)
  | call_getAllParticipants env => snd (DB.getAllParticipants client order env db)
  | call_checkInUser env qrPayload => snd (DB.checkInUser client env qrPayload db)
  end.

(** A sequence of calls, one after the other. *)
Fixpoint run_all (cs : list Call) (db : Store) : Store :=
  match cs with
  | [] => db
  | c :: cs' => run_all cs' (run c db)
  end.

(** A sequence of scans: [checkInUser] called with each payload in turn. *)
Fixpoint scan_all (scans : list (CheckInEnv.t * string)) (db : Store) : Store :=
  match scans with
  | [] => db
  | (env, qrPayload) :: rest =>
      scan_all rest (snd (DB.checkInUser client env qrPayload db))
  end.

(** The status stored under a registration id. *)
Definition status_of (id : string) (db : Store) : option RegistrationStatus :=
  option_map RegistrationRow.status
    (find (fun r => String.eqb (RegistrationRow.id r) id) (registrations db)).

(** Whether the step from [db] to [db'] took the registration [id] from
    'registered' to 'checked-in'. *)
Definition transitioned (id : string) (db db' : Store) : bool :=
  match status_of id db, status_of id db' with
  | Some registered, Some checked_in => true
  | _, _ => false
  end.

(** How many times a sequence of scans takes [id] from 'registered' to
    'checked-in'. *)
Fixpoint transitions (id : string) (scans : list (CheckInEnv.t * string))
    (db : Store) : nat :=
  match scans with
  | [] => 0
  | (env, qrPayload) :: rest =>
      let db' := snd (DB.checkInUser client env qrPayload db) in
      (if transitioned id db db' then 1 else 0) + transitions id rest db'
  end.

End Runs.

(** ** Invariants of the store *)

(** [id uuid primary key] on [registrations]. *)
Definition registrations_pkey (db : Store) : Prop :=
  NoDup (map RegistrationRow.id (registrations db)).

(** The invariant of the specification: at most one Registration per
    (user_id, event_id). *)
Definition one_registration_per_pair (db : Store) : Prop :=
  NoDup (map (fun r => (RegistrationRow.user_id r, RegistrationRow.event_id r))
             (registrations db)).

(** The constraints of the setup script. *)
Record schema (db : Store) : Prop := mkSchema {
  users_pkey : NoDup (map UserRow.id (users db));
  users_email_key : NoDup (map UserRow.email (users db));
  users_uni_id_key : NoDup (map UserRow.uni_id (users db));
  events_pkey : NoDup (map EventRow.id (events db));
  registrations_pkey_ok : registrations_pkey db;
  participants_pkey : NoDup (map ParticipantRow.id (participants db));
  events_organizer_id_fkey :
    forall e, In e (events db) ->
      In (EventRow.organizer_id e) (map UserRow.id (users db));
  registrations_user_id_fkey :
    forall r, In r (registrations db) ->
      In (RegistrationRow.user_id r) (map UserRow.id (users db));
  registrations_event_id_fkey :
    forall r, In r (registrations db) ->
      In (RegistrationRow.event_id r) (map EventRow.id (events db));
  participants_registration_id_fkey :
    forall p, In p (participants db) ->
      In (ParticipantRow.registration_id p)
         (map RegistrationRow.id (registrations db));
  participants_user_id_fkey :
    forall p, In p (participants db) ->
      In (ParticipantRow.user_id p) (map UserRow.id (users db));
  participants_event_id_fkey :
    forall p, In p (participants db) ->
      In (ParticipantRow.event_id p) (map EventRow.id (events db))
}.

(** ** The forms and dashboards of index.tsx that call the facade *)

(** [LoginForm]: what [sub] does once the lookup has come back is either
    [onLogin(u)] or [setErr(message)]. *)
Module LoginForm.

Inductive outcome : Type :=
| onLogin (u : User.t)
| setErr (err : string).

(** [u && u.password === pw], then the gate on pending organizers; a thrown
    error becomes 'Connection timed out.'. *)
Definition sub (client : option SupabaseClient) (env : ReadEnv.t)
    (email pw : string) (db : Store) : outcome * Store :=
  match DB.findUserByEmail client env email db with
  | (Resolved (Some u), db') =>
      if match User.password u with
         | Some p => String.eqb p pw
         | None => false
         end
      then
        if UserRole_eqb (User.role u) organizer
           && match User.status u with
              | Some s => ApprovalStatus_eqb s pending
              | None => false
              end
        then (setErr "Account pending faculty verification.", db')
        else (onLogin u, db')
      else (setErr "Invalid institutional credentials.", db')
  | (Resolved None, db') => (setErr "Invalid institutional credentials.", db')
  | (Rejected _, db') => (setErr "Connection timed out.", db')
  end.

End LoginForm.

(** [RegisterForm]: the state [form] and what [sub] ends with. *)
Module RegisterForm.

Record form : Type := mkForm {
  name : string;
  email : string;
  password : string;
  uniId : string;
  role : UserRole;
  profilePhoto : string
}.

Inductive outcome : Type :=
| alert (message : string)
| alert_setView_login (message : string)
| onLogin (u : User.t).

(** The object [createUser] is handed: the fields of the form, nothing
    else. *)
Definition user_of (f : form) : NewUser.t :=
  {| NewUser.name := name f;
     NewUser.email := email f;
     NewUser.password := Some (password f);
     NewUser.role := role f;
     NewUser.indexNumber := None;
     NewUser.uniId := uniId f;
     NewUser.profilePhoto := Some (profilePhoto f);
     NewUser.status := None |}.

Definition sub (client : option SupabaseClient) (env : InsertEnv.t)
    (f : form) (db : Store) : outcome * Store :=
  if negb (truthy (uniId f))
  then (alert "University ID is required.", db)
  else if negb (truthy (profilePhoto f))
  then (alert "Profile photo is required for institutional verification.", db)
  else
    match DB.createUser client env (user_of f) db with
    | (Resolved u, db') =>
        if UserRole_eqb (User.role u) organizer
        then (alert_setView_login
                "Staff account creation successful. Awaiting Faculty Admin verification.",
              db')
        else (onLogin u, db')
    | (Rejected _, db') =>
        (alert "Registration failed. Email or Uni ID might already exist.", db')
    end.

End RegisterForm.

(** [StudentDashboard]: [refresh] and the click on an event card. *)
Module StudentDashboard.

(** [setEvents(evs.filter(e => e.status === 'approved')); setRegs(my)]. *)
Definition refresh (client : option SupabaseClient)
    (order : forall T : Type, (T -> string) -> bool -> list T -> list T)
    (envEvents envRegs : ReadEnv.t) (user : User.t) (db : Store)
  : Promise (list Event.t * list Registration.t) :=
  match fst (DB.getEvents client order envEvents db),
        fst (DB.getRegistrationsByUser client envRegs (User._id user) db) with
  | Resolved evs, Resolved my =>
      Resolved (filter (fun e => ApprovalStatus_eqb (Event.status e) approved) evs, my)
  | Rejected e, _ => Rejected e
  | _, Rejected e => Rejected e
  end.

Inductive outcome : Type :=
| alert (message : string)
| refreshed
| unhandled (e : JSError).

(** The click handler, with [regs] the registrations the component holds in
    its state; the call of [registerForEvent] is not inside a [try]. *)
Definition onClick (client : option SupabaseClient) (env : RegisterEnv.t)
    (regs : list Registration.t) (user : User.t) (e : Event.t) (db : Store)
  : outcome * Store :=
  if existsb (fun r => String.eqb (Registration.eventId r) (Event._id e)) regs
  then (alert "You already hold a pass for this workshop.", db)
  else
    match DB.registerForEvent client env (User._id user) (User.name user)
            (Event._id e) (Event.title e) db with
    | (Resolved _, db') => (refreshed, db')
    | (Rejected err, db') => (unhandled err, db')
    end.

End StudentDashboard.

(** [OrganizerDashboard.refresh]: the organizer's events and the attendance
    rows of those events. *)
Module OrganizerDashboard.

Definition refresh (client : option SupabaseClient)
    (order : forall T : Type, (T -> string) -> bool -> list T -> list T)
    (envEvents envParticipants : ReadEnv.t) (user : User.t) (db : Store)
  : Promise (list Event.t * list ParticipantRow.t) :=
  match fst (DB.getEvents client order envEvents db),
        fst (DB.getAllParticipants client order envParticipants db) with
  | Resolved allE, Resolved allP =>
      let myEvents :=
        filter (fun e => String.eqb (Event.organizerId e) (User._id user)) allE in
      let myEventIds := map Event._id myEvents in
      Resolved (myEvents,
                filter (fun p => mem (ParticipantRow.event_id p) myEventIds) allP)
  | Rejected e, _ => Rejected e
  | _, Rejected e => Rejected e
  end.

End OrganizerDashboard.

(** [CheckInScanner.processCode]. *)
Module CheckInScanner.

Inductive outcome : Type :=
| ignored
| setResult (res : CheckInResult)
| alert (message : string).

Definition processCode (client : option SupabaseClient) (env : CheckInEnv.t)
    (busy : bool) (code : string) (db : Store) : outcome * Store :=
  if busy || negb (truthy code)
  then (ignored, db)
  else
    match DB.checkInUser client env code db with
    | (Resolved res, db') => (setResult res, db')
    | (Rejected _, db') => (alert "Check-in failed.", db')
    end.

End CheckInScanner.

(** ** Further invariants and conditions *)

(** Every stored pass carries the payload [registerForEvent] writes. *)
Definition payloads_wellformed (db : Store) : Prop :=
  forall r, In r (registrations db) ->
    RegistrationRow.qr_payload r
    = RegistrationRow.event_id r ++ ":" ++ RegistrationRow.user_id r.

(** A string without the separator of the payload. *)
Fixpoint no_colon (s : string) : bool :=
  match s with
  | EmptyString => true
  | String c s' => negb (Ascii.eqb c ":"%char) && no_colon s'
  end.

(** What is assumed of [ORDER BY] where the rows it returns matter: the same
    rows, in some order. *)
Definition order_permutes
    (order : forall T : Type, (T -> string) -> bool -> list T -> list T) : Prop :=
  forall (T : Type) (key : T -> string) (ascending : bool) (rows : list T),
    Permutation (order T key ascending rows) rows.

(** Two rows of [users] for the same account: every column but [status] is
    the same. *)
Definition same_account (u u' : UserRow.t) : Prop :=
  UserRow.id u' = UserRow.id u
  /\ UserRow.name u' = UserRow.name u
  /\ UserRow.email u' = UserRow.email u
  /\ UserRow.password u' = UserRow.password u
  /\ UserRow.role u' = UserRow.role u
  /\ UserRow.uni_id u' = UserRow.uni_id u
  /\ UserRow.profile_photo u' = UserRow.profile_photo u
  /\ UserRow.created_at u' = UserRow.created_at u.

(** Whether a call is a call of [deleteEvent]. *)
Definition is_deleteEvent (c : Call) : bool :=
  match c with
  | call_deleteEvent _ _ => true
  | _ => false
  end.

(** Whether the existence lookup of a call of [registerForEvent] is served;
    true of every other call. *)
Definition lookup_served (c : Call) : bool :=
  match c with
  | call_registerForEvent env _ _ _ _ =>
      match RegisterEnv.lookupFault env with
      | None => true
      | Some _ => false
      end
  | _ => true
  end.

(** The status column after a verdict on the rows selected by id. *)
Definition user_verdict_frame (userId : string) (v : Verdict)
    (u u' : UserRow.t) : Prop :=
  (UserRow.id u = userId -> u' = set_user_status (Verdict_status v) u)
  /\ (UserRow.id u <> userId -> u' = u).

(** ** Steps of the store *)

(** The store once the update has been served and the audit insert has been
    tried. *)
Definition after_check_in (env : CheckInEnv.t) (reg : RegistrationRow.t)
    (db : Store) : Store :=
  snd (insert_participant (CheckInEnv.insertFault env) (DB.audit_row env reg)
         (with_registrations
            (mark_checked_in (CheckInEnv.now env) (RegistrationRow.id reg)
               (registrations db)) db)).

(** How a row of the table may differ after a check-in of [reg]: the row of
    [reg] keeps every column but [status] and [check_in_time]; any other row
    is the same. *)
Definition check_in_frame (reg r r' : RegistrationRow.t) : Prop :=
  (r = reg ->
     RegistrationRow.id r' = RegistrationRow.id r
     /\ RegistrationRow.user_id r' = RegistrationRow.user_id r
     /\ RegistrationRow.user_name r' = RegistrationRow.user_name r
     /\ RegistrationRow.event_id r' = RegistrationRow.event_id r
     /\ RegistrationRow.event_title r' = RegistrationRow.event_title r
     /\ RegistrationRow.timestamp r' = RegistrationRow.timestamp r
     /\ RegistrationRow.qr_payload r' = RegistrationRow.qr_payload r)
  /\ (r <> reg -> r' = r).

(** The id a call draws for a new row of [registrations], if it is one that
    inserts there. *)
Definition drawn_registration_id (c : Call) : option string :=
  match c with
  | call_registerForEvent env _ _ _ _ => Some (RegisterEnv.uuid env)
  | _ => None
  end.

(** The four ways the table moves: not at all, by one appended row that is
    'registered' under the id drawn, which is fresh, by the cascade of a
    deleted event, or by the check-in of a stored row that was 'registered'. *)
Inductive registrations_step (drawn : option string)
    (rows : list RegistrationRow.t) : list RegistrationRow.t -> Prop :=
| step_same : registrations_step drawn rows rows
| step_insert (row : RegistrationRow.t) :
    drawn = Some (RegistrationRow.id row) ->
    ~ In (RegistrationRow.id row) (map RegistrationRow.id rows) ->
    RegistrationRow.status row = registered ->
    registrations_step drawn rows (rows ++ [row])
| step_delete (eventId : string) :
    registrations_step drawn rows
      (filter (fun r => negb (String.eqb (RegistrationRow.event_id r) eventId)) rows)
| step_check_in (now : string) (reg : RegistrationRow.t) :
    In reg rows ->
    RegistrationRow.status reg = registered ->
    registrations_step drawn rows
      (mark_checked_in now (RegistrationRow.id reg) rows).

(** ** A small store for closed examples *)

Definition empty_store : Store :=
  {| users := []; events := []; registrations := []; participants := [] |}.

Definition ann : UserRow.t :=
  {| UserRow.id := "u1"; UserRow.name := "Ann"; UserRow.email := "ann@uni.lk";
     UserRow.password := Some "pw"; UserRow.role := student;
     UserRow.uni_id := "S-001"; UserRow.profile_photo := None;
     UserRow.status := Some approved; UserRow.created_at := "2024-01-01T08:00:00Z" |}.

Definition bob : UserRow.t :=
  {| UserRow.id := "u2"; UserRow.name := "Bob"; UserRow.email := "bob@uni.lk";
     UserRow.password := Some "pw"; UserRow.role := organizer;
     UserRow.uni_id := "O-001"; UserRow.profile_photo := None;
     UserRow.status := Some approved; UserRow.created_at := "2024-01-01T08:30:00Z" |}.

Definition workshop : EventRow.t :=
  {| EventRow.id := "e1"; EventRow.title := "Rocq workshop";
     EventRow.description := "Proofs"; EventRow.organizer_name := "Bob";
     EventRow.organizer_email := "bob@uni.lk"; EventRow.organizer_id := "u2";
     EventRow.department := "ICT"; EventRow.venue := "Hall A";
     EventRow.date := "2024-02-01"; EventRow.start_time := "09:00";
     EventRow.end_time := "11:00"; EventRow.max_participants := 50%Z;
     EventRow.status := approved; EventRow.poster_url := None;
     EventRow.created_at := "2024-01-02T08:00:00Z" |}.

(** Ann's pass for the workshop, not yet scanned. *)
Definition pass : RegistrationRow.t :=
  {| RegistrationRow.id := "r1"; RegistrationRow.user_id := "u1";
     RegistrationRow.user_name := "Ann"; RegistrationRow.event_id := "e1";
     RegistrationRow.event_title := "Rocq workshop";
     RegistrationRow.timestamp := "2024-01-03T08:00:00Z";
     RegistrationRow.status := registered;
     RegistrationRow.qr_payload := "e1:u1";
     RegistrationRow.check_in_time := None |}.

(** The same pass once scanned at nine. *)
Definition pass_used : RegistrationRow.t :=
  set_checked_in "2024-02-01T09:00:00Z" pass.

Definition attendance : ParticipantRow.t :=
  {| ParticipantRow.id := "p1"; ParticipantRow.registration_id := "r1";
     ParticipantRow.user_id := "u1"; ParticipantRow.event_id := "e1";
     ParticipantRow.user_name := "Ann";
     ParticipantRow.event_title := "Rocq workshop";
     ParticipantRow.check_in_time := "2024-02-01T09:00:00Z" |}.

(** Ann holds a pass that has not been scanned. *)
Definition campus : Store :=
  {| users := [ann; bob]; events := [workshop];
     registrations := [pass]; participants := [] |}.

(** Ann has been admitted. *)
Definition campus_admitted : Store :=
  {| users := [ann; bob]; events := [workshop];
     registrations := [pass_used]; participants := [attendance] |}.

(** Nobody holds a pass yet. *)
Definition campus_open : Store :=
  {| users := [ann; bob]; events := [workshop];
     registrations := []; participants := [] |}.

(** A second pass for the same user and the same event. *)
Definition second_pass : RegistrationRow.t :=
  {| RegistrationRow.id := "r2"; RegistrationRow.user_id := "u1";
     RegistrationRow.user_name := "Ann"; RegistrationRow.event_id := "e1";
     RegistrationRow.event_title := "Rocq workshop";
     RegistrationRow.timestamp := "2024-01-04T08:00:00Z";
     RegistrationRow.status := registered;
     RegistrationRow.qr_payload := "e1:u1";
     RegistrationRow.check_in_time := None |}.

(** Ann holds two passes for the workshop. *)
Definition campus_twice : Store :=
  {| users := [ann; bob]; events := [workshop];
     registrations := [pass; second_pass]; participants := [] |}.

Definition no_env : ProcessEnv :=
  {| env_SUPABASE_URL := None; env_SUPABASE_ANON_KEY := None |}.

(** A scan during which every request is served. *)
Definition calm_scan : CheckInEnv.t :=
  {| CheckInEnv.fetchFault := None; CheckInEnv.updateFault := None;
     CheckInEnv.insertFault := None; CheckInEnv.finalFault := None;
     CheckInEnv.now := "2024-02-01T09:00:00Z"; CheckInEnv.uuid := "p1" |}.

(** A scan whose update request fails. *)
Definition update_down : CheckInEnv.t :=
  {| CheckInEnv.fetchFault := None;
     CheckInEnv.updateFault := Some "fetch failed";
     CheckInEnv.insertFault := None; CheckInEnv.finalFault := None;
     CheckInEnv.now := "2024-02-01T09:00:00Z"; CheckInEnv.uuid := "p1" |}.

(** A scan whose audit insert fails while the re-read is served. *)
Definition audit_down : CheckInEnv.t :=
  {| CheckInEnv.fetchFault := None; CheckInEnv.updateFault := None;
     CheckInEnv.insertFault := Some "fetch failed";
     CheckInEnv.finalFault := None;
     CheckInEnv.now := "2024-02-01T09:00:00Z"; CheckInEnv.uuid := "p1" |}.

(** A scan that loses the connection after the update: neither the audit
    insert nor the re-read is served. *)
Definition link_lost : CheckInEnv.t :=
  {| CheckInEnv.fetchFault := None; CheckInEnv.updateFault := None;
     CheckInEnv.insertFault := Some "fetch failed";
     CheckInEnv.finalFault := Some "fetch failed";
     CheckInEnv.now := "2024-02-01T09:00:00Z"; CheckInEnv.uuid := "p1" |}.

(** A registration during which both requests are served. *)
Definition calm_register : RegisterEnv.t :=
  {| RegisterEnv.lookupFault := None; RegisterEnv.insertFault := None;
     RegisterEnv.uuid := "r2"; RegisterEnv.now := "2024-01-04T08:00:00Z" |}.

(** A registration whose existence lookup fails and whose insert is served. *)
Definition lookup_down : RegisterEnv.t :=
  {| RegisterEnv.lookupFault := Some "fetch failed";
     RegisterEnv.insertFault := None;
     RegisterEnv.uuid := "r2"; RegisterEnv.now := "2024-01-04T08:00:00Z" |}.

Definition unreachable : ReadEnv.t := {| ReadEnv.fault := Some "fetch failed" |}.

Definition calm_insert : InsertEnv.t :=
  {| InsertEnv.fault := None; InsertEnv.uuid := "u3";
     InsertEnv.server_now := "2024-01-05T08:00:00Z" |}.

Definition carol (role : UserRole) (status : option ApprovalStatus) : NewUser.t :=
  {| NewUser.name := "Carol"; NewUser.email := "carol@uni.lk";
     NewUser.password := Some "pw"; NewUser.role := role;
     NewUser.indexNumber := None; NewUser.uniId := "X-003";
     NewUser.profilePhoto := Some "data:image/png;base64,AAAA";
     NewUser.status := status |}.

(** An [ORDER BY] that leaves the rows as they come, for closed examples. *)
Definition as_stored : forall T : Type, (T -> string) -> bool -> list T -> list T :=
  fun _ _ _ rows => rows.

(** The first start of the application: both requests of [init] are
    served. *)
Definition first_start : InitEnv.t :=
  {| InitEnv.lookupFault := None; InitEnv.insertFault := None;
     InitEnv.uuid := "u0"; InitEnv.server_now := "2024-01-01T07:00:00Z" |}.

(** A later start during which nothing is served. *)
Definition offline_start : InitEnv.t :=
  {| InitEnv.lookupFault := Some "fetch failed";
     InitEnv.insertFault := Some "fetch failed";
     InitEnv.uuid := "u9"; InitEnv.server_now := "2024-03-01T07:00:00Z" |}.

Definition served : ReadEnv.t := {| ReadEnv.fault := None |}.

(** Dan applied as an organizer and waits for the admin. *)
Definition dan : UserRow.t :=
  {| UserRow.id := "u4"; UserRow.name := "Dan"; UserRow.email := "dan@uni.lk";
     UserRow.password := Some "secret"; UserRow.role := organizer;
     UserRow.uni_id := "O-004"; UserRow.profile_photo := None;
     UserRow.status := Some pending; UserRow.created_at := "2024-01-06T08:00:00Z" |}.

Definition campus_with_dan : Store :=
  {| users := [ann; bob; dan]; events := [workshop];
     registrations := [pass]; participants := [] |}.

(** Eve fills in the sign-up form. *)
Definition eve_form (role : UserRole) : RegisterForm.form :=
  {| RegisterForm.name := "Eve"; RegisterForm.email := "eve@uni.lk";
     RegisterForm.password := "hunter2"; RegisterForm.uniId := "X-005";
     RegisterForm.role := role;
     RegisterForm.profilePhoto := "data:image/png;base64,BBBB" |}.

(** The same form with the university id left empty. *)
Definition eve_form_no_id : RegisterForm.form :=
  {| RegisterForm.name := "Eve"; RegisterForm.email := "eve@uni.lk";
     RegisterForm.password := "hunter2"; RegisterForm.uniId := "";
     RegisterForm.role := student;
     RegisterForm.profilePhoto := "data:image/png;base64,BBBB" |}.

(** Bob proposes a second workshop. *)
Definition seminar : NewEvent.t :=
  {| NewEvent.title := "Iris seminar"; NewEvent.description := "Separation logic";
     NewEvent.organizerName := "Bob"; NewEvent.organizerEmail := "bob@uni.lk";
     NewEvent.organizerId := "u2"; NewEvent.department := "ICT";
     NewEvent.venue := "Hall B"; NewEvent.date := "2024-03-01";
     NewEvent.startTime := "10:00"; NewEvent.endTime := "12:00";
     NewEvent.maxParticipants := 30%Z; NewEvent.posterUrl := None |}.

(** The row stored for the seminar. *)
Definition seminar_row : EventRow.t :=
  {| EventRow.id := "e2"; EventRow.title := "Iris seminar";
     EventRow.description := "Separation logic"; EventRow.organizer_name := "Bob";
     EventRow.organizer_email := "bob@uni.lk"; EventRow.organizer_id := "u2";
     EventRow.department := "ICT"; EventRow.venue := "Hall B";
     EventRow.date := "2024-03-01"; EventRow.start_time := "10:00";
     EventRow.end_time := "12:00"; EventRow.max_participants := 30%Z;
     EventRow.status := pending; EventRow.poster_url := None;
     EventRow.created_at := "2024-01-07T08:00:00Z" |}.

Definition calm_event_insert : InsertEnv.t :=
  {| InsertEnv.fault := None; InsertEnv.uuid := "e2";
     InsertEnv.server_now := "2024-01-07T08:00:00Z" |}.

(** A scan whose lookup request fails. *)
Definition lookup_lost : CheckInEnv.t :=
  {| CheckInEnv.fetchFault := Some "fetch failed";
     CheckInEnv.updateFault := None;
     CheckInEnv.insertFault := None; CheckInEnv.finalFault := None;
     CheckInEnv.now := "2024-02-01T09:05:00Z"; CheckInEnv.uuid := "p2" |}.

(** Ann has been admitted and holds a second pass for the same workshop. *)
Definition campus_readmitted : Store :=
  {| users := [ann; bob]; events := [workshop];
     registrations := [pass_used; second_pass]; participants := [attendance] |}.

(** ** Basic facts *)

Lemma truthy_or_else (v : option string) (fallback : string) :
  truthy fallback = true -> truthy (or_else v fallback) = true.
Proof.
  intros Hf. unfold or_else.
  destruct v as [s|]; [destruct (truthy s) eqn:Hs|]; assumption.
Qed.

(** Both constants have a non-empty fallback, so the module always builds its
    client: the [!supabase] branches cannot be taken by the program. *)
Lemma supabase_configured (pe : ProcessEnv) :
  supabase pe = Some (createClient (SUPABASE_URL pe) (SUPABASE_ANON_KEY pe)).
Proof.
  unfold supabase, SUPABASE_URL, SUPABASE_ANON_KEY.
  rewrite !truthy_or_else by reflexivity. reflexivity.
Qed.

Lemma isConfigured_always (pe : ProcessEnv) : DB.isConfigured (supabase pe) = true.
Proof. rewrite supabase_configured. reflexivity. Qed.

Lemma with_registrations_same (db : Store) :
  with_registrations (registrations db) db = db.
Proof. destruct db; reflexivity. Qed.

Lemma with_users_same (db : Store) : with_users (users db) db = db.
Proof. destruct db; reflexivity. Qed.

Lemma with_events_same (db : Store) : with_events (events db) db = db.
Proof. destruct db; reflexivity. Qed.

Lemma mem_In (x : string) (l : list string) : mem x l = true <-> In x l.
Proof.
  unfold mem. rewrite existsb_exists. split.
  - intros (y & Hy & E). apply String.eqb_eq in E. now subst.
  - intros H. exists x. split; [assumption | apply String.eqb_refl].
Qed.

Lemma mem_not_In (x : string) (l : list string) : mem x l = false <-> ~ In x l.
Proof.
  rewrite <- mem_In. destruct (mem x l); split; congruence.
Qed.

Lemma filter_nil_iff {T : Type} (p : T -> bool) (l : list T) :
  filter p l = [] <-> forall x, In x l -> p x = false.
Proof.
  induction l as [|a l IH]; simpl.
  - split; [intros _ x [] | reflexivity].
  - destruct (p a) eqn:Ha.
    + split; [discriminate|]. intros H. specialize (H a (or_introl eq_refl)). congruence.
    + rewrite IH. split.
      * intros H x [<-|Hx]; auto.
      * intros H x Hx. apply H. now right.
Qed.

(** What [maybeSingle] hands back as [data] is the only row of the selection,
    and the request was served. *)
Lemma maybeSingle_data {T : Type} (fault : Fault) (rows : list T) (r : T) :
  data (maybeSingle fault rows) = Some r <-> fault = None /\ rows = [r].
Proof.
  unfold maybeSingle. destruct fault as [e|]; simpl.
  - split; [discriminate | intros [H _]; discriminate].
  - destruct rows as [|a [|b rest]]; simpl; split;
      try discriminate; try (intros [_ H]; discriminate).
    + intros H. injection H as ->. auto.
    + intros [_ H]. injection H as ->. reflexivity.
Qed.

Lemma maybeSingle_data_error {T : Type} (fault : Fault) (rows : list T) (r : T) :
  data (maybeSingle fault rows) = Some r -> error (maybeSingle fault rows) = None.
Proof.
  intros H. apply maybeSingle_data in H as [-> ->]. reflexivity.
Qed.

(** ** Unknown payloads *)

(** C5: when no stored Registration has a [qr_payload] equal to the scanned
    string, [checkInUser] resolves to [success = false] with the message
    'Invalid registration code.', whatever the requests meet, and the store
    is the one it started from: nothing is created or modified. *)
Theorem checkInUser_invalid_code :
  forall (pe : ProcessEnv) (env : CheckInEnv.t) (qrPayload : string) (db : Store),
    (forall r, In r (registrations db) ->
               RegistrationRow.qr_payload r <> qrPayload) ->
    DB.checkInUser (supabase pe) env qrPayload db =
      (Resolved {| success := false;
                   message := Some "Invalid registration code.";
                   registration := None |}, db).
Proof.
  intros pe env qrPayload db Hnone.
  rewrite supabase_configured. unfold DB.checkInUser, fetch_by_payload.
  assert (Hsel : filter (fun r => String.eqb (RegistrationRow.qr_payload r) qrPayload)
                        (registrations db) = []).
  { apply filter_nil_iff. intros r Hr. apply String.eqb_neq. now apply Hnone. }
  rewrite Hsel. unfold maybeSingle.
  destruct (CheckInEnv.fetchFault env); reflexivity.
Qed.

Lemma checkInUser_invalid_code_witness :
  DB.checkInUser (supabase no_env) link_lost "e9:u9" campus =
    (Resolved {| success := false;
                 message := Some "Invalid registration code.";
                 registration := None |}, campus).
Proof.
  apply checkInUser_invalid_code.
  intros r [<-|[]]. vm_compute. discriminate.
Defined.

(** ** Passes that were already used *)

(** C4, amended: for a payload that matches exactly one stored Registration,
    whose status is already 'checked-in', and when the lookup is served
    without error, [checkInUser] resolves to [success = false] with the
    message 'Already checked in!' and the existing Registration, column for
    column, and the store is the one it started from: no update, no
    Participant row. *)
Theorem checkInUser_already_checked_in :
  forall (pe : ProcessEnv) (env : CheckInEnv.t) (qrPayload : string)
         (db : Store) (reg : RegistrationRow.t),
    filter (fun r => String.eqb (RegistrationRow.qr_payload r) qrPayload)
           (registrations db) = [reg] ->
    RegistrationRow.status reg = checked_in ->
    CheckInEnv.fetchFault env = None ->
    DB.checkInUser (supabase pe) env qrPayload db =
      (Resolved
         {| success := false;
            message := Some "Already checked in!";
            registration :=
              Some {| Registration._id := RegistrationRow.id reg;
                      Registration.userId := RegistrationRow.user_id reg;
                      Registration.userName := RegistrationRow.user_name reg;
                      Registration.eventId := RegistrationRow.event_id reg;
                      Registration.eventTitle := RegistrationRow.event_title reg;
                      Registration.timestamp := RegistrationRow.timestamp reg;
                      Registration.status := checked_in;
                      Registration.qrPayload := RegistrationRow.qr_payload reg;
                      Registration.checkInTime :=
                        RegistrationRow.check_in_time reg |} |}, db).
Proof.
  intros pe env qrPayload db reg Hsel Hstatus Hserved.
  rewrite supabase_configured. unfold DB.checkInUser, fetch_by_payload.
  rewrite Hsel, Hserved. simpl. rewrite Hstatus. simpl.
  unfold mapReg. rewrite Hstatus. reflexivity.
Qed.

Lemma checkInUser_already_checked_in_witness :
  DB.checkInUser (supabase no_env) calm_scan "e1:u1" campus_admitted =
    (Resolved
       {| success := false;
          message := Some "Already checked in!";
          registration :=
            Some {| Registration._id := "r1";
                    Registration.userId := "u1";
                    Registration.userName := "Ann";
                    Registration.eventId := "e1";
                    Registration.eventTitle := "Rocq workshop";
                    Registration.timestamp := "2024-01-03T08:00:00Z";
                    Registration.status := checked_in;
                    Registration.qrPayload := "e1:u1";
                    Registration.checkInTime := Some "2024-02-01T09:00:00Z" |} |},
     campus_admitted).
Proof.
  apply (checkInUser_already_checked_in no_env calm_scan "e1:u1" campus_admitted
           pass_used); reflexivity.
Defined.

(** Without these conditions C4 fails, in two ways.  Ann's pass is stored, matches its
    payload and is already 'checked-in': when the lookup request fails the
    scan is answered 'Invalid registration code.'; and when she holds a second
    pass with the same payload the lookup finds two rows and the scan is
    answered 'Invalid registration code.' as well.  Nothing is changed in
    either case. *)
Lemma checkInUser_lookup_counterexample :
  (filter (fun r => String.eqb (RegistrationRow.qr_payload r) "e1:u1")
          (registrations campus_admitted) = [pass_used]
   /\ RegistrationRow.status pass_used = checked_in
   /\ DB.checkInUser (supabase no_env) lookup_lost "e1:u1" campus_admitted =
        (Resolved {| success := false;
                     message := Some "Invalid registration code.";
                     registration := None |}, campus_admitted))
  /\ (In pass_used (registrations campus_readmitted)
      /\ RegistrationRow.qr_payload pass_used = "e1:u1"
      /\ DB.checkInUser (supabase no_env) calm_scan "e1:u1" campus_readmitted =
           (Resolved {| success := false;
                        message := Some "Invalid registration code.";
                        registration := None |}, campus_readmitted)).
Proof.
  split; [repeat split | split; [now left | split; reflexivity]].
Qed.

(** ** Creating users *)

(** C9: the User [createUser] creates has status 'pending' exactly when the
    requested role is 'organizer', and 'approved' for every other role; the
    status the caller supplies plays no part.  The row stored for it carries
    the same status. *)
Theorem createUser_status :
  forall (client : option SupabaseClient) (env : InsertEnv.t)
         (user : NewUser.t) (db db' : Store) (created : User.t),
    DB.createUser client env user db = (Resolved created, db') ->
    (User.status created = Some pending <-> NewUser.role user = organizer)
    /\ (NewUser.role user <> organizer -> User.status created = Some approved)
    /\ User.role created = NewUser.role user
    /\ exists row,
         users db' = (users db ++ [row])%list
         /\ mapUser row = created
         /\ UserRow.status row = User.status created.
Proof.
  intros client env user db db' created.
  unfold DB.createUser, insert_user.
  destruct client as [c|]; [|discriminate].
  destruct (InsertEnv.fault env) as [e|]; [discriminate|].
  simpl.
  destruct (NewUser.password user) as [pw|] eqn:Hpw; simpl; [|discriminate].
  match goal with |- context [if ?b then _ else _] => destruct b end;
    simpl; [discriminate|].
  intros H. injection H as <- <-. simpl.
  destruct (NewUser.role user); simpl;
    (split; [split; [try discriminate; reflexivity | try discriminate; reflexivity]|]);
    (split; [intros; try reflexivity; congruence|]);
    (split; [reflexivity|]);
    eexists; (split; [reflexivity|]); (split; reflexivity).
Qed.

Lemma createUser_status_witness :
  exists (created : User.t) (db' : Store),
    DB.createUser (supabase no_env) calm_insert
      (carol organizer (Some approved)) campus = (Resolved created, db')
    /\ (User.status created = Some pending
        <-> NewUser.role (carol organizer (Some approved)) = organizer).
Proof.
  eexists. eexists. split.
  - vm_compute. reflexivity.
  - eapply (createUser_status (supabase no_env) calm_insert
              (carol organizer (Some approved)) campus _ _).
    vm_compute. reflexivity.
Defined.

(** A student who asks for 'pending' is created 'approved'. *)
Example createUser_student :
  exists (created : User.t) (db' : Store),
    DB.createUser (supabase no_env) calm_insert
      (carol student (Some pending)) campus = (Resolved created, db')
    /\ User.status created = Some approved.
Proof.
  eexists. eexists. split; vm_compute; reflexivity.
Qed.

(** ** Registering *)

(** What [registerForEvent] does with the store, whatever the requests meet:
    the table of registrations is left as it is, or one row is appended. *)
Lemma registerForEvent_cases :
  forall (client : option SupabaseClient) (env : RegisterEnv.t)
         (userId userName eventId eventTitle : string) (db : Store),
    let row :=
      {| RegistrationRow.id := RegisterEnv.uuid env;
         RegistrationRow.user_id := userId;
         RegistrationRow.user_name := userName;
         RegistrationRow.event_id := eventId;
         RegistrationRow.event_title := eventTitle;
         RegistrationRow.timestamp := RegisterEnv.now env;
         RegistrationRow.status := registered;
         RegistrationRow.qr_payload := eventId ++ ":" ++ userId;
         RegistrationRow.check_in_time := None |} in
    let out := DB.registerForEvent client env userId userName eventId eventTitle db in
    (snd out = db /\ forall reg, fst out <> Resolved (Some reg))
    \/ (out = (Resolved (Some (mapReg row)),
               with_registrations (registrations db ++ [row]) db)
        /\ ~ In (RegisterEnv.uuid env) (map RegistrationRow.id (registrations db))
        /\ In userId (map UserRow.id (users db))
        /\ In eventId (map EventRow.id (events db))
        /\ data (maybeSingle (RegisterEnv.lookupFault env)
                   (map RegistrationRow.id
                      (filter (fun r =>
                                 String.eqb (RegistrationRow.user_id r) userId
                                 && String.eqb (RegistrationRow.event_id r) eventId)
                              (registrations db)))) = None).
Proof.
  intros client env userId userName eventId eventTitle db row out.
  subst out. unfold DB.registerForEvent.
  destruct client as [c|]; [|left; split; [reflexivity | discriminate]].
  match goal with |- context [data ?m] => destruct (data m) eqn:Hlook end;
    [left; split; [reflexivity | discriminate]|].
  unfold insert_registration. fold row.
  destruct (RegisterEnv.insertFault env) as [e|];
    [left; split; [reflexivity | discriminate]|].
  cbn [RegistrationRow.id RegistrationRow.user_id RegistrationRow.event_id row].
  destruct (mem (RegisterEnv.uuid env) (map RegistrationRow.id (registrations db)))
    eqn:Hid; [left; split; [reflexivity | discriminate]|].
  destruct (mem userId (map UserRow.id (users db))) eqn:Hu; simpl;
    [|left; split; [reflexivity | discriminate]].
  destruct (mem eventId (map EventRow.id (events db))) eqn:He; simpl;
    [|left; split; [reflexivity | discriminate]].
  right. split; [reflexivity|].
  split; [now apply mem_not_In|]. repeat split; now apply mem_In.
Qed.

(** C7: whenever [registerForEvent] inserts a Registration (it resolves to
    it), the row it stored is the single new row of the table and its
    [qr_payload] is the event id, a colon, the user id, as plain text; the
    Registration handed back carries the same string. *)
Theorem registerForEvent_qr_payload :
  forall (client : option SupabaseClient) (env : RegisterEnv.t)
         (userId userName eventId eventTitle : string)
         (db db' : Store) (reg : Registration.t),
    DB.registerForEvent client env userId userName eventId eventTitle db =
      (Resolved (Some reg), db') ->
    Registration.qrPayload reg = eventId ++ ":" ++ userId
    /\ exists row,
         registrations db' = (registrations db ++ [row])%list
         /\ RegistrationRow.qr_payload row = eventId ++ ":" ++ userId
         /\ mapReg row = reg.
Proof.
  intros client env userId userName eventId eventTitle db db' reg H.
  destruct (registerForEvent_cases client env userId userName eventId eventTitle db)
    as [[_ Hno] | [Hout _]].
  - exfalso. apply (Hno reg). rewrite H. reflexivity.
  - rewrite H in Hout. injection Hout as -> ->. split; [reflexivity|].
    eexists. split; [reflexivity|]. split; reflexivity.
Qed.

Lemma registerForEvent_qr_payload_witness :
  exists row,
    registrations
      (snd (DB.registerForEvent (supabase no_env) calm_register
              "u1" "Ann" "e1" "Rocq workshop" campus_open)) = ([] ++ [row])%list
    /\ RegistrationRow.qr_payload row = "e1:u1"
    /\ mapReg row =
         {| Registration._id := "r2"; Registration.userId := "u1";
            Registration.userName := "Ann"; Registration.eventId := "e1";
            Registration.eventTitle := "Rocq workshop";
            Registration.timestamp := "2024-01-04T08:00:00Z";
            Registration.status := registered;
            Registration.qrPayload := "e1:u1";
            Registration.checkInTime := None |}.
Proof.
  apply (registerForEvent_qr_payload (supabase no_env) calm_register
           "u1" "Ann" "e1" "Rocq workshop" campus_open _ _).
  vm_compute. reflexivity.
Defined.

(** ** Reading lists *)

(** C8: each of the six list-reading operations resolves to the empty list,
    and leaves the store alone, when the client is not configured or the
    backing store reports an error; none of them rejects. *)
Theorem list_reads_discard_errors :
  forall (client : option SupabaseClient)
         (order : forall T : Type, (T -> string) -> bool -> list T -> list T)
         (env : ReadEnv.t) (userId eventId : string) (db : Store),
    client = None \/ ReadEnv.fault env <> None ->
    DB.getEvents client order env db = (Resolved [], db)
    /\ DB.getAllUsers client order env db = (Resolved [], db)
    /\ DB.getPendingUsers client env db = (Resolved [], db)
    /\ DB.getRegistrationsByUser client env userId db = (Resolved [], db)
    /\ DB.getRegistrationsByEvent client env eventId db = (Resolved [], db)
    /\ DB.getAllParticipants client order env db = (Resolved [], db).
Proof.
  intros client order env userId eventId db H.
  unfold DB.getEvents, DB.getAllUsers, DB.getPendingUsers,
    DB.getRegistrationsByUser, DB.getRegistrationsByEvent,
    DB.getAllParticipants, select_all.
  destruct client as [c|].
  - destruct H as [H|H]; [discriminate|].
    destruct (ReadEnv.fault env) as [e|]; [|contradiction].
    simpl. repeat split.
  - repeat split.
Qed.

Lemma list_reads_discard_errors_witness :
  DB.getEvents (supabase no_env) as_stored unreachable campus = (Resolved [], campus)
  /\ DB.getAllUsers (supabase no_env) as_stored unreachable campus
     = (Resolved [], campus)
  /\ DB.getPendingUsers (supabase no_env) unreachable campus = (Resolved [], campus)
  /\ DB.getRegistrationsByUser (supabase no_env) unreachable "u1" campus
     = (Resolved [], campus)
  /\ DB.getRegistrationsByEvent (supabase no_env) unreachable "e1" campus
     = (Resolved [], campus)
  /\ DB.getAllParticipants (supabase no_env) as_stored unreachable campus
     = (Resolved [], campus).
Proof.
  apply (list_reads_discard_errors (supabase no_env) as_stored unreachable
           "u1" "e1" campus).
  right. simpl. discriminate.
Defined.

(** The same six operations resolve on every input: a served request hands
    its rows over. *)
Lemma list_reads_resolve :
  forall (client : option SupabaseClient)
         (order : forall T : Type, (T -> string) -> bool -> list T -> list T)
         (env : ReadEnv.t) (userId eventId : string) (db : Store),
    (exists l, DB.getEvents client order env db = (Resolved l, db))
    /\ (exists l, DB.getAllUsers client order env db = (Resolved l, db))
    /\ (exists l, DB.getPendingUsers client env db = (Resolved l, db))
    /\ (exists l, DB.getRegistrationsByUser client env userId db = (Resolved l, db))
    /\ (exists l, DB.getRegistrationsByEvent client env eventId db = (Resolved l, db))
    /\ (exists l, DB.getAllParticipants client order env db = (Resolved l, db)).
Proof.
  intros client order env userId eventId db.
  unfold DB.getEvents, DB.getAllUsers, DB.getPendingUsers,
    DB.getRegistrationsByUser, DB.getRegistrationsByEvent,
    DB.getAllParticipants, select_all.
  destruct client as [c|]; [destruct (ReadEnv.fault env) as [e|]|];
    simpl; repeat split; eexists; reflexivity.
Qed.

(** ** Updating one row by id *)

Lemma mark_checked_in_eq (now id : string) (rows : list RegistrationRow.t) :
  mark_checked_in now id rows =
    map (fun r => if String.eqb (RegistrationRow.id r) id
                  then set_checked_in now r else r) rows.
Proof. reflexivity. Qed.

Lemma mark_checked_in_ids (now id : string) (rows : list RegistrationRow.t) :
  map RegistrationRow.id (mark_checked_in now id rows) = map RegistrationRow.id rows.
Proof.
  rewrite mark_checked_in_eq, map_map. apply map_ext.
  intros r. destruct (String.eqb (RegistrationRow.id r) id); reflexivity.
Qed.

Lemma mark_checked_in_pairs (now id : string) (rows : list RegistrationRow.t) :
  map (fun r => (RegistrationRow.user_id r, RegistrationRow.event_id r))
      (mark_checked_in now id rows)
  = map (fun r => (RegistrationRow.user_id r, RegistrationRow.event_id r)) rows.
Proof.
  rewrite mark_checked_in_eq, map_map. apply map_ext.
  intros r. destruct (String.eqb (RegistrationRow.id r) id); reflexivity.
Qed.

(** A row whose id is not the one updated is left as it is. *)
Lemma mark_checked_in_other (now id : string) (rows : list RegistrationRow.t) :
  ~ In id (map RegistrationRow.id rows) -> mark_checked_in now id rows = rows.
Proof.
  rewrite mark_checked_in_eq. induction rows as [|a rows IH]; simpl; intros H.
  - reflexivity.
  - destruct (String.eqb (RegistrationRow.id a) id) eqn:E.
    + apply String.eqb_eq in E. exfalso. apply H. now left.
    + f_equal. apply IH. intros Hin. apply H. now right.
Qed.

(** Under the primary key, selecting by the id of a stored row gives that
    row and no other. *)
Lemma select_by_id (rows : list RegistrationRow.t) (reg : RegistrationRow.t) :
  NoDup (map RegistrationRow.id rows) -> In reg rows ->
  filter (fun r => String.eqb (RegistrationRow.id r) (RegistrationRow.id reg)) rows
  = [reg].
Proof.
  induction rows as [|a rows IH]; simpl; intros Hnd Hin; [contradiction|].
  inversion Hnd as [|x l Hnotin Hnd']; subst.
  destruct Hin as [->|Hin].
  - rewrite String.eqb_refl. f_equal.
    apply filter_nil_iff. intros r Hr. apply String.eqb_neq. intros E.
    apply Hnotin. rewrite <- E. now apply in_map.
  - destruct (String.eqb (RegistrationRow.id a) (RegistrationRow.id reg)) eqn:E.
    + apply String.eqb_eq in E. exfalso. apply Hnotin. rewrite E. now apply in_map.
    + now apply IH.
Qed.

(** Under the primary key, the update by id rewrites the row it names and
    leaves every other row as it is. *)
Lemma mark_checked_in_split (now : string) (rows : list RegistrationRow.t)
    (reg : RegistrationRow.t) :
  NoDup (map RegistrationRow.id rows) -> In reg rows ->
  exists before after,
    rows = (before ++ reg :: after)%list
    /\ mark_checked_in now (RegistrationRow.id reg) rows
       = (before ++ set_checked_in now reg :: after)%list.
Proof.
  intros Hnd Hin. apply in_split in Hin as (before & after & ->).
  exists before, after. split; [reflexivity|].
  rewrite map_app in Hnd. simpl in Hnd.
  pose proof (NoDup_remove_2 _ _ _ Hnd) as Hnot.
  rewrite mark_checked_in_eq, map_app. simpl. rewrite String.eqb_refl.
  rewrite <- !mark_checked_in_eq.
  rewrite !mark_checked_in_other; [reflexivity | |];
    intros Hx; apply Hnot; apply in_or_app; auto.
Qed.

Lemma mark_checked_in_In (now : string) (rows : list RegistrationRow.t)
    (reg : RegistrationRow.t) :
  In reg rows ->
  In (set_checked_in now reg) (mark_checked_in now (RegistrationRow.id reg) rows).
Proof.
  intros Hin. rewrite mark_checked_in_eq. apply in_map_iff.
  exists reg. rewrite String.eqb_refl. auto.
Qed.

(** The row the lookup by payload hands back is stored and carries the
    payload. *)
Lemma fetch_by_payload_In (env : CheckInEnv.t) (qrPayload : string) (db : Store)
    (reg : RegistrationRow.t) :
  data (fetch_by_payload env qrPayload db) = Some reg ->
  In reg (registrations db) /\ RegistrationRow.qr_payload reg = qrPayload.
Proof.
  unfold fetch_by_payload. intros H. apply maybeSingle_data in H as [_ H].
  assert (Hin : In reg (filter (fun r => String.eqb (RegistrationRow.qr_payload r) qrPayload)
                               (registrations db))) by (rewrite H; now left).
  apply filter_In in Hin as [Hin E]. apply String.eqb_eq in E. auto.
Qed.

(** ** The audit insert *)

Lemma insert_participant_cases (fault : Fault) (row : ParticipantRow.t) (db : Store) :
  (error (fst (insert_participant fault row db)) <> None
   /\ snd (insert_participant fault row db) = db)
  \/ (insert_participant fault row db
      = (answered row, with_participants (participants db ++ [row]) db)
      /\ fault = None
      /\ ~ In (ParticipantRow.id row) (map ParticipantRow.id (participants db))
      /\ In (ParticipantRow.registration_id row)
            (map RegistrationRow.id (registrations db))
      /\ In (ParticipantRow.user_id row) (map UserRow.id (users db))
      /\ In (ParticipantRow.event_id row) (map EventRow.id (events db))).
Proof.
  unfold insert_participant.
  destruct fault as [e|]; [left; split; [discriminate | reflexivity]|].
  destruct (mem (ParticipantRow.id row) (map ParticipantRow.id (participants db)))
    eqn:Hid; [left; split; [discriminate | reflexivity]|].
  destruct (mem (ParticipantRow.registration_id row)
                (map RegistrationRow.id (registrations db))) eqn:Hr; simpl;
    [|left; split; [discriminate | reflexivity]].
  destruct (mem (ParticipantRow.user_id row) (map UserRow.id (users db))) eqn:Hu;
    simpl; [|left; split; [discriminate | reflexivity]].
  destruct (mem (ParticipantRow.event_id row) (map EventRow.id (events db))) eqn:He;
    simpl; [|left; split; [discriminate | reflexivity]].
  right. split; [reflexivity|]. split; [reflexivity|].
  split; [now apply mem_not_In|]. repeat split; now apply mem_In.
Qed.

Lemma insert_participant_frame (fault : Fault) (row : ParticipantRow.t) (db : Store) :
  users (snd (insert_participant fault row db)) = users db
  /\ events (snd (insert_participant fault row db)) = events db
  /\ registrations (snd (insert_participant fault row db)) = registrations db.
Proof.
  destruct (insert_participant_cases fault row db) as [[_ ->] | [-> _]];
    repeat split.
Qed.

(** ** The path of [checkInUser] past the update *)

Lemma after_check_in_frame (env : CheckInEnv.t) (reg : RegistrationRow.t) (db : Store) :
  users (after_check_in env reg db) = users db
  /\ events (after_check_in env reg db) = events db
  /\ registrations (after_check_in env reg db)
     = mark_checked_in (CheckInEnv.now env) (RegistrationRow.id reg) (registrations db).
Proof.
  unfold after_check_in.
  destruct (insert_participant_frame (CheckInEnv.insertFault env) (DB.audit_row env reg)
              (with_registrations
                 (mark_checked_in (CheckInEnv.now env) (RegistrationRow.id reg)
                    (registrations db)) db)) as (Hu & He & Hr).
  rewrite Hu, He, Hr. repeat split.
Qed.

(** Once the lookup has handed back a Registration that is not checked in and
    the update is served, the outcome depends on the re-read alone: the
    response of the audit insert is never looked at. *)
Lemma checkInUser_update_served :
  forall (c : SupabaseClient) (env : CheckInEnv.t) (qrPayload : string)
         (db : Store) (reg : RegistrationRow.t),
    registrations_pkey db ->
    data (fetch_by_payload env qrPayload db) = Some reg ->
    RegistrationRow.status reg = registered ->
    CheckInEnv.updateFault env = None ->
    DB.checkInUser (Some c) env qrPayload db =
      (match CheckInEnv.finalFault env with
       | None =>
           Resolved {| success := true;
                       message := None;
                       registration :=
                         Some (mapReg (set_checked_in (CheckInEnv.now env) reg)) |}
       | Some _ => Rejected null_property
       end, after_check_in env reg db).
Proof.
  intros c env qrPayload db reg Hpk Hfetch Hstatus Hupd.
  unfold DB.checkInUser.
  pose proof (maybeSingle_data_error _ _ _ Hfetch) as Herr.
  fold (fetch_by_payload env qrPayload db) in Herr.
  rewrite Herr, Hfetch, Hstatus, Hupd. simpl.
  rewrite <- !mark_checked_in_eq. fold (after_check_in env reg db).
  destruct (after_check_in_frame env reg db) as (_ & _ & Hregs). rewrite Hregs.
  apply fetch_by_payload_In in Hfetch as [Hin _].
  destruct (mark_checked_in_split (CheckInEnv.now env) (registrations db) reg Hpk Hin)
    as (before & after & Hrows & Hmark).
  assert (Hsel :
    filter (fun r => String.eqb (RegistrationRow.id r) (RegistrationRow.id reg))
           (mark_checked_in (CheckInEnv.now env) (RegistrationRow.id reg)
              (registrations db))
    = [set_checked_in (CheckInEnv.now env) reg]).
  { change (RegistrationRow.id reg)
      with (RegistrationRow.id (set_checked_in (CheckInEnv.now env) reg)) at 1.
    apply select_by_id.
    - rewrite mark_checked_in_ids. exact Hpk.
    - now apply mark_checked_in_In. }
  rewrite Hsel. unfold single.
  destruct (CheckInEnv.finalFault env); reflexivity.
Qed.

(** A scan that resolves to [success = true] went through the update. *)
Lemma checkInUser_success_inv :
  forall (client : option SupabaseClient) (env : CheckInEnv.t)
         (qrPayload : string) (db db' : Store) (res : CheckInResult),
    DB.checkInUser client env qrPayload db = (Resolved res, db') ->
    success res = true ->
    exists c reg,
      client = Some c
      /\ data (fetch_by_payload env qrPayload db) = Some reg
      /\ RegistrationRow.status reg = registered
      /\ CheckInEnv.updateFault env = None.
Proof.
  intros client env qrPayload db db' res H Hs.
  unfold DB.checkInUser in H.
  destruct client as [c|]; [|discriminate].
  destruct (error (fetch_by_payload env qrPayload db)) as [e|].
  { injection H as <- _. discriminate. }
  destruct (data (fetch_by_payload env qrPayload db)) as [reg|].
  2:{ injection H as <- _. discriminate. }
  destruct (RegistrationRow.status reg) eqn:Hst; simpl in H.
  2:{ injection H as <- _. discriminate. }
  destruct (CheckInEnv.updateFault env) as [e|] eqn:Hupd; simpl in H.
  { injection H as <- _. discriminate. }
  exists c, reg. auto.
Qed.

(** The sample stores satisfy the constraints of the setup script. *)
Lemma campus_schema : schema campus.
Proof.
  constructor; unfold registrations_pkey; simpl;
    try (repeat constructor; simpl; intuition discriminate);
    intros x Hx; repeat (destruct Hx as [<-|Hx]; [simpl; auto|]); contradiction.
Qed.

Lemma campus_admitted_schema : schema campus_admitted.
Proof.
  constructor; unfold registrations_pkey; simpl;
    try (repeat constructor; simpl; intuition discriminate);
    intros x Hx; repeat (destruct Hx as [<-|Hx]; [simpl; auto|]); contradiction.
Qed.

(** ** A successful check-in *)

(** C1, amended: in a store that satisfies the constraints of the setup
    script, for a payload that matches exactly one stored Registration, whose
    status is 'registered', and when the lookup, the update, the audit insert
    (under a fresh id) and the re-read are all served without error,
    [checkInUser] sets
    that Registration to 'checked-in' with the check-in time, appends one
    Participant row that refers to the Registration, its user and its event,
    and resolves to [success = true] with the updated Registration. *)
Theorem checkInUser_checks_in :
  forall (pe : ProcessEnv) (env : CheckInEnv.t) (qrPayload : string)
         (db : Store) (reg : RegistrationRow.t),
    schema db ->
    filter (fun r => String.eqb (RegistrationRow.qr_payload r) qrPayload)
           (registrations db) = [reg] ->
    RegistrationRow.status reg = registered ->
    CheckInEnv.fetchFault env = None ->
    CheckInEnv.updateFault env = None ->
    CheckInEnv.insertFault env = None ->
    CheckInEnv.finalFault env = None ->
    ~ In (CheckInEnv.uuid env) (map ParticipantRow.id (participants db)) ->
    exists (db' : Store) (reg' : RegistrationRow.t) (audit : ParticipantRow.t),
      DB.checkInUser (supabase pe) env qrPayload db =
        (Resolved {| success := true;
                     message := None;
                     registration := Some (mapReg reg') |}, db')
      /\ In reg' (registrations db')
      /\ RegistrationRow.id reg' = RegistrationRow.id reg
      /\ RegistrationRow.status reg' = checked_in
      /\ RegistrationRow.check_in_time reg' = Some (CheckInEnv.now env)
      /\ registrations db' =
           mark_checked_in (CheckInEnv.now env) (RegistrationRow.id reg)
             (registrations db)
      /\ participants db' = (participants db ++ [audit])%list
      /\ ParticipantRow.registration_id audit = RegistrationRow.id reg
      /\ ParticipantRow.user_id audit = RegistrationRow.user_id reg
      /\ ParticipantRow.event_id audit = RegistrationRow.event_id reg
      /\ ParticipantRow.check_in_time audit = CheckInEnv.now env
      /\ users db' = users db
      /\ events db' = events db.
Proof.
  intros pe env qrPayload db reg Hs Hsel Hst Hf Hu Hi Hfin Hfresh.
  assert (Hfetch : data (fetch_by_payload env qrPayload db) = Some reg).
  { unfold fetch_by_payload. apply maybeSingle_data. auto. }
  destruct (fetch_by_payload_In _ _ _ _ Hfetch) as [Hin _].
  exists (after_check_in env reg db), (set_checked_in (CheckInEnv.now env) reg),
    (DB.audit_row env reg).
  rewrite supabase_configured.
  rewrite (checkInUser_update_served _ _ _ _ _ (registrations_pkey_ok _ Hs) Hfetch Hst Hu).
  rewrite Hfin.
  destruct (after_check_in_frame env reg db) as (Husers & Hevents & Hregs).
  split; [reflexivity|].
  split; [rewrite Hregs; now apply mark_checked_in_In|].
  do 3 (split; [reflexivity|]).
  split; [exact Hregs|].
  split.
  { unfold after_check_in.
    destruct (insert_participant_cases (CheckInEnv.insertFault env) (DB.audit_row env reg)
                (with_registrations
                   (mark_checked_in (CheckInEnv.now env) (RegistrationRow.id reg)
                      (registrations db)) db)) as [[Herr _] | [-> _]];
      [|reflexivity].
    exfalso. apply Herr. unfold insert_participant. rewrite Hi. simpl.
    rewrite mark_checked_in_ids.
    rewrite (proj2 (mem_not_In _ _) Hfresh).
    rewrite (proj2 (mem_In _ _) (in_map RegistrationRow.id _ _ Hin)).
    rewrite (proj2 (mem_In _ _) (registrations_user_id_fkey _ Hs _ Hin)).
    rewrite (proj2 (mem_In _ _) (registrations_event_id_fkey _ Hs _ Hin)).
    reflexivity. }
  do 4 (split; [reflexivity|]).
  split; assumption.
Qed.

Lemma checkInUser_checks_in_witness :
  exists (db' : Store) (reg' : RegistrationRow.t) (audit : ParticipantRow.t),
    DB.checkInUser (supabase no_env) calm_scan "e1:u1" campus =
      (Resolved {| success := true;
                   message := None;
                   registration := Some (mapReg reg') |}, db')
    /\ In reg' (registrations db')
    /\ RegistrationRow.id reg' = "r1"
    /\ RegistrationRow.status reg' = checked_in
    /\ RegistrationRow.check_in_time reg' = Some "2024-02-01T09:00:00Z"
    /\ registrations db' =
         mark_checked_in "2024-02-01T09:00:00Z" "r1" (registrations campus)
    /\ participants db' = ([] ++ [audit])%list
    /\ ParticipantRow.registration_id audit = "r1"
    /\ ParticipantRow.user_id audit = "u1"
    /\ ParticipantRow.event_id audit = "e1"
    /\ ParticipantRow.check_in_time audit = "2024-02-01T09:00:00Z"
    /\ users db' = users campus
    /\ events db' = events campus.
Proof.
  apply (checkInUser_checks_in no_env calm_scan "e1:u1" campus pass
           campus_schema); try reflexivity.
  simpl. intros [].
Defined.

(** C1 as it is worded fails when a request is not served: Ann's pass is the
    one stored Registration matching its payload and is 'registered', the
    update request fails, and the scan resolves to [success = false] with
    nothing changed. *)
Lemma checkInUser_update_error_counterexample :
  filter (fun r => String.eqb (RegistrationRow.qr_payload r) "e1:u1")
         (registrations campus) = [pass]
  /\ RegistrationRow.status pass = registered
  /\ DB.checkInUser (supabase no_env) update_down "e1:u1" campus =
       (Resolved {| success := false;
                    message := Some "Check-in failed.";
                    registration := None |}, campus).
Proof.
  repeat split.
Qed.

(** ** When the audit insert fails *)

(** Every execution in which the update to 'checked-in' is served and the
    audit insert that follows fails, for whatever reason: nothing is rolled
    back and the failure of the insert is not looked at.  The Registration
    stays 'checked-in', the table of Participants is the one from before the
    call, so a Registration that had no Participant row has none, and the
    outcome is decided by the re-read alone: [success = true] with the
    updated Registration when it is served, a rejected promise when it is
    not. *)
Lemma checkInUser_audit_insert_fails :
  forall (c : SupabaseClient) (env : CheckInEnv.t) (qrPayload : string)
         (db : Store) (reg : RegistrationRow.t),
    registrations_pkey db ->
    filter (fun r => String.eqb (RegistrationRow.qr_payload r) qrPayload)
           (registrations db) = [reg] ->
    RegistrationRow.status reg = registered ->
    CheckInEnv.fetchFault env = None ->
    CheckInEnv.updateFault env = None ->
    error (fst (insert_participant (CheckInEnv.insertFault env)
                  (DB.audit_row env reg)
                  (with_registrations
                     (mark_checked_in (CheckInEnv.now env)
                        (RegistrationRow.id reg) (registrations db)) db)))
      <> None ->
    exists db',
      DB.checkInUser (Some c) env qrPayload db =
        (match CheckInEnv.finalFault env with
         | None =>
             Resolved
               {| success := true;
                  message := None;
                  registration :=
                    Some {| Registration._id := RegistrationRow.id reg;
                            Registration.userId := RegistrationRow.user_id reg;
                            Registration.userName := RegistrationRow.user_name reg;
                            Registration.eventId := RegistrationRow.event_id reg;
                            Registration.eventTitle := RegistrationRow.event_title reg;
                            Registration.timestamp := RegistrationRow.timestamp reg;
                            Registration.status := checked_in;
                            Registration.qrPayload := RegistrationRow.qr_payload reg;
                            Registration.checkInTime :=
                              Some (CheckInEnv.now env) |} |}
         | Some _ => Rejected null_property
         end, db')
      /\ In (set_checked_in (CheckInEnv.now env) reg) (registrations db')
      /\ registrations db' =
           mark_checked_in (CheckInEnv.now env) (RegistrationRow.id reg)
             (registrations db)
      /\ participants db' = participants db
      /\ ((forall p, In p (participants db) ->
                     ParticipantRow.registration_id p <> RegistrationRow.id reg) ->
          forall p, In p (participants db') ->
                    ParticipantRow.registration_id p <> RegistrationRow.id reg)
      /\ users db' = users db
      /\ events db' = events db.
Proof.
  intros c env qrPayload db reg Hpk Hsel Hst Hf Hu Hfail.
  assert (Hfetch : data (fetch_by_payload env qrPayload db) = Some reg).
  { unfold fetch_by_payload. apply maybeSingle_data. auto. }
  destruct (fetch_by_payload_In _ _ _ _ Hfetch) as [Hin _].
  exists (after_check_in env reg db).
  rewrite (checkInUser_update_served _ _ _ _ _ Hpk Hfetch Hst Hu).
  destruct (after_check_in_frame env reg db) as (Husers & Hevents & Hregs).
  assert (Hparts : participants (after_check_in env reg db) = participants db).
  { unfold after_check_in.
    destruct (insert_participant_cases (CheckInEnv.insertFault env)
                (DB.audit_row env reg)
                (with_registrations
                   (mark_checked_in (CheckInEnv.now env) (RegistrationRow.id reg)
                      (registrations db)) db)) as [[_ ->] | [Hok _]].
    - reflexivity.
    - exfalso. apply Hfail. rewrite Hok. reflexivity. }
  split; [destruct (CheckInEnv.finalFault env); reflexivity|].
  split; [rewrite Hregs; now apply mark_checked_in_In|].
  split; [exact Hregs|].
  split; [exact Hparts|].
  split; [rewrite Hparts; auto|].
  split; assumption.
Qed.

(** The audit insert fails and the re-read is served: the scan of Ann's pass
    resolves to [success = true], the pass is 'checked-in' and no Participant
    row stands for it. *)
Example checkInUser_audit_insert_fails_campus :
  DB.checkInUser (supabase no_env) audit_down "e1:u1" campus
  = (Resolved {| success := true;
                 message := None;
                 registration := Some (mapReg pass_used) |},
     {| users := [ann; bob]; events := [workshop];
        registrations := [pass_used]; participants := [] |}).
Proof. reflexivity. Qed.

(** C6, on the failing input: Ann's pass is the one stored Registration of
    its payload and is 'registered'; the lookup and the update are served,
    then the connection is lost, so the audit insert fails and the re-read
    fails too.  The update is not rolled back and no Participant row stands
    for the pass, but the call does not return
    [success = true]: the error of the re-read is not read, [mapReg] is
    applied to [null], and the promise is rejected. *)
Theorem checkInUser_audit_and_reread_fail :
  filter (fun r => String.eqb (RegistrationRow.qr_payload r) "e1:u1")
         (registrations campus) = [pass]
  /\ RegistrationRow.status pass = registered
  /\ CheckInEnv.fetchFault link_lost = None
  /\ CheckInEnv.updateFault link_lost = None
  /\ error (fst (insert_participant (CheckInEnv.insertFault link_lost)
                   (DB.audit_row link_lost pass)
                   (with_registrations
                      (mark_checked_in (CheckInEnv.now link_lost)
                         (RegistrationRow.id pass) (registrations campus))
                      campus))) <> None
  /\ DB.checkInUser (supabase no_env) link_lost "e1:u1" campus =
       (Rejected null_property,
        {| users := [ann; bob]; events := [workshop];
           registrations := [pass_used]; participants := [] |})
  /\ ~ exists (res : CheckInResult) (db' : Store),
         DB.checkInUser (supabase no_env) link_lost "e1:u1" campus
         = (Resolved res, db').
Proof.
  repeat split; try discriminate.
  intros (res & db' & H). vm_compute in H. discriminate.
Qed.

(** ** What a successful check-in leaves alone *)

Lemma check_in_frame_same (reg r : RegistrationRow.t) : check_in_frame reg r r.
Proof. split; intros _; repeat split. Qed.

Lemma Forall2_same {T : Type} (R : T -> T -> Prop) (l : list T) :
  (forall x, R x x) -> Forall2 R l l.
Proof. intros H. induction l; constructor; auto. Qed.

(** C10: with [id] the primary key of [registrations], a check-in that
    succeeds touches the columns [status] and
    [check_in_time] of the one Registration it matched and nothing else in
    the table: that row keeps its id, user, user name, event, event title,
    timestamp and payload, every other row is the same row, and no row is
    added or removed. *)
Theorem checkInUser_frame :
  forall (client : option SupabaseClient) (env : CheckInEnv.t)
         (qrPayload : string) (db db' : Store) (res : CheckInResult),
    registrations_pkey db ->
    DB.checkInUser client env qrPayload db = (Resolved res, db') ->
    success res = true ->
    exists reg,
      In reg (registrations db)
      /\ RegistrationRow.qr_payload reg = qrPayload
      /\ Forall2 (check_in_frame reg) (registrations db) (registrations db')
      /\ users db' = users db
      /\ events db' = events db.
Proof.
  intros client env qrPayload db db' res Hpk Hrun Hsuccess.
  destruct (checkInUser_success_inv _ _ _ _ _ _ Hrun Hsuccess)
    as (c & reg & -> & Hfetch & Hst & Hu).
  rewrite (checkInUser_update_served _ _ _ _ _ Hpk Hfetch Hst Hu) in Hrun.
  injection Hrun as _ <-.
  destruct (fetch_by_payload_In _ _ _ _ Hfetch) as [Hin Hqr].
  destruct (after_check_in_frame env reg db) as (Husers & Hevents & Hregs).
  exists reg. repeat split; try assumption.
  rewrite Hregs.
  destruct (mark_checked_in_split (CheckInEnv.now env) (registrations db) reg Hpk Hin)
    as (before & after & Hrows & Hmark).
  rewrite Hmark. rewrite Hrows at 1.
  apply Forall2_app; [apply Forall2_same, check_in_frame_same|].
  constructor; [|apply Forall2_same, check_in_frame_same].
  split; [intros _; repeat split | intros H; now elim H].
Qed.

Lemma checkInUser_frame_witness :
  exists reg,
    In reg (registrations campus)
    /\ RegistrationRow.qr_payload reg = "e1:u1"
    /\ Forall2 (check_in_frame reg) (registrations campus)
         (registrations (snd (DB.checkInUser (supabase no_env) calm_scan
                                "e1:u1" campus)))
    /\ users (snd (DB.checkInUser (supabase no_env) calm_scan "e1:u1" campus))
       = users campus
    /\ events (snd (DB.checkInUser (supabase no_env) calm_scan "e1:u1" campus))
       = events campus.
Proof.
  apply (checkInUser_frame (supabase no_env) calm_scan "e1:u1" campus _
           {| success := true; message := None;
              registration := Some (mapReg pass_used) |}
           (registrations_pkey_ok campus campus_schema)).
  - vm_compute. reflexivity.
  - reflexivity.
Defined.

(** ** How a call may change the table of registrations *)

Lemma checkInUser_registrations :
  forall (client : option SupabaseClient) (env : CheckInEnv.t)
         (qrPayload : string) (db : Store),
    registrations (snd (DB.checkInUser client env qrPayload db)) = registrations db
    \/ exists reg,
         In reg (registrations db)
         /\ RegistrationRow.status reg = registered
         /\ registrations (snd (DB.checkInUser client env qrPayload db))
            = mark_checked_in (CheckInEnv.now env) (RegistrationRow.id reg)
                (registrations db).
Proof.
  intros client env qrPayload db. unfold DB.checkInUser.
  destruct client as [c|]; [|now left].
  destruct (error (fetch_by_payload env qrPayload db)) as [e|]; [now left|].
  destruct (data (fetch_by_payload env qrPayload db)) as [reg|] eqn:Hfetch;
    [|now left].
  destruct (RegistrationRow.status reg) eqn:Hst; simpl; [|now left].
  destruct (CheckInEnv.updateFault env) as [e|]; simpl; [now left|].
  right. exists reg.
  destruct (fetch_by_payload_In _ _ _ _ Hfetch) as [Hin _].
  split; [assumption|]. split; [assumption|].
  rewrite <- !mark_checked_in_eq.
  fold (after_check_in env reg db).
  destruct (after_check_in_frame env reg db) as (_ & _ & Hregs).
  match goal with |- context [match ?d with Some _ => _ | None => _ end] =>
    destruct d end; exact Hregs.
Qed.

Lemma registerForEvent_registrations :
  forall (client : option SupabaseClient) (env : RegisterEnv.t)
         (userId userName eventId eventTitle : string) (db : Store),
    registrations_step (Some (RegisterEnv.uuid env)) (registrations db)
      (registrations
         (snd (DB.registerForEvent client env userId userName eventId eventTitle db))).
Proof.
  intros client env userId userName eventId eventTitle db.
  destruct (registerForEvent_cases client env userId userName eventId eventTitle db)
    as [[-> _] | [-> (Hfresh & _)]].
  - constructor.
  - simpl. apply step_insert; [reflexivity | exact Hfresh | reflexivity].
Qed.

Lemma insert_user_registrations (fault : Fault) (row : UserRow.t) (db : Store) :
  registrations (snd (insert_user fault row db)) = registrations db.
Proof.
  unfold insert_user. destruct fault; [reflexivity|].
  repeat match goal with |- context [if ?b then _ else _] => destruct b end;
    reflexivity.
Qed.

Lemma insert_event_registrations (fault : Fault) (row : EventRow.t) (db : Store) :
  registrations (snd (insert_event fault row db)) = registrations db.
Proof.
  unfold insert_event. destruct fault; [reflexivity|].
  repeat match goal with |- context [if ?b then _ else _] => destruct b end;
    reflexivity.
Qed.

(** Every call of the facade moves the table of registrations by one of the
    four steps. *)
Lemma run_registrations_step :
  forall (client : option SupabaseClient)
         (order : forall T : Type, (T -> string) -> bool -> list T -> list T)
         (c : Call) (db : Store),
    registrations_step (drawn_registration_id c) (registrations db)
      (registrations (run client order c db)).
Proof.
  intros client order c db. destruct c; simpl.
  - unfold DB.init. destruct client; [|constructor].
    match goal with |- context [data ?m] => destruct (data m) end;
      [constructor|]. simpl. rewrite insert_user_registrations. constructor.
  - unfold DB.findUserByEmail. destruct client; [|constructor].
    match goal with |- context [error ?m] => destruct (error m) end;
      [constructor|].
    match goal with |- context [data ?m] => destruct (data m) end; constructor.
  - unfold DB.createUser. destruct client; [|constructor].
    match goal with |- context [insert_user ?f ?r ?d] =>
      pose proof (insert_user_registrations f r d) as H;
      destruct (insert_user f r d) as [res db'] end.
    simpl in H. destruct (error res); [|destruct (data res)];
      simpl; rewrite H; constructor.
  - unfold DB.getAllUsers. destruct client; [|constructor].
    match goal with |- context [error ?m] => destruct (error m) end;
      [constructor|].
    match goal with |- context [data ?m] => destruct (data m) end; constructor.
  - unfold DB.getPendingUsers. destruct client; [|constructor].
    match goal with |- context [error ?m] => destruct (error m) end;
      [constructor|].
    match goal with |- context [data ?m] => destruct (data m) end; constructor.
  - unfold DB.updateUserStatus, update_where. destruct client; [|constructor].
    destruct (ReadEnv.fault env); constructor.
  - unfold DB.getEvents. destruct client; [|constructor].
    match goal with |- context [error ?m] => destruct (error m) end;
      [constructor|].
    match goal with |- context [data ?m] => destruct (data m) end; constructor.
  - unfold DB.createEvent. destruct client; [|constructor].
    match goal with |- context [insert_event ?f ?r ?d] =>
      pose proof (insert_event_registrations f r d) as H;
      destruct (insert_event f r d) as [res db'] end.
    simpl in H. destruct (error res); [|destruct (data res)];
      simpl; rewrite H; constructor.
  - unfold DB.updateEventStatus, update_where. destruct client; [|constructor].
    destruct (ReadEnv.fault env); constructor.
  - unfold DB.deleteEvent, delete_event. destruct client; [|constructor].
    destruct (ReadEnv.fault env); simpl; [constructor | apply step_delete].
  - apply registerForEvent_registrations.
  - unfold DB.getRegistrationsByUser. destruct client; [|constructor].
    match goal with |- context [error ?m] => destruct (error m) end;
      [constructor|].
    match goal with |- context [data ?m] => destruct (data m) end; constructor.
  - unfold DB.getRegistrationsByEvent. destruct client; [|constructor].
    match goal with |- context [error ?m] => destruct (error m) end;
      [constructor|].
    match goal with |- context [data ?m] => destruct (data m) end; constructor.
  - unfold DB.getAllParticipants. destruct client; [|constructor].
    match goal with |- context [error ?m] => destruct (error m) end;
      [constructor|].
    match goal with |- context [data ?m] => destruct (data m) end; constructor.
  - destruct (checkInUser_registrations client env qrPayload db)
      as [-> | (reg & Hin & Hst & ->)].
    + constructor.
    + now apply step_check_in.
Qed.

(** ** Once checked in *)

Lemma NoDup_map_inj {T K : Type} (key : T -> K) (l : list T) (x y : T) :
  NoDup (map key l) -> In x l -> In y l -> key x = key y -> x = y.
Proof.
  induction l as [|a l IH]; simpl; intros Hnd Hx Hy E; [contradiction|].
  inversion Hnd as [|k ks Hnot Hnd']; subst.
  destruct Hx as [->|Hx], Hy as [->|Hy].
  - reflexivity.
  - exfalso. apply Hnot. rewrite E. now apply in_map.
  - exfalso. apply Hnot. rewrite <- E. now apply in_map.
  - now apply IH.
Qed.

Lemma NoDup_map_filter {T K : Type} (key : T -> K) (p : T -> bool) (l : list T) :
  NoDup (map key l) -> NoDup (map key (filter p l)).
Proof.
  induction l as [|a l IH]; simpl; intros Hnd; [constructor|].
  inversion Hnd as [|k ks Hnot Hnd']; subst.
  destruct (p a); simpl; [constructor|]; auto.
  intros Hin. apply Hnot. apply in_map_iff in Hin as (x & Hx & Hin).
  apply filter_In in Hin as [Hin _]. rewrite <- Hx. now apply in_map.
Qed.

(** The primary key survives each of the four steps. *)
Lemma registrations_step_pkey (drawn : option string)
    (rows rows' : list RegistrationRow.t) :
  registrations_step drawn rows rows' ->
  NoDup (map RegistrationRow.id rows) -> NoDup (map RegistrationRow.id rows').
Proof.
  intros Hstep Hnd. destruct Hstep as [|row _ Hfresh _|eventId|now reg _ _].
  - assumption.
  - rewrite map_app. simpl.
    rewrite <- (rev_involutive (map RegistrationRow.id rows ++ [RegistrationRow.id row])).
    apply NoDup_rev. rewrite rev_app_distr. simpl.
    constructor.
    + rewrite <- in_rev. exact Hfresh.
    + apply NoDup_rev. exact Hnd.
  - now apply NoDup_map_filter.
  - rewrite mark_checked_in_ids. assumption.
Qed.

(** A row that is 'checked-in' is out of reach of each of the four steps:
    whatever is stored under its id afterwards is that very row. *)
Lemma registrations_step_frozen (drawn : option string)
    (rows rows' : list RegistrationRow.t) (reg r' : RegistrationRow.t) :
  registrations_step drawn rows rows' ->
  NoDup (map RegistrationRow.id rows) ->
  In reg rows -> RegistrationRow.status reg = checked_in ->
  In r' rows' -> RegistrationRow.id r' = RegistrationRow.id reg ->
  r' = reg.
Proof.
  intros Hstep Hnd Hin Hst Hin' Hid.
  destruct Hstep as [|row _ Hfresh _|eventId|now reg0 Hin0 Hst0].
  - now apply (NoDup_map_inj RegistrationRow.id rows).
  - apply in_app_or in Hin' as [Hin'|[<-|[]]].
    + now apply (NoDup_map_inj RegistrationRow.id rows).
    + exfalso. apply Hfresh. rewrite Hid. now apply in_map.
  - apply filter_In in Hin' as [Hin' _].
    now apply (NoDup_map_inj RegistrationRow.id rows).
  - rewrite mark_checked_in_eq in Hin'.
    apply in_map_iff in Hin' as (r & Hr & Hinr).
    assert (Hrid : RegistrationRow.id r = RegistrationRow.id reg).
    { rewrite <- Hid, <- Hr.
      destruct (String.eqb (RegistrationRow.id r) (RegistrationRow.id reg0));
        reflexivity. }
    assert (r = reg) by now apply (NoDup_map_inj RegistrationRow.id rows).
    subst r.
    destruct (String.eqb (RegistrationRow.id reg) (RegistrationRow.id reg0)) eqn:E.
    + apply String.eqb_eq in E.
      assert (reg = reg0) by now apply (NoDup_map_inj RegistrationRow.id rows).
      subst reg0. congruence.
    + now symmetry.
Qed.

(** The check-in of another row, or no change, keeps a 'checked-in' row in
    the table. *)
Lemma scan_keeps_checked_in (client : option SupabaseClient) (env : CheckInEnv.t)
    (qrPayload : string) (db : Store) (reg : RegistrationRow.t) :
  registrations_pkey db ->
  In reg (registrations db) -> RegistrationRow.status reg = checked_in ->
  In reg (registrations (snd (DB.checkInUser client env qrPayload db))).
Proof.
  intros Hpk Hin Hst.
  destruct (checkInUser_registrations client env qrPayload db)
    as [-> | (reg0 & Hin0 & Hst0 & ->)]; [assumption|].
  rewrite mark_checked_in_eq. apply in_map_iff. exists reg. split; [|assumption].
  destruct (String.eqb (RegistrationRow.id reg) (RegistrationRow.id reg0)) eqn:E;
    [|reflexivity].
  apply String.eqb_eq in E.
  assert (reg = reg0)
    by now apply (NoDup_map_inj RegistrationRow.id (registrations db)).
  subst reg0. congruence.
Qed.

Lemma scan_pkey (client : option SupabaseClient) (env : CheckInEnv.t)
    (qrPayload : string) (db : Store) :
  registrations_pkey db ->
  registrations_pkey (snd (DB.checkInUser client env qrPayload db)).
Proof.
  unfold registrations_pkey.
  destruct (checkInUser_registrations client env qrPayload db)
    as [-> | (reg0 & _ & _ & ->)]; [auto|].
  now rewrite mark_checked_in_ids.
Qed.

(** The status found under an id after the update by id [j]. *)
Lemma find_mark_checked_in (now i j : string) (rows : list RegistrationRow.t) :
  option_map RegistrationRow.status
    (find (fun r => String.eqb (RegistrationRow.id r) i)
          (mark_checked_in now j rows))
  = if String.eqb i j
    then option_map (fun _ => checked_in)
           (find (fun r => String.eqb (RegistrationRow.id r) i) rows)
    else option_map RegistrationRow.status
           (find (fun r => String.eqb (RegistrationRow.id r) i) rows).
Proof.
  rewrite mark_checked_in_eq.
  induction rows as [|a rows IH]; simpl.
  - destruct (String.eqb i j); reflexivity.
  - destruct (String.eqb (RegistrationRow.id a) j) eqn:Eaj; simpl;
      destruct (String.eqb (RegistrationRow.id a) i) eqn:Eai; simpl;
      try exact IH.
    + apply String.eqb_eq in Eaj, Eai. subst i.
      rewrite <- Eaj, String.eqb_refl. reflexivity.
    + apply String.eqb_eq in Eai. subst i. rewrite Eaj. reflexivity.
Qed.

(** What a scan does to the status stored under an id: it stays, or it goes
    from 'registered' to 'checked-in'. *)
Lemma scan_status_of (client : option SupabaseClient) (env : CheckInEnv.t)
    (qrPayload id : string) (db : Store) :
  let db' := snd (DB.checkInUser client env qrPayload db) in
  status_of id db' = status_of id db
  \/ (status_of id db = Some registered /\ status_of id db' = Some checked_in).
Proof.
  simpl. unfold status_of.
  destruct (checkInUser_registrations client env qrPayload db)
    as [-> | (reg0 & _ & _ & ->)]; [now left|].
  rewrite find_mark_checked_in.
  destruct (String.eqb id (RegistrationRow.id reg0)); [|now left].
  destruct (find (fun r => String.eqb (RegistrationRow.id r) id) (registrations db))
    as [r|]; simpl; [|now left].
  destruct (RegistrationRow.status r); [right; auto | now left].
Qed.

Lemma transitions_bound (client : option SupabaseClient)
    (scans : list (CheckInEnv.t * string)) :
  forall (id : string) (db : Store),
    match status_of id db with
    | Some registered => transitions client id scans db <= 1
    | _ => transitions client id scans db = 0
    end.
Proof.
  induction scans as [|[env qrPayload] rest IH]; intros id db.
  - simpl. destruct (status_of id db) as [[|]|]; auto.
  - simpl. unfold transitioned.
    specialize (IH id (snd (DB.checkInUser client env qrPayload db))).
    destruct (scan_status_of client env qrPayload id db) as [E | [E1 E2]].
    + rewrite E in *. destruct (status_of id db) as [[|]|]; simpl; auto.
    + rewrite E1, E2 in *. simpl. rewrite IH. auto.
Qed.

Lemma status_of_In (db : Store) (reg : RegistrationRow.t) :
  registrations_pkey db -> In reg (registrations db) ->
  status_of (RegistrationRow.id reg) db = Some (RegistrationRow.status reg).
Proof.
  intros Hpk Hin. unfold status_of.
  destruct (find (fun r => String.eqb (RegistrationRow.id r) (RegistrationRow.id reg))
                 (registrations db)) as [r|] eqn:Hfind.
  - apply find_some in Hfind as [Hr E]. apply String.eqb_eq in E.
    assert (r = reg) by now apply (NoDup_map_inj RegistrationRow.id (registrations db)).
    subst. reflexivity.
  - exfalso. apply (find_none _ _ Hfind) in Hin.
    rewrite String.eqb_refl in Hin. discriminate.
Qed.

(** A row appears under an id only if the id was stored before or is the one
    drawn by the call. *)
Lemma registrations_step_ids (drawn : option string)
    (rows rows' : list RegistrationRow.t) (r' : RegistrationRow.t) :
  registrations_step drawn rows rows' -> In r' rows' ->
  In (RegistrationRow.id r') (map RegistrationRow.id rows)
  \/ drawn = Some (RegistrationRow.id r').
Proof.
  intros Hstep Hin'. destruct Hstep as [|row Hdrawn _ _|eventId|now reg0 _ _].
  - left. now apply in_map.
  - apply in_app_or in Hin' as [Hin'|[<-|[]]]; [left; now apply in_map | now right].
  - apply filter_In in Hin' as [Hin' _]. left. now apply in_map.
  - left. rewrite <- (mark_checked_in_ids now (RegistrationRow.id reg0) rows).
    now apply in_map.
Qed.

(** Over any sequence of calls that never draws the id of [reg] again, what
    is stored under that id is [reg] itself once it was 'checked-in'. *)
Lemma run_all_frozen (client : option SupabaseClient)
    (order : forall T : Type, (T -> string) -> bool -> list T -> list T)
    (reg : RegistrationRow.t) (cs : list Call) :
  RegistrationRow.status reg = checked_in ->
  Forall (fun c => drawn_registration_id c <> Some (RegistrationRow.id reg)) cs ->
  forall db : Store,
    registrations_pkey db ->
    (forall r, In r (registrations db) ->
               RegistrationRow.id r = RegistrationRow.id reg -> r = reg) ->
    forall r', In r' (registrations (run_all client order cs db)) ->
               RegistrationRow.id r' = RegistrationRow.id reg -> r' = reg.
Proof.
  intros Hst Hdrawn. induction Hdrawn as [|c cs Hc _ IH]; intros db Hpk Hown.
  - exact Hown.
  - simpl. apply IH.
    + exact (registrations_step_pkey _ _ _ (run_registrations_step client order c db) Hpk).
    + intros r Hr Hid.
      pose proof (run_registrations_step client order c db) as Hstep.
      destruct (registrations_step_ids _ _ _ r Hstep Hr) as [Hold | Hnew].
      * rewrite Hid in Hold. apply in_map_iff in Hold as (r0 & Hid0 & Hin0).
        pose proof (Hown r0 Hin0 Hid0) as ->.
        exact (registrations_step_frozen _ _ _ _ _ Hstep Hpk Hin0 Hst Hr Hid).
      * exfalso. apply Hc. rewrite Hnew, Hid. reflexivity.
Qed.

(** C2: under the primary key of [registrations], the step from 'registered'
    to 'checked-in' is taken at most once for any registration id across any
    sequence of scans; a Registration that is 'checked-in' is still stored,
    unchanged, after any sequence of scans and is never taken through the
    step again; and no call of the facade, nor any sequence of calls that
    does not draw its id anew, puts anything but that same 'checked-in' row
    under its id. *)
Theorem check_in_happens_once :
  forall (client : option SupabaseClient)
         (order : forall T : Type, (T -> string) -> bool -> list T -> list T)
         (db : Store),
    registrations_pkey db ->
    (forall (scans : list (CheckInEnv.t * string)) (id : string),
        transitions client id scans db <= 1)
    /\ (forall reg : RegistrationRow.t,
          In reg (registrations db) ->
          RegistrationRow.status reg = checked_in ->
          (forall scans : list (CheckInEnv.t * string),
              In reg (registrations (scan_all client scans db))
              /\ transitions client (RegistrationRow.id reg) scans db = 0)
          /\ (forall (c : Call) (r' : RegistrationRow.t),
                In r' (registrations (run client order c db)) ->
                RegistrationRow.id r' = RegistrationRow.id reg ->
                r' = reg /\ RegistrationRow.status r' = checked_in)
          /\ (forall (cs : list Call) (r' : RegistrationRow.t),
                Forall (fun c => drawn_registration_id c
                                 <> Some (RegistrationRow.id reg)) cs ->
                In r' (registrations (run_all client order cs db)) ->
                RegistrationRow.id r' = RegistrationRow.id reg ->
                r' = reg /\ RegistrationRow.status r' = checked_in)).
Proof.
  intros client order db Hpk. split.
  - intros scans id. pose proof (transitions_bound client scans id db) as H.
    destruct (status_of id db) as [[|]|]; lia.
  - intros reg Hin Hst. split; [|split].
    + intros scans. split.
      * revert db Hpk Hin.
        induction scans as [|[env qrPayload] rest IH]; intros db Hpk Hin.
        -- exact Hin.
        -- simpl. apply IH.
           ++ now apply scan_pkey.
           ++ now apply scan_keeps_checked_in.
      * pose proof (transitions_bound client scans (RegistrationRow.id reg) db) as H.
        rewrite (status_of_In db reg Hpk Hin), Hst in H. exact H.
    + intros c r' Hin' Hid.
      assert (r' = reg).
      { exact (registrations_step_frozen _ _ _ _ _
                 (run_registrations_step client order c db) Hpk Hin Hst Hin' Hid). }
      subst r'. auto.
    + intros cs r' Hdrawn Hin' Hid.
      assert (r' = reg).
      { apply (run_all_frozen client order reg cs Hst Hdrawn db Hpk); try assumption.
        intros r Hr Hrid.
        now apply (NoDup_map_inj RegistrationRow.id (registrations db)). }
      subst r'. auto.
Qed.

Lemma check_in_happens_once_witness :
  (In pass_used
      (registrations
         (scan_all (supabase no_env)
            [(calm_scan, "e1:u1"); (audit_down, "e1:u1")] campus_admitted))
   /\ transitions (supabase no_env) "r1"
        [(calm_scan, "e1:u1"); (audit_down, "e1:u1")] campus_admitted = 0)
  /\ (forall r' : RegistrationRow.t,
        In r' (registrations
                 (run (supabase no_env) as_stored
                    (call_checkInUser calm_scan "e1:u1") campus_admitted)) ->
        RegistrationRow.id r' = "r1" ->
        r' = pass_used /\ RegistrationRow.status r' = checked_in).
Proof.
  destruct (check_in_happens_once (supabase no_env) as_stored campus_admitted
              (registrations_pkey_ok campus_admitted campus_admitted_schema))
    as [_ H].
  destruct (H pass_used (or_introl eq_refl) eq_refl) as (Hscans & Hcall & _).
  split.
  - exact (Hscans [(calm_scan, "e1:u1"); (audit_down, "e1:u1")]).
  - exact (Hcall (call_checkInUser calm_scan "e1:u1")).
Defined.

(** Two scans of Ann's pass: the first takes it to 'checked-in', the second
    is turned away, and the step is counted once. *)
Example transitions_two_scans :
  transitions (supabase no_env) "r1"
    [(calm_scan, "e1:u1"); (calm_scan, "e1:u1")] campus = 1
  /\ fst (DB.checkInUser (supabase no_env) calm_scan "e1:u1"
            (snd (DB.checkInUser (supabase no_env) calm_scan "e1:u1" campus)))
     = Resolved {| success := false;
                   message := Some "Already checked in!";
                   registration := Some (mapReg pass_used) |}.
Proof. split; reflexivity. Qed.

(** ** One Registration per user and event *)

Lemma filter_unique {T K : Type} (key : T -> K) (p : T -> bool) (l : list T) (x : T) :
  NoDup (map key l) -> In x l -> p x = true ->
  (forall y, p y = true -> key y = key x) ->
  filter p l = [x].
Proof.
  intros Hnd Hin Hpx Hkey. induction l as [|a l IH]; simpl; [contradiction|].
  inversion Hnd as [|k ks Hnot Hnd']; subst.
  destruct Hin as [->|Hin].
  - rewrite Hpx. f_equal. apply filter_nil_iff. intros y Hy.
    destruct (p y) eqn:Hpy; [|reflexivity].
    exfalso. apply Hnot. rewrite <- (Hkey y Hpy). now apply in_map.
  - destruct (p a) eqn:Hpa.
    + exfalso. apply Hnot. rewrite (Hkey a Hpa). now apply in_map.
    + now apply IH.
Qed.

Lemma pair_selected (userId eventId : string) (r : RegistrationRow.t) :
  String.eqb (RegistrationRow.user_id r) userId
  && String.eqb (RegistrationRow.event_id r) eventId = true
  <-> RegistrationRow.user_id r = userId /\ RegistrationRow.event_id r = eventId.
Proof.
  rewrite andb_true_iff, !String.eqb_eq. reflexivity.
Qed.

(** While the existence lookup is served, a call for a pair that already has
    its Registration resolves to [null] and leaves the store as it is. *)
Lemma registerForEvent_existing :
  forall (c : SupabaseClient) (env : RegisterEnv.t)
         (userId userName eventId eventTitle : string) (db : Store)
         (r : RegistrationRow.t),
    one_registration_per_pair db ->
    RegisterEnv.lookupFault env = None ->
    In r (registrations db) ->
    RegistrationRow.user_id r = userId ->
    RegistrationRow.event_id r = eventId ->
    DB.registerForEvent (Some c) env userId userName eventId eventTitle db
    = (Resolved None, db).
Proof.
  intros c env userId userName eventId eventTitle db r Hinv Hlook Hin Hu He.
  unfold DB.registerForEvent. rewrite Hlook.
  rewrite (filter_unique
             (fun r => (RegistrationRow.user_id r, RegistrationRow.event_id r))
             _ (registrations db) r Hinv Hin).
  - reflexivity.
  - apply pair_selected. auto.
  - intros y Hy. apply pair_selected in Hy as [-> ->]. now rewrite Hu, He.
Qed.

(** A call for a pair that has no Registration yet, whose insert is served,
    appends one row with status 'registered' and resolves to it. *)
Lemma registerForEvent_inserts :
  forall (c : SupabaseClient) (env : RegisterEnv.t)
         (userId userName eventId eventTitle : string) (db : Store),
    (forall r, In r (registrations db) ->
               ~ (RegistrationRow.user_id r = userId
                  /\ RegistrationRow.event_id r = eventId)) ->
    RegisterEnv.insertFault env = None ->
    ~ In (RegisterEnv.uuid env) (map RegistrationRow.id (registrations db)) ->
    In userId (map UserRow.id (users db)) ->
    In eventId (map EventRow.id (events db)) ->
    exists row,
      DB.registerForEvent (Some c) env userId userName eventId eventTitle db
      = (Resolved (Some (mapReg row)),
         with_registrations (registrations db ++ [row]) db)
      /\ RegistrationRow.status row = registered
      /\ RegistrationRow.user_id row = userId
      /\ RegistrationRow.event_id row = eventId.
Proof.
  intros c env userId userName eventId eventTitle db Hnew Hins Hfresh Hu He.
  exists {| RegistrationRow.id := RegisterEnv.uuid env;
            RegistrationRow.user_id := userId;
            RegistrationRow.user_name := userName;
            RegistrationRow.event_id := eventId;
            RegistrationRow.event_title := eventTitle;
            RegistrationRow.timestamp := RegisterEnv.now env;
            RegistrationRow.status := registered;
            RegistrationRow.qr_payload := eventId ++ ":" ++ userId;
            RegistrationRow.check_in_time := None |}.
  split; [|repeat split].
  unfold DB.registerForEvent, insert_registration.
  assert (Hsel : filter (fun r => String.eqb (RegistrationRow.user_id r) userId
                                  && String.eqb (RegistrationRow.event_id r) eventId)
                        (registrations db) = []).
  { apply filter_nil_iff. intros r Hr.
    destruct (_ && _) eqn:E; [|reflexivity].
    apply pair_selected in E. now elim (Hnew r Hr). }
  rewrite Hsel, Hins. simpl.
  rewrite (proj2 (mem_not_In _ _) Hfresh).
  rewrite (proj2 (mem_In _ _) Hu), (proj2 (mem_In _ _) He). simpl.
  destruct (RegisterEnv.lookupFault env); reflexivity.
Qed.

(** While the existence lookup is served, [registerForEvent] keeps the
    invariant. *)
Lemma registerForEvent_keeps_pairs :
  forall (client : option SupabaseClient) (env : RegisterEnv.t)
         (userId userName eventId eventTitle : string) (db : Store),
    one_registration_per_pair db ->
    RegisterEnv.lookupFault env = None ->
    one_registration_per_pair
      (snd (DB.registerForEvent client env userId userName eventId eventTitle db)).
Proof.
  intros client env userId userName eventId eventTitle db Hinv Hlook.
  destruct (registerForEvent_cases client env userId userName eventId eventTitle db)
    as [[-> _] | [-> (_ & _ & _ & Hnone)]]; [assumption|].
  unfold one_registration_per_pair in *. simpl. rewrite map_app. simpl.
  rewrite <- (rev_involutive (_ ++ [_])). apply NoDup_rev.
  rewrite rev_app_distr. simpl. constructor; [|now apply NoDup_rev].
  rewrite <- in_rev. intros Hpair.
  apply in_map_iff in Hpair as (r & Hr & Hin). injection Hr as Hu He.
  rewrite Hlook in Hnone.
  rewrite (filter_unique
             (fun r => (RegistrationRow.user_id r, RegistrationRow.event_id r))
             _ (registrations db) r Hinv Hin) in Hnone.
  - discriminate.
  - apply pair_selected. auto.
  - intros y Hy. apply pair_selected in Hy as [-> ->]. now rewrite Hu, He.
Qed.

(** Every call of the facade keeps the invariant, provided the existence
    lookup of [registerForEvent] is served. *)
Lemma run_keeps_pairs :
  forall (client : option SupabaseClient)
         (order : forall T : Type, (T -> string) -> bool -> list T -> list T)
         (c : Call) (db : Store),
    (forall env userId userName eventId eventTitle,
        c = call_registerForEvent env userId userName eventId eventTitle ->
        RegisterEnv.lookupFault env = None) ->
    one_registration_per_pair db ->
    one_registration_per_pair (run client order c db).
Proof.
  intros client order c db Hserved Hinv.
  destruct (drawn_registration_id c) as [id|] eqn:Hdrawn.
  - destruct c; try discriminate. simpl.
    apply registerForEvent_keeps_pairs; [assumption|].
    now apply (Hserved env userId userName eventId eventTitle).
  - pose proof (run_registrations_step client order c db) as Hstep.
    rewrite Hdrawn in Hstep. unfold one_registration_per_pair in *.
    destruct Hstep as [|row Hnone _ _|eventId|now reg _ _].
    + assumption.
    + discriminate.
    + now apply NoDup_map_filter.
    + now rewrite mark_checked_in_pairs.
Qed.

(** C3, on the failing input: Ann holds her one pass for the workshop and the
    invariant holds; she registers again, the existence lookup fails and the
    insert is served.  The call does not resolve to [null]: it hands back a
    second Registration, which is stored, and the invariant no longer
    holds. *)
Theorem registerForEvent_lookup_error_duplicates :
  one_registration_per_pair campus
  /\ In pass (registrations campus)
  /\ RegistrationRow.user_id pass = "u1"
  /\ RegistrationRow.event_id pass = "e1"
  /\ DB.registerForEvent (supabase no_env) lookup_down
       "u1" "Ann" "e1" "Rocq workshop" campus
     = (Resolved (Some (mapReg second_pass)), campus_twice)
  /\ ~ one_registration_per_pair campus_twice.
Proof.
  split; [|split; [|split; [|split; [|split]]]].
  - unfold one_registration_per_pair. simpl. constructor; [intros [] | constructor].
  - now left.
  - reflexivity.
  - reflexivity.
  - reflexivity.
  - unfold one_registration_per_pair. simpl. intros H.
    inversion H as [|k ks Hnot _]; subst. apply Hnot. now left.
Qed.

(** ** The constraints hold in every reachable store *)

Lemma NoDup_snoc {T : Type} (l : list T) (x : T) :
  NoDup l -> ~ In x l -> NoDup (l ++ [x]).
Proof.
  intros Hnd Hx. rewrite <- (rev_involutive (l ++ [x])). apply NoDup_rev.
  rewrite rev_app_distr. simpl. constructor.
  - now rewrite <- in_rev.
  - now apply NoDup_rev.
Qed.

Lemma schema_empty : schema empty_store.
Proof.
  constructor; unfold registrations_pkey; simpl;
    try constructor; intros x [].
Qed.

Lemma schema_insert_user (fault : Fault) (row : UserRow.t) (db : Store) :
  schema db -> schema (snd (insert_user fault row db)).
Proof.
  intros Hs. unfold insert_user. destruct fault; [exact Hs|].
  destruct (UserRow.password row); [|exact Hs].
  destruct (mem (UserRow.id row) (map UserRow.id (users db))) eqn:Hid;
    [exact Hs|].
  destruct (mem (UserRow.email row) (map UserRow.email (users db))) eqn:Hm;
    [exact Hs|].
  destruct (mem (UserRow.uni_id row) (map UserRow.uni_id (users db))) eqn:Hu;
    [exact Hs|].
  apply mem_not_In in Hid, Hm, Hu. destruct Hs.
  constructor; unfold registrations_pkey in *; simpl; try assumption;
    try (rewrite map_app; simpl; now apply NoDup_snoc);
    intros x Hx; rewrite map_app; apply in_or_app; left; auto.
Qed.

Lemma schema_insert_event (fault : Fault) (row : EventRow.t) (db : Store) :
  schema db -> schema (snd (insert_event fault row db)).
Proof.
  intros Hs. unfold insert_event. destruct fault; [exact Hs|].
  destruct (mem (EventRow.id row) (map EventRow.id (events db))) eqn:Hid;
    [exact Hs|].
  destruct (mem (EventRow.organizer_id row) (map UserRow.id (users db))) eqn:Ho;
    [|exact Hs].
  apply mem_not_In in Hid. apply mem_In in Ho. destruct Hs.
  constructor; unfold registrations_pkey in *; simpl; try assumption;
    try (rewrite map_app; simpl; now apply NoDup_snoc).
  - intros e He. apply in_app_or in He as [He|[<-|[]]]; auto.
  - intros x Hx. rewrite map_app. apply in_or_app. left. auto.
  - intros x Hx. rewrite map_app. apply in_or_app. left. auto.
Qed.

Lemma schema_insert_registration (fault : Fault) (row : RegistrationRow.t)
    (db : Store) :
  schema db -> schema (snd (insert_registration fault row db)).
Proof.
  intros Hs. unfold insert_registration. destruct fault; [exact Hs|].
  destruct (mem (RegistrationRow.id row)
                (map RegistrationRow.id (registrations db))) eqn:Hid; [exact Hs|].
  destruct (mem (RegistrationRow.user_id row) (map UserRow.id (users db))) eqn:Hu;
    [|exact Hs].
  destruct (mem (RegistrationRow.event_id row) (map EventRow.id (events db))) eqn:He;
    [|exact Hs].
  apply mem_not_In in Hid. apply mem_In in Hu, He. destruct Hs.
  constructor; unfold registrations_pkey in *; simpl; try assumption;
    try (rewrite map_app; simpl; now apply NoDup_snoc).
  - intros r Hr. apply in_app_or in Hr as [Hr|[<-|[]]]; auto.
  - intros r Hr. apply in_app_or in Hr as [Hr|[<-|[]]]; auto.
  - intros x Hx. rewrite map_app. apply in_or_app. left. auto.
Qed.

Lemma schema_insert_participant (fault : Fault) (row : ParticipantRow.t)
    (db : Store) :
  schema db -> schema (snd (insert_participant fault row db)).
Proof.
  intros Hs.
  destruct (insert_participant_cases fault row db)
    as [[_ ->] | [-> (_ & Hid & Hr & Hu & He)]]; [exact Hs|].
  destruct Hs.
  constructor; unfold registrations_pkey in *; simpl; try assumption;
    try (rewrite map_app; simpl; now apply NoDup_snoc);
    intros p Hp; apply in_app_or in Hp as [Hp|[<-|[]]]; auto.
Qed.

Lemma schema_mark_checked_in (now id : string) (db : Store) :
  schema db ->
  schema (with_registrations (mark_checked_in now id (registrations db)) db).
Proof.
  intros Hs. destruct Hs.
  constructor; unfold registrations_pkey in *; simpl; try assumption;
    try (rewrite mark_checked_in_ids; assumption).
  - intros r Hr. rewrite mark_checked_in_eq in Hr.
    apply in_map_iff in Hr as (r0 & <- & Hr0).
    destruct (String.eqb (RegistrationRow.id r0) id); simpl; auto.
  - intros r Hr. rewrite mark_checked_in_eq in Hr.
    apply in_map_iff in Hr as (r0 & <- & Hr0).
    destruct (String.eqb (RegistrationRow.id r0) id); simpl; auto.
Qed.

Lemma schema_update_users (sel : UserRow.t -> bool) (s : ApprovalStatus)
    (db : Store) :
  schema db ->
  schema (with_users
            (map (fun u => if sel u then set_user_status s u else u) (users db)) db).
Proof.
  intros Hs.
  assert (Hid : map UserRow.id
                  (map (fun u => if sel u then set_user_status s u else u) (users db))
                = map UserRow.id (users db)).
  { rewrite map_map. apply map_ext. intros u. destruct (sel u); reflexivity. }
  assert (Hm : map UserRow.email
                  (map (fun u => if sel u then set_user_status s u else u) (users db))
                = map UserRow.email (users db)).
  { rewrite map_map. apply map_ext. intros u. destruct (sel u); reflexivity. }
  assert (Hu : map UserRow.uni_id
                  (map (fun u => if sel u then set_user_status s u else u) (users db))
                = map UserRow.uni_id (users db)).
  { rewrite map_map. apply map_ext. intros u. destruct (sel u); reflexivity. }
  destruct Hs.
  constructor; unfold registrations_pkey in *; simpl;
    rewrite ?Hid, ?Hm, ?Hu; assumption.
Qed.

Lemma schema_update_events (sel : EventRow.t -> bool) (s : ApprovalStatus)
    (db : Store) :
  schema db ->
  schema (with_events
            (map (fun e => if sel e then set_event_status s e else e) (events db)) db).
Proof.
  intros Hs.
  assert (Hid : map EventRow.id
                  (map (fun e => if sel e then set_event_status s e else e) (events db))
                = map EventRow.id (events db)).
  { rewrite map_map. apply map_ext. intros e. destruct (sel e); reflexivity. }
  destruct Hs.
  constructor; unfold registrations_pkey in *; simpl;
    rewrite ?Hid; try assumption.
  intros e He. apply in_map_iff in He as (e0 & <- & He0).
  destruct (sel e0); simpl; auto.
Qed.

Lemma schema_delete_event (fault : Fault) (eventId : string) (db : Store) :
  schema db -> schema (snd (delete_event fault eventId db)).
Proof.
  intros Hs. unfold delete_event. destruct fault; [exact Hs|].
  destruct Hs.
  assert (Hkeep : forall id, id <> eventId ->
            In id (map EventRow.id (events db)) ->
            In id (map EventRow.id
                     (filter (fun e => negb (String.eqb (EventRow.id e) eventId))
                             (events db)))).
  { intros id Hne Hin. apply in_map_iff in Hin as (e & <- & He).
    apply in_map. apply filter_In. split; [assumption|].
    apply negb_true_iff. now apply String.eqb_neq. }
  constructor; unfold registrations_pkey in *; simpl; try assumption;
    try (now apply NoDup_map_filter).
  - intros e He. apply filter_In in He as [He _]. auto.
  - intros r Hr. apply filter_In in Hr as [Hr _]. auto.
  - intros r Hr. apply filter_In in Hr as [Hr Hne].
    apply negb_true_iff, String.eqb_neq in Hne. auto.
  - intros p Hp. apply filter_In in Hp as [Hp Hkept].
    apply andb_true_iff in Hkept as [_ Hgone].
    apply negb_true_iff, mem_not_In in Hgone.
    pose proof (participants_registration_id_fkey0 p Hp) as Hreg.
    apply in_map_iff in Hreg as (r & Hid & Hr).
    rewrite <- Hid. apply in_map. apply filter_In. split; [assumption|].
    apply negb_true_iff. apply String.eqb_neq. intros He.
    apply Hgone. rewrite <- Hid. apply in_map. apply filter_In.
    split; [assumption | now apply String.eqb_eq].
  - intros p Hp. apply filter_In in Hp as [Hp _]. auto.
  - intros p Hp. apply filter_In in Hp as [Hp Hkept].
    apply andb_true_iff in Hkept as [Hne _].
    apply negb_true_iff, String.eqb_neq in Hne. auto.
Qed.

(** Every call of the facade leaves a store that satisfies the constraints
    of the setup script. *)
Lemma run_schema :
  forall (client : option SupabaseClient)
         (order : forall T : Type, (T -> string) -> bool -> list T -> list T)
         (c : Call) (db : Store),
    schema db -> schema (run client order c db).
Proof.
  intros client order c db Hs. destruct c; simpl.
  - unfold DB.init. destruct client; [|exact Hs].
    match goal with |- context [data ?m] => destruct (data m) end;
      [exact Hs|]. simpl. now apply schema_insert_user.
  - unfold DB.findUserByEmail. destruct client; [|exact Hs].
    match goal with |- context [error ?m] => destruct (error m) end;
      [exact Hs|].
    match goal with |- context [data ?m] => destruct (data m) end; exact Hs.
  - unfold DB.createUser. destruct client; [|exact Hs].
    match goal with |- context [insert_user ?f ?r ?d] =>
      pose proof (schema_insert_user f r d Hs) as H;
      destruct (insert_user f r d) as [res db'] end.
    simpl in H. destruct (error res); [|destruct (data res)]; exact H.
  - unfold DB.getAllUsers. destruct client; [|exact Hs].
    match goal with |- context [error ?m] => destruct (error m) end;
      [exact Hs|].
    match goal with |- context [data ?m] => destruct (data m) end; exact Hs.
  - unfold DB.getPendingUsers. destruct client; [|exact Hs].
    match goal with |- context [error ?m] => destruct (error m) end;
      [exact Hs|].
    match goal with |- context [data ?m] => destruct (data m) end; exact Hs.
  - unfold DB.updateUserStatus, update_where. destruct client; [|exact Hs].
    destruct (ReadEnv.fault env); simpl.
    + now rewrite with_users_same.
    + now apply schema_update_users.
  - unfold DB.getEvents. destruct client; [|exact Hs].
    match goal with |- context [error ?m] => destruct (error m) end;
      [exact Hs|].
    match goal with |- context [data ?m] => destruct (data m) end; exact Hs.
  - unfold DB.createEvent. destruct client; [|exact Hs].
    match goal with |- context [insert_event ?f ?r ?d] =>
      pose proof (schema_insert_event f r d Hs) as H;
      destruct (insert_event f r d) as [res db'] end.
    simpl in H. destruct (error res); [|destruct (data res)]; exact H.
  - unfold DB.updateEventStatus, update_where. destruct client; [|exact Hs].
    destruct (ReadEnv.fault env); simpl.
    + now rewrite with_events_same.
    + now apply schema_update_events.
  - unfold DB.deleteEvent. destruct client; [exact (schema_delete_event _ _ _ Hs) | exact Hs].
  - unfold DB.registerForEvent. destruct client; [|exact Hs].
    match goal with |- context [data ?m] => destruct (data m) end; [exact Hs|].
    match goal with |- context [insert_registration ?f ?r ?d] =>
      pose proof (schema_insert_registration f r d Hs) as H;
      destruct (insert_registration f r d) as [res db'] end.
    simpl in H. destruct (error res); [|destruct (data res)]; exact H.
  - unfold DB.getRegistrationsByUser. destruct client; [|exact Hs].
    match goal with |- context [error ?m] => destruct (error m) end;
      [exact Hs|].
    match goal with |- context [data ?m] => destruct (data m) end; exact Hs.
  - unfold DB.getRegistrationsByEvent. destruct client; [|exact Hs].
    match goal with |- context [error ?m] => destruct (error m) end;
      [exact Hs|].
    match goal with |- context [data ?m] => destruct (data m) end; exact Hs.
  - unfold DB.getAllParticipants. destruct client; [|exact Hs].
    match goal with |- context [error ?m] => destruct (error m) end;
      [exact Hs|].
    match goal with |- context [data ?m] => destruct (data m) end; exact Hs.
  - unfold DB.checkInUser. destruct client; [|exact Hs].
    destruct (error (fetch_by_payload env qrPayload db)); [exact Hs|].
    destruct (data (fetch_by_payload env qrPayload db)) as [reg|]; [|exact Hs].
    destruct (RegistrationRow.status reg); simpl; [|exact Hs].
    destruct (CheckInEnv.updateFault env); simpl.
    + now rewrite with_registrations_same.
    + rewrite <- !mark_checked_in_eq.
      match goal with |- context [match ?d with Some _ => _ | None => _ end] =>
        destruct d end; simpl;
        apply schema_insert_participant, schema_mark_checked_in, Hs.
Qed.

(** Every store reached from the empty one by calls of the facade satisfies
    the constraints. *)
Lemma run_all_schema :
  forall (client : option SupabaseClient)
         (order : forall T : Type, (T -> string) -> bool -> list T -> list T)
         (cs : list Call) (db : Store),
    schema db -> schema (run_all client order cs db).
Proof.
  intros client order cs. induction cs as [|c cs IH]; intros db Hs.
  - exact Hs.
  - simpl. apply IH. now apply run_schema.
Qed.

(** ** Accounts: [init], [createUser], [findUserByEmail], [updateUserStatus],
    [getPendingUsers] *)

Lemma insert_user_cases (fault : Fault) (row : UserRow.t) (db : Store) :
  (error (fst (insert_user fault row db)) <> None
   /\ data (fst (insert_user fault row db)) = None
   /\ snd (insert_user fault row db) = db
   /\ (fault = None ->
       In (UserRow.id row) (map UserRow.id (users db))
       \/ In (UserRow.email row) (map UserRow.email (users db))
       \/ In (UserRow.uni_id row) (map UserRow.uni_id (users db))
       \/ UserRow.password row = None))
  \/ (insert_user fault row db = (answered row, with_users (users db ++ [row]) db)
      /\ fault = None
      /\ UserRow.password row <> None
      /\ ~ In (UserRow.id row) (map UserRow.id (users db))
      /\ ~ In (UserRow.email row) (map UserRow.email (users db))
      /\ ~ In (UserRow.uni_id row) (map UserRow.uni_id (users db))).
Proof.
  unfold insert_user.
  destruct fault as [e|];
    [left; repeat split; try discriminate|].
  destruct (UserRow.password row) as [pw|];
    [|left; repeat split; try discriminate; auto].
  destruct (mem (UserRow.id row) (map UserRow.id (users db))) eqn:Hid.
  { left. repeat split; try discriminate. intros _. left. now apply mem_In. }
  destruct (mem (UserRow.email row) (map UserRow.email (users db))) eqn:Hm.
  { left. repeat split; try discriminate. intros _. right. left. now apply mem_In. }
  destruct (mem (UserRow.uni_id row) (map UserRow.uni_id (users db))) eqn:Hu.
  { left. repeat split; try discriminate. intros _. right. right. left.
    now apply mem_In. }
  right. simpl. repeat split; try discriminate; now apply mem_not_In.
Qed.

Lemma filter_snoc_fresh {T : Type} (p : T -> bool) (l : list T) (x : T) :
  (forall y, In y l -> p y = false) -> p x = true -> filter p (l ++ [x]) = [x].
Proof.
  intros Hl Hx. rewrite filter_app. simpl. rewrite Hx.
  rewrite (proj2 (filter_nil_iff p l) Hl). reflexivity.
Qed.

(** X1: once a user with the e-mail of the seed admin is stored, [init]
    never changes the store, whether or not its requests are served: a lookup
    that fails lets the insert go ahead, and the insert is turned away by
    [email unique]. *)
Theorem init_keeps_existing_admin :
  forall (client : option SupabaseClient) (env : InitEnv.t) (db : Store)
         (u : UserRow.t),
    In u (users db) ->
    UserRow.email u = "admin@gmail.com" ->
    DB.init client env db = (Resolved tt, db).
Proof.
  intros client env db u Hin Hmail. unfold DB.init.
  destruct client as [c|]; [|reflexivity].
  match goal with |- context [data ?m] => destruct (data m) end; [reflexivity|].
  destruct (insert_user_cases (InitEnv.insertFault env) (DB.admin_seed env) db)
    as [(_ & _ & -> & _) | (_ & _ & _ & _ & Hfree & _)]; [reflexivity|].
  exfalso. apply Hfree. simpl. rewrite <- Hmail. now apply in_map.
Qed.

Lemma init_keeps_existing_admin_witness :
  DB.init (supabase no_env) offline_start
    (snd (DB.init (supabase no_env) first_start campus))
  = (Resolved tt, snd (DB.init (supabase no_env) first_start campus)).
Proof.
  apply (init_keeps_existing_admin (supabase no_env) offline_start _
           (DB.admin_seed first_start)).
  - vm_compute. auto.
  - reflexivity.
Defined.

(** X2: on a store that holds no user with the admin's e-mail, when the
    insert is served under a fresh id and 'ADMIN-001' is free, [init] appends
    the seed row and nothing else; the login form then lets
    'admin@gmail.com' in with the password '123', as an approved admin. *)
Theorem init_seeds_default_admin :
  forall (c : SupabaseClient) (env : InitEnv.t) (renv : ReadEnv.t) (db : Store),
    (forall u, In u (users db) -> UserRow.email u <> "admin@gmail.com") ->
    ~ In "ADMIN-001" (map UserRow.uni_id (users db)) ->
    ~ In (InitEnv.uuid env) (map UserRow.id (users db)) ->
    InitEnv.insertFault env = None ->
    ReadEnv.fault renv = None ->
    let db' := with_users (users db ++ [DB.admin_seed env]) db in
    DB.init (Some c) env db = (Resolved tt, db')
    /\ LoginForm.sub (Some c) renv "admin@gmail.com" "123" db'
       = (LoginForm.onLogin (mapUser (DB.admin_seed env)), db')
    /\ User.role (mapUser (DB.admin_seed env)) = admin
    /\ User.status (mapUser (DB.admin_seed env)) = Some approved.
Proof.
  intros c env renv db Hnone Huni Hid Hins Hread db'.
  assert (Hsel : filter (fun u => String.eqb (UserRow.email u) "admin@gmail.com")
                        (users db) = []).
  { apply filter_nil_iff. intros u Hu. apply String.eqb_neq. now apply Hnone. }
  split; [|split; [|split; reflexivity]].
  - unfold DB.init. rewrite Hsel. simpl.
    assert (Hd : data (maybeSingle (InitEnv.lookupFault env) (@nil string)) = None)
      by (destruct (InitEnv.lookupFault env); reflexivity).
    rewrite Hd.
    destruct (insert_user_cases (InitEnv.insertFault env) (DB.admin_seed env) db)
      as [(_ & _ & _ & Hwhy) | (-> & _)]; [|reflexivity].
    exfalso. destruct (Hwhy Hins) as [H|[H|[H|H]]].
    + now apply Hid.
    + simpl in H. apply in_map_iff in H as (u & Hu & Hin). now apply (Hnone u Hin).
    + now apply Huni.
    + discriminate.
  - unfold LoginForm.sub, DB.findUserByEmail. rewrite Hread. subst db'. simpl.
    rewrite (filter_snoc_fresh
               (fun u => String.eqb (UserRow.email u) "admin@gmail.com")
               (users db) (DB.admin_seed env)).
    + reflexivity.
    + now apply filter_nil_iff.
    + reflexivity.
Qed.

Lemma init_seeds_default_admin_witness :
  DB.init (supabase no_env) first_start campus
  = (Resolved tt, with_users (users campus ++ [DB.admin_seed first_start]) campus)
  /\ LoginForm.sub (supabase no_env) served "admin@gmail.com" "123"
       (with_users (users campus ++ [DB.admin_seed first_start]) campus)
     = (LoginForm.onLogin (mapUser (DB.admin_seed first_start)),
        with_users (users campus ++ [DB.admin_seed first_start]) campus)
  /\ User.role (mapUser (DB.admin_seed first_start)) = admin
  /\ User.status (mapUser (DB.admin_seed first_start)) = Some approved.
Proof.
  rewrite supabase_configured.
  apply (init_seeds_default_admin _ first_start served campus);
    try reflexivity; simpl.
  - intros u [<-|[<-|[]]]; discriminate.
  - intros [H|[H|[]]]; discriminate.
  - intros [H|[H|[]]]; discriminate.
Defined.

(** What [createUser] does with the store: nothing when it rejects, one
    appended row when it resolves. *)
Lemma createUser_cases :
  forall (client : option SupabaseClient) (env : InsertEnv.t)
         (user : NewUser.t) (db : Store),
    let row :=
      {| UserRow.id := InsertEnv.uuid env;
         UserRow.name := NewUser.name user;
         UserRow.email := NewUser.email user;
         UserRow.password := NewUser.password user;
         UserRow.role := NewUser.role user;
         UserRow.uni_id := NewUser.uniId user;
         UserRow.profile_photo := NewUser.profilePhoto user;
         UserRow.status :=
           Some (if UserRole_eqb (NewUser.role user) organizer
                 then pending else approved);
         UserRow.created_at := InsertEnv.server_now env |} in
    (exists e, DB.createUser client env user db = (Rejected e, db))
    \/ (DB.createUser client env user db
        = (Resolved (mapUser row), with_users (users db ++ [row]) db)
        /\ NewUser.password user <> None
        /\ ~ In (InsertEnv.uuid env) (map UserRow.id (users db))
        /\ ~ In (NewUser.email user) (map UserRow.email (users db))
        /\ ~ In (NewUser.uniId user) (map UserRow.uni_id (users db))).
Proof.
  intros client env user db row. unfold DB.createUser.
  destruct client as [c|]; [|left; eexists; reflexivity].
  fold row.
  destruct (insert_user_cases (InsertEnv.fault env) row db)
    as [(Herr & _ & Hdb & _) | (-> & _ & Hpw & Hid & Hm & Hu)].
  - left. destruct (insert_user (InsertEnv.fault env) row db) as [res db'].
    simpl in *. subst db'. destruct (error res) as [e|]; [|contradiction].
    eexists; reflexivity.
  - right. repeat split; assumption.
Qed.

(** X3: a user that [createUser] has created is found again by its e-mail:
    a served [findUserByEmail] on the store left behind resolves to that very
    user. *)
Theorem createUser_then_findUserByEmail :
  forall (client : option SupabaseClient) (env : InsertEnv.t) (renv : ReadEnv.t)
         (user : NewUser.t) (db db' : Store) (created : User.t),
    DB.createUser client env user db = (Resolved created, db') ->
    ReadEnv.fault renv = None ->
    DB.findUserByEmail client renv (NewUser.email user) db'
    = (Resolved (Some created), db').
Proof.
  intros client env renv user db db' created Hcreate Hread.
  destruct (createUser_cases client env user db)
    as [[e He] | (Hout & _ & _ & Hmail & _)].
  - rewrite He in Hcreate. discriminate.
  - rewrite Hout in Hcreate. injection Hcreate as <- <-.
    destruct client as [c|]; [|discriminate].
    unfold DB.findUserByEmail. rewrite Hread. simpl.
    rewrite filter_snoc_fresh.
    + reflexivity.
    + intros y Hy. apply String.eqb_neq. intros E. apply Hmail.
      rewrite <- E. now apply in_map.
    + apply String.eqb_refl.
Qed.

Lemma createUser_then_findUserByEmail_witness :
  DB.findUserByEmail (supabase no_env) served "carol@uni.lk"
    (snd (DB.createUser (supabase no_env) calm_insert
            (carol organizer None) campus))
  = (Resolved (Some (mapUser
       {| UserRow.id := "u3"; UserRow.name := "Carol";
          UserRow.email := "carol@uni.lk"; UserRow.password := Some "pw";
          UserRow.role := organizer; UserRow.uni_id := "X-003";
          UserRow.profile_photo := Some "data:image/png;base64,AAAA";
          UserRow.status := Some pending;
          UserRow.created_at := "2024-01-05T08:00:00Z" |})),
     snd (DB.createUser (supabase no_env) calm_insert
            (carol organizer None) campus)).
Proof.
  apply (createUser_then_findUserByEmail (supabase no_env) calm_insert served
           (carol organizer None) campus); reflexivity.
Defined.

(** X4: [createUser] never resolves for an e-mail or a university id that is
    already stored, nor without a password: the promise is rejected and the
    store is left as it was. *)
Theorem createUser_rejects_duplicates :
  forall (client : option SupabaseClient) (env : InsertEnv.t)
         (user : NewUser.t) (db : Store),
    In (NewUser.email user) (map UserRow.email (users db))
    \/ In (NewUser.uniId user) (map UserRow.uni_id (users db))
    \/ NewUser.password user = None ->
    exists e, DB.createUser client env user db = (Rejected e, db).
Proof.
  intros client env user db Hdup.
  destruct (createUser_cases client env user db)
    as [H | (_ & Hpw & _ & Hm & Hu)]; [exact H|].
  exfalso. destruct Hdup as [H|[H|H]]; auto.
Qed.

Lemma createUser_rejects_duplicates_witness :
  exists e,
    DB.createUser (supabase no_env) calm_insert
      {| NewUser.name := "Ann B"; NewUser.email := "ann@uni.lk";
         NewUser.password := Some "pw2"; NewUser.role := student;
         NewUser.indexNumber := None; NewUser.uniId := "S-777";
         NewUser.profilePhoto := None; NewUser.status := None |} campus
    = (Rejected e, campus).
Proof.
  apply createUser_rejects_duplicates. left. simpl. auto.
Defined.

(** ** Verdicts on accounts *)

Lemma update_users_ids (sel : UserRow.t -> bool) (s : ApprovalStatus)
    (rows : list UserRow.t) :
  map UserRow.id (map (fun u => if sel u then set_user_status s u else u) rows)
  = map UserRow.id rows.
Proof.
  rewrite map_map. apply map_ext. intros u. destruct (sel u); reflexivity.
Qed.

Lemma update_users_other (userId : string) (s : ApprovalStatus)
    (rows : list UserRow.t) :
  ~ In userId (map UserRow.id rows) ->
  map (fun u => if String.eqb (UserRow.id u) userId
                then set_user_status s u else u) rows = rows.
Proof.
  induction rows as [|u us IH]; simpl; intros Hnone; [reflexivity|].
  destruct (String.eqb (UserRow.id u) userId) eqn:E.
  - apply String.eqb_eq in E. exfalso. apply Hnone. now left.
  - f_equal. apply IH. intros H. apply Hnone. now right.
Qed.

(** X5: a served [updateUserStatus] resolves to [true] whether or not a user
    has the id.  It rewrites the status of the users with that id to the
    verdict and leaves every other user as it is; events, registrations and
    participants are not touched, and when no user has the id the store is
    the same store. *)
Theorem updateUserStatus_served :
  forall (c : SupabaseClient) (env : ReadEnv.t) (userId : string)
         (status : Verdict) (db : Store),
    ReadEnv.fault env = None ->
    exists db',
      DB.updateUserStatus (Some c) env userId status db = (Resolved true, db')
      /\ Forall2 (user_verdict_frame userId status) (users db) (users db')
      /\ events db' = events db
      /\ registrations db' = registrations db
      /\ participants db' = participants db
      /\ (~ In userId (map UserRow.id (users db)) -> db' = db).
Proof.
  intros c env userId status db Hserved.
  unfold DB.updateUserStatus, update_where. rewrite Hserved.
  eexists. split; [reflexivity|]. simpl.
  split; [|repeat split].
  - induction (users db) as [|u us IH]; simpl; constructor; [|exact IH].
    unfold user_verdict_frame.
    destruct (String.eqb (UserRow.id u) userId) eqn:E.
    + apply String.eqb_eq in E. split; [reflexivity | contradiction].
    + apply String.eqb_neq in E. split; [contradiction | reflexivity].
  - intros Hnone. rewrite update_users_other by assumption.
    apply with_users_same.
Qed.

Lemma updateUserStatus_served_witness :
  exists db',
    DB.updateUserStatus (supabase no_env) served "nobody" verdict_approved campus
    = (Resolved true, db')
    /\ Forall2 (user_verdict_frame "nobody" verdict_approved)
         (users campus) (users db')
    /\ events db' = events campus
    /\ registrations db' = registrations campus
    /\ participants db' = participants campus
    /\ (~ In "nobody" (map UserRow.id (users campus)) -> db' = campus).
Proof.
  rewrite supabase_configured.
  apply (updateUserStatus_served _ served "nobody" verdict_approved campus).
  reflexivity.
Defined.

(** An [updateUserStatus] that is not served resolves to [false] and changes
    nothing. *)
Lemma updateUserStatus_failed :
  forall (c : SupabaseClient) (env : ReadEnv.t) (userId : string)
         (status : Verdict) (db : Store) (e : PostgrestError),
    ReadEnv.fault env = Some e ->
    DB.updateUserStatus (Some c) env userId status db = (Resolved false, db).
Proof.
  intros c env userId status db e H.
  unfold DB.updateUserStatus, update_where. rewrite H. simpl.
  now rewrite with_users_same.
Qed.

Lemma pending_after_verdict (userId : string) (v : Verdict) (rows : list UserRow.t) :
  map mapUser
    (filter (fun u =>
               UserRole_eqb (UserRow.role u) organizer
               && match UserRow.status u with
                  | Some s => ApprovalStatus_eqb s pending
                  | None => false
                  end)
            (map (fun u => if String.eqb (UserRow.id u) userId
                           then set_user_status (Verdict_status v) u else u) rows))
  = filter (fun u => negb (String.eqb (User._id u) userId))
      (map mapUser
         (filter (fun u =>
                    UserRole_eqb (UserRow.role u) organizer
                    && match UserRow.status u with
                       | Some s => ApprovalStatus_eqb s pending
                       | None => false
                       end) rows)).
Proof.
  induction rows as [|u us IH]; simpl; [reflexivity|].
  destruct (String.eqb (UserRow.id u) userId) eqn:E.
  - assert (Hv : ApprovalStatus_eqb (Verdict_status v) pending = false)
      by (destruct v; reflexivity).
    simpl. rewrite Hv, andb_false_r.
    destruct (UserRole_eqb (UserRow.role u) organizer
              && match UserRow.status u with
                 | Some s => ApprovalStatus_eqb s pending
                 | None => false
                 end); simpl; [rewrite E; simpl|]; exact IH.
  - destruct (UserRole_eqb (UserRow.role u) organizer
              && match UserRow.status u with
                 | Some s => ApprovalStatus_eqb s pending
                 | None => false
                 end); simpl; [rewrite E; simpl; f_equal|]; exact IH.
Qed.

(** X6: after a served verdict on a user id, approved or rejected, a served
    [getPendingUsers] lists what it listed before without the users of that
    id: the verdict takes the account off the admin's list and touches no
    other entry. *)
Theorem verdict_clears_pending :
  forall (c : SupabaseClient) (env renv : ReadEnv.t) (userId : string)
         (v : Verdict) (db : Store) (before : list User.t),
    ReadEnv.fault env = None ->
    ReadEnv.fault renv = None ->
    fst (DB.getPendingUsers (Some c) renv db) = Resolved before ->
    fst (DB.getPendingUsers (Some c) renv
           (snd (DB.updateUserStatus (Some c) env userId v db)))
    = Resolved (filter (fun u => negb (String.eqb (User._id u) userId)) before).
Proof.
  intros c env renv userId v db before Hserved Hread Hbefore.
  unfold DB.getPendingUsers, DB.updateUserStatus, update_where, select_all in *.
  rewrite Hserved. rewrite Hread in *. simpl in *.
  injection Hbefore as <-. f_equal. apply pending_after_verdict.
Qed.

Lemma verdict_clears_pending_witness :
  fst (DB.getPendingUsers (supabase no_env) served
         (snd (DB.updateUserStatus (supabase no_env) served "u4"
                 verdict_rejected campus_with_dan)))
  = Resolved (filter (fun u => negb (String.eqb (User._id u) "u4")) [mapUser dan]).
Proof.
  rewrite supabase_configured.
  apply (verdict_clears_pending _ served served "u4" verdict_rejected
           campus_with_dan [mapUser dan]); reflexivity.
Defined.

(** ** The login form *)

(** X7: whoever the login form lets in is a stored user: the only one with
    the e-mail typed, whose stored password is the one typed, and who is not
    an organizer still pending; the store is not changed. *)
Theorem login_sound :
  forall (client : option SupabaseClient) (env : ReadEnv.t)
         (email pw : string) (db db' : Store) (u : User.t),
    LoginForm.sub client env email pw db = (LoginForm.onLogin u, db') ->
    db' = db
    /\ exists row,
         filter (fun r => String.eqb (UserRow.email r) email) (users db) = [row]
         /\ In row (users db)
         /\ UserRow.email row = email
         /\ UserRow.password row = Some pw
         /\ mapUser row = u
         /\ ~ (UserRow.role row = organizer /\ UserRow.status row = Some pending).
Proof.
  intros client env email pw db db' u.
  unfold LoginForm.sub, DB.findUserByEmail.
  destruct client as [c|]; [|discriminate].
  destruct (maybeSingle (ReadEnv.fault env)
              (filter (fun r => String.eqb (UserRow.email r) email) (users db)))
    as [d e] eqn:Hres.
  simpl. destruct e as [e|]; [discriminate|].
  destruct d as [row|]; [|discriminate].
  assert (Hdata : data (maybeSingle (ReadEnv.fault env)
                          (filter (fun r => String.eqb (UserRow.email r) email)
                                  (users db))) = Some row)
    by (rewrite Hres; reflexivity).
  apply maybeSingle_data in Hdata as [_ Hsel].
  simpl.
  destruct (UserRow.password row) as [p|] eqn:Hpw; [|discriminate].
  destruct (String.eqb p pw) eqn:Ep; [|discriminate].
  apply String.eqb_eq in Ep. subst p.
  destruct (UserRole_eqb (UserRow.role row) organizer
            && match match UserRow.status row with
                     | Some s => Some s
                     | None => Some approved
                     end with
               | Some s => ApprovalStatus_eqb s pending
               | None => false
               end) eqn:Egate; [discriminate|].
  intros H. injection H as <- <-. split; [reflexivity|].
  exists row.
  assert (Hin : In row (filter (fun r => String.eqb (UserRow.email r) email) (users db)))
    by (rewrite Hsel; now left).
  apply filter_In in Hin as [Hin Hmail]. apply String.eqb_eq in Hmail.
  repeat split; try assumption; try reflexivity.
  intros [Hrole Hst]. rewrite Hrole, Hst in Egate. discriminate.
Qed.

Lemma login_sound_witness :
  campus = campus
  /\ exists row,
       filter (fun r => String.eqb (UserRow.email r) "ann@uni.lk") (users campus)
       = [row]
       /\ In row (users campus)
       /\ UserRow.email row = "ann@uni.lk"
       /\ UserRow.password row = Some "pw"
       /\ mapUser row = mapUser ann
       /\ ~ (UserRow.role row = organizer /\ UserRow.status row = Some pending).
Proof.
  apply (login_sound (supabase no_env) served "ann@uni.lk" "pw" campus campus
           (mapUser ann)).
  reflexivity.
Defined.

Lemma filter_email_after_verdict (email userId : string) (s : ApprovalStatus)
    (rows : list UserRow.t) :
  filter (fun r => String.eqb (UserRow.email r) email)
         (map (fun u => if String.eqb (UserRow.id u) userId
                        then set_user_status s u else u) rows)
  = map (fun u => if String.eqb (UserRow.id u) userId
                  then set_user_status s u else u)
        (filter (fun r => String.eqb (UserRow.email r) email) rows).
Proof.
  induction rows as [|u us IH]; simpl; [reflexivity|].
  assert (E : UserRow.email (if String.eqb (UserRow.id u) userId
                             then set_user_status s u else u) = UserRow.email u)
    by (destruct (String.eqb (UserRow.id u) userId); reflexivity).
  rewrite E. destruct (String.eqb (UserRow.email u) email); simpl; now rewrite IH.
Qed.

(** X8: an organizer whose account is pending is turned away by the login
    form with 'Account pending faculty verification.'; after a served verdict
    on the account, whichever it is, approved or rejected, the same e-mail and
    password are let in: the form holds back the status 'pending' only. *)
Theorem any_verdict_opens_login :
  forall (c : SupabaseClient) (env renv : ReadEnv.t) (v : Verdict)
         (db : Store) (row : UserRow.t) (pw : string),
    filter (fun r => String.eqb (UserRow.email r) (UserRow.email row)) (users db)
    = [row] ->
    UserRow.role row = organizer ->
    UserRow.status row = Some pending ->
    UserRow.password row = Some pw ->
    ReadEnv.fault env = None ->
    ReadEnv.fault renv = None ->
    LoginForm.sub (Some c) renv (UserRow.email row) pw db
    = (LoginForm.setErr "Account pending faculty verification.", db)
    /\ LoginForm.sub (Some c) renv (UserRow.email row) pw
         (snd (DB.updateUserStatus (Some c) env (UserRow.id row) v db))
       = (LoginForm.onLogin (mapUser (set_user_status (Verdict_status v) row)),
          snd (DB.updateUserStatus (Some c) env (UserRow.id row) v db)).
Proof.
  intros c env renv v db row pw Hsel Hrole Hst Hpw Hserved Hread. split.
  - unfold LoginForm.sub, DB.findUserByEmail. rewrite Hread, Hsel. simpl.
    rewrite Hpw, String.eqb_refl, Hrole, Hst. reflexivity.
  - unfold LoginForm.sub, DB.findUserByEmail, DB.updateUserStatus, update_where.
    rewrite Hread, Hserved. simpl.
    rewrite filter_email_after_verdict, Hsel. simpl.
    rewrite String.eqb_refl. simpl.
    rewrite Hpw, String.eqb_refl, Hrole. destruct v; reflexivity.
Qed.

Lemma any_verdict_opens_login_witness :
  LoginForm.sub (supabase no_env) served "dan@uni.lk" "secret" campus_with_dan
  = (LoginForm.setErr "Account pending faculty verification.", campus_with_dan)
  /\ LoginForm.sub (supabase no_env) served "dan@uni.lk" "secret"
       (snd (DB.updateUserStatus (supabase no_env) served "u4" verdict_rejected
               campus_with_dan))
     = (LoginForm.onLogin (mapUser (set_user_status rejected dan)),
        snd (DB.updateUserStatus (supabase no_env) served "u4" verdict_rejected
               campus_with_dan)).
Proof.
  rewrite supabase_configured.
  apply (any_verdict_opens_login _ served served verdict_rejected
           campus_with_dan dan "secret"); reflexivity.
Defined.

(** ** The sign-up form *)

(** The sign-up form sends nothing while the university id or the photo
    is empty: it alerts and the store is untouched, whatever the backend
    would have answered. *)
Lemma signup_requires_id_and_photo :
  forall (client : option SupabaseClient) (env : InsertEnv.t)
         (f : RegisterForm.form) (db : Store),
    RegisterForm.uniId f = "" \/ RegisterForm.profilePhoto f = "" ->
    exists message,
      RegisterForm.sub client env f db = (RegisterForm.alert message, db)
      /\ (message = "University ID is required."
          \/ message = "Profile photo is required for institutional verification.").
Proof.
  intros client env f db H. unfold RegisterForm.sub.
  destruct (truthy (RegisterForm.uniId f)) eqn:Hid; simpl.
  - destruct H as [H|H]; [rewrite H in Hid; discriminate|].
    rewrite H. simpl. eexists. split; [reflexivity | now right].
  - eexists. split; [reflexivity | now left].
Qed.

Lemma signup_requires_id_and_photo_witness :
  exists message,
    RegisterForm.sub (supabase no_env) calm_insert eve_form_no_id campus
    = (RegisterForm.alert message, campus)
    /\ (message = "University ID is required."
        \/ message = "Profile photo is required for institutional verification.").
Proof.
  apply signup_requires_id_and_photo. left. reflexivity.
Defined.

Lemma signup_cases :
  forall (client : option SupabaseClient) (env : InsertEnv.t)
         (f : RegisterForm.form) (db : Store),
    let row :=
      {| UserRow.id := InsertEnv.uuid env;
         UserRow.name := RegisterForm.name f;
         UserRow.email := RegisterForm.email f;
         UserRow.password := Some (RegisterForm.password f);
         UserRow.role := RegisterForm.role f;
         UserRow.uni_id := RegisterForm.uniId f;
         UserRow.profile_photo := Some (RegisterForm.profilePhoto f);
         UserRow.status :=
           Some (if UserRole_eqb (RegisterForm.role f) organizer
                 then pending else approved);
         UserRow.created_at := InsertEnv.server_now env |} in
    (exists message, RegisterForm.sub client env f db = (RegisterForm.alert message, db))
    \/ (RegisterForm.sub client env f db
        = (if UserRole_eqb (RegisterForm.role f) organizer
           then RegisterForm.alert_setView_login
                  "Staff account creation successful. Awaiting Faculty Admin verification."
           else RegisterForm.onLogin (mapUser row),
           with_users (users db ++ [row]) db)
        /\ client <> None
        /\ ~ In (RegisterForm.email f) (map UserRow.email (users db))).
Proof.
  intros client env f db row. unfold RegisterForm.sub.
  destruct (truthy (RegisterForm.uniId f)); simpl;
    [|left; eexists; reflexivity].
  destruct (truthy (RegisterForm.profilePhoto f)); simpl;
    [|left; eexists; reflexivity].
  destruct (createUser_cases client env (RegisterForm.user_of f) db)
    as [[e ->] | (Hout & _ & _ & Hmail & _)].
  - left. eexists; reflexivity.
  - rewrite Hout. right. subst row. simpl.
    split; [destruct (RegisterForm.role f); reflexivity|]. split; [|exact Hmail].
    intros ->. discriminate Hout.
Qed.

(** X9: signing up and logging in fit together.  When the sign-up form ends
    with [onLogin(u)], the login form, served, lets the same e-mail and
    password in as the same [u]; when it ends with the notice for staff, the
    login form turns the same credentials away with 'Account pending faculty
    verification.'. *)
Theorem signup_then_login :
  forall (client : option SupabaseClient) (env : InsertEnv.t) (renv : ReadEnv.t)
         (f : RegisterForm.form) (db db' : Store) (out : RegisterForm.outcome),
    RegisterForm.sub client env f db = (out, db') ->
    ReadEnv.fault renv = None ->
    (forall u, out = RegisterForm.onLogin u ->
       LoginForm.sub client renv (RegisterForm.email f) (RegisterForm.password f) db'
       = (LoginForm.onLogin u, db'))
    /\ (forall message, out = RegisterForm.alert_setView_login message ->
          LoginForm.sub client renv (RegisterForm.email f) (RegisterForm.password f) db'
          = (LoginForm.setErr "Account pending faculty verification.", db')).
Proof.
  intros client env renv f db db' out Hsub Hread.
  destruct (signup_cases client env f db) as [[message H] | (H & Hclient & Hmail)];
    rewrite H in Hsub; injection Hsub as <- <-.
  - split; intros; discriminate.
  - destruct client as [c|]; [|contradiction].
    assert (Hsel : forall row,
              UserRow.email row = RegisterForm.email f ->
              filter (fun r => String.eqb (UserRow.email r) (RegisterForm.email f))
                     (users db ++ [row]) = [row]).
    { intros row Hrow. apply filter_snoc_fresh.
      - intros y Hy. apply String.eqb_neq. intros E. apply Hmail.
        rewrite <- E. now apply in_map.
      - rewrite Hrow. apply String.eqb_refl. }
    unfold LoginForm.sub, DB.findUserByEmail. rewrite Hread. simpl.
    rewrite Hsel by reflexivity. simpl. rewrite String.eqb_refl.
    destruct (RegisterForm.role f); simpl; split; intros x Hx;
      try discriminate; try reflexivity.
    + injection Hx as <-. reflexivity.
    + injection Hx as <-. reflexivity.
Qed.

Lemma signup_then_login_witness :
  (forall u,
     fst (RegisterForm.sub (supabase no_env) calm_insert (eve_form organizer) campus)
     = RegisterForm.onLogin u ->
     LoginForm.sub (supabase no_env) served "eve@uni.lk" "hunter2"
       (snd (RegisterForm.sub (supabase no_env) calm_insert (eve_form organizer) campus))
     = (LoginForm.onLogin u,
        snd (RegisterForm.sub (supabase no_env) calm_insert (eve_form organizer) campus)))
  /\ (forall message,
        fst (RegisterForm.sub (supabase no_env) calm_insert (eve_form organizer) campus)
        = RegisterForm.alert_setView_login message ->
        LoginForm.sub (supabase no_env) served "eve@uni.lk" "hunter2"
          (snd (RegisterForm.sub (supabase no_env) calm_insert (eve_form organizer) campus))
        = (LoginForm.setErr "Account pending faculty verification.",
           snd (RegisterForm.sub (supabase no_env) calm_insert (eve_form organizer) campus))).
Proof.
  apply (signup_then_login (supabase no_env) calm_insert served
           (eve_form organizer) campus); reflexivity.
Defined.

(** Eve signs up as a student and is logged in on the spot; as staff she is
    sent to the login view, where she is held back. *)
Example signup_student_and_staff :
  (exists u db',
      RegisterForm.sub (supabase no_env) calm_insert (eve_form student) campus
      = (RegisterForm.onLogin u, db')
      /\ User.status u = Some approved)
  /\ (exists db',
        RegisterForm.sub (supabase no_env) calm_insert (eve_form organizer) campus
        = (RegisterForm.alert_setView_login
             "Staff account creation successful. Awaiting Faculty Admin verification.",
           db')
        /\ LoginForm.sub (supabase no_env) served "eve@uni.lk" "hunter2" db'
           = (LoginForm.setErr "Account pending faculty verification.", db')).
Proof.
  split.
  - eexists. eexists. split; vm_compute; reflexivity.
  - eexists. split; vm_compute; reflexivity.
Qed.

(** ** Events: [createEvent], [updateEventStatus], [deleteEvent] and what
    students are shown *)

Lemma createEvent_cases :
  forall (client : option SupabaseClient) (env : InsertEnv.t)
         (evt : NewEvent.t) (db : Store),
    let row :=
      {| EventRow.id := InsertEnv.uuid env;
         EventRow.title := NewEvent.title evt;
         EventRow.description := NewEvent.description evt;
         EventRow.organizer_name := NewEvent.organizerName evt;
         EventRow.organizer_email := NewEvent.organizerEmail evt;
         EventRow.organizer_id := NewEvent.organizerId evt;
         EventRow.department := NewEvent.department evt;
         EventRow.venue := NewEvent.venue evt;
         EventRow.date := NewEvent.date evt;
         EventRow.start_time := NewEvent.startTime evt;
         EventRow.end_time := NewEvent.endTime evt;
         EventRow.max_participants := NewEvent.maxParticipants evt;
         EventRow.status := pending;
         EventRow.poster_url := NewEvent.posterUrl evt;
         EventRow.created_at := InsertEnv.server_now env |} in
    (exists e, DB.createEvent client env evt db = (Rejected e, db))
    \/ (DB.createEvent client env evt db
        = (Resolved (mapEvent row), with_events (events db ++ [row]) db)
        /\ ~ In (InsertEnv.uuid env) (map EventRow.id (events db))
        /\ In (NewEvent.organizerId evt) (map UserRow.id (users db))).
Proof.
  intros client env evt db row. unfold DB.createEvent, insert_event.
  destruct client as [c|]; [|left; eexists; reflexivity].
  fold row.
  destruct (InsertEnv.fault env) as [e|]; [left; eexists; reflexivity|].
  cbn [EventRow.id EventRow.organizer_id row].
  destruct (mem (InsertEnv.uuid env) (map EventRow.id (events db))) eqn:Hid;
    [left; eexists; reflexivity|].
  destruct (mem (NewEvent.organizerId evt) (map UserRow.id (users db))) eqn:Ho;
    simpl; [|left; eexists; reflexivity].
  right. split; [reflexivity|]. split; [now apply mem_not_In | now apply mem_In].
Qed.

(** X10: an event that [createEvent] has created is 'pending', in the Event
    handed back and in the one row appended for it, and its organizer is a
    stored user; users, registrations and participants are not touched.  For
    an organizer id that is not stored the promise is rejected. *)
Theorem createEvent_is_pending :
  forall (client : option SupabaseClient) (env : InsertEnv.t)
         (evt : NewEvent.t) (db db' : Store) (e : Event.t),
    DB.createEvent client env evt db = (Resolved e, db') ->
    Event.status e = pending
    /\ In (NewEvent.organizerId evt) (map UserRow.id (users db))
    /\ (exists row,
          events db' = (events db ++ [row])%list
          /\ mapEvent row = e
          /\ EventRow.status row = pending
          /\ EventRow.organizer_id row = NewEvent.organizerId evt)
    /\ users db' = users db
    /\ registrations db' = registrations db
    /\ participants db' = participants db.
Proof.
  intros client env evt db db' e H.
  destruct (createEvent_cases client env evt db) as [[err He] | (Hout & _ & Horg)].
  - rewrite He in H. discriminate.
  - rewrite Hout in H. injection H as <- <-.
    split; [reflexivity|]. split; [exact Horg|].
    split; [eexists; repeat split|repeat split].
Qed.

Lemma createEvent_is_pending_witness :
  exists (e : Event.t) (db' : Store),
    DB.createEvent (supabase no_env) calm_event_insert seminar campus
    = (Resolved e, db')
    /\ Event.status e = pending
    /\ In "u2" (map UserRow.id (users campus)).
Proof.
  eexists. eexists. split; [vm_compute; reflexivity|].
  refine (let H := createEvent_is_pending (supabase no_env) calm_event_insert
                     seminar campus _ _ _ in
          conj (proj1 H) (proj1 (proj2 H))).
  vm_compute. reflexivity.
Defined.

(** X11: [deleteEvent] resolves in every case.  When it is not served (or
    the client is missing) the store is the same and the caller is not told;
    when it is served, no event, registration or participant row of that
    event id is left, the events and registrations of other events are kept
    as they were, in their order, every participant row that remains was
    there before, and no user is touched. *)
Theorem deleteEvent_cascades :
  forall (client : option SupabaseClient) (env : ReadEnv.t)
         (eventId : string) (db : Store),
    exists db',
      DB.deleteEvent client env eventId db = (Resolved tt, db')
      /\ (client = None \/ ReadEnv.fault env <> None -> db' = db)
      /\ (client <> None -> ReadEnv.fault env = None ->
          (forall e, In e (events db') -> EventRow.id e <> eventId)
          /\ (forall r, In r (registrations db') ->
                        RegistrationRow.event_id r <> eventId)
          /\ (forall p, In p (participants db') ->
                        ParticipantRow.event_id p <> eventId
                        /\ In p (participants db))
          /\ events db'
             = filter (fun e => negb (String.eqb (EventRow.id e) eventId)) (events db)
          /\ registrations db'
             = filter (fun r => negb (String.eqb (RegistrationRow.event_id r) eventId))
                      (registrations db)
          /\ users db' = users db).
Proof.
  intros client env eventId db. unfold DB.deleteEvent, delete_event.
  destruct client as [c|].
  - destruct (ReadEnv.fault env) as [e|]; simpl.
    + exists db. split; [reflexivity|]. split; [reflexivity|]. intros _ H. discriminate.
    + eexists. split; [reflexivity|]. split.
      * intros [H|H]; [discriminate | now elim H].
      * intros _ _. simpl. split; [|split; [|split; [|repeat split]]].
        -- intros e He. apply filter_In in He as [_ He].
           now apply negb_true_iff, String.eqb_neq in He.
        -- intros r Hr. apply filter_In in Hr as [_ Hr].
           now apply negb_true_iff, String.eqb_neq in Hr.
        -- intros p Hp. apply filter_In in Hp as [Hin Hp].
           apply andb_true_iff in Hp as [Hp _].
           apply negb_true_iff, String.eqb_neq in Hp. auto.
  - exists db. split; [reflexivity|]. split; [reflexivity|]. intros H. now elim H.
Qed.

(** Deleting the workshop takes Ann's used pass and her attendance row with
    it. *)
Example deleteEvent_workshop :
  DB.deleteEvent (supabase no_env) served "e1" campus_admitted
  = (Resolved tt,
     {| users := [ann; bob]; events := []; registrations := [];
        participants := [] |}).
Proof. reflexivity. Qed.

(** X12: a pass does not outlive its event.  When every stored Registration
    that carries a payload belongs to an event, once that event has been
    deleted by a served [deleteEvent] a scan of the payload is answered
    'Invalid registration code.' and changes nothing. *)
Theorem deleteEvent_invalidates_passes :
  forall (c : SupabaseClient) (env : ReadEnv.t) (senv : CheckInEnv.t)
         (eventId qrPayload : string) (db : Store),
    (forall r, In r (registrations db) ->
               RegistrationRow.qr_payload r = qrPayload ->
               RegistrationRow.event_id r = eventId) ->
    ReadEnv.fault env = None ->
    DB.checkInUser (Some c) senv qrPayload
      (snd (DB.deleteEvent (Some c) env eventId db))
    = (Resolved {| success := false;
                   message := Some "Invalid registration code.";
                   registration := None |},
       snd (DB.deleteEvent (Some c) env eventId db)).
Proof.
  intros c env senv eventId qrPayload db Hpass Hserved.
  unfold DB.deleteEvent, delete_event. rewrite Hserved. simpl.
  unfold DB.checkInUser, fetch_by_payload. simpl.
  assert (Hsel :
    filter (fun r => String.eqb (RegistrationRow.qr_payload r) qrPayload)
           (filter (fun r => negb (String.eqb (RegistrationRow.event_id r) eventId))
                   (registrations db)) = []).
  { apply filter_nil_iff. intros r Hr. apply filter_In in Hr as [Hin Hne].
    apply negb_true_iff, String.eqb_neq in Hne.
    apply String.eqb_neq. intros E. apply Hne. now apply Hpass. }
  rewrite Hsel. unfold maybeSingle.
  destruct (CheckInEnv.fetchFault senv); reflexivity.
Qed.

Lemma deleteEvent_invalidates_passes_witness :
  DB.checkInUser (supabase no_env) calm_scan "e1:u1"
    (snd (DB.deleteEvent (supabase no_env) served "e1" campus))
  = (Resolved {| success := false;
                 message := Some "Invalid registration code.";
                 registration := None |},
     snd (DB.deleteEvent (supabase no_env) served "e1" campus)).
Proof.
  rewrite supabase_configured.
  apply (deleteEvent_invalidates_passes _ served calm_scan "e1" "e1:u1" campus).
  - intros r [<-|[]] _. reflexivity.
  - reflexivity.
Defined.

(** What [StudentDashboard.refresh] puts in the state when both reads are
    served and [ORDER BY] returns the rows it was given. *)
Lemma student_refresh_spec :
  forall (c : SupabaseClient)
         (order : forall T : Type, (T -> string) -> bool -> list T -> list T)
         (eenv renv : ReadEnv.t) (user : User.t) (db : Store),
    order_permutes order ->
    ReadEnv.fault eenv = None ->
    ReadEnv.fault renv = None ->
    exists evs,
      StudentDashboard.refresh (Some c) order eenv renv user db
      = Resolved (evs,
                  map mapReg
                    (filter (fun r => String.eqb (RegistrationRow.user_id r)
                                                 (User._id user))
                            (registrations db)))
      /\ forall e, In e evs <->
                   exists row, In row (events db)
                               /\ mapEvent row = e
                               /\ EventRow.status row = approved.
Proof.
  intros c order eenv renv user db Hperm He Hr.
  unfold StudentDashboard.refresh, DB.getEvents, DB.getRegistrationsByUser, select_all.
  rewrite He, Hr. simpl. eexists. split; [reflexivity|].
  intros e. rewrite filter_In, in_map_iff. split.
  - intros [(row & <- & Hin) Hst]. exists row.
    split; [exact (Permutation_in _ (Hperm _ _ _ _) Hin)|].
    split; [reflexivity|]. simpl in Hst.
    destruct (EventRow.status row); try discriminate. reflexivity.
  - intros (row & Hin & <- & Hst). split.
    + exists row. split; [reflexivity|].
      exact (Permutation_in _ (Permutation_sym (Hperm _ _ _ _)) Hin).
    + simpl. rewrite Hst. reflexivity.
Qed.

Lemma as_stored_permutes : order_permutes as_stored.
Proof. intros T key ascending rows. apply Permutation_refl. Qed.

(** X13: students are offered the approved events and no others.  When both
    reads of [StudentDashboard.refresh] are served and [ORDER BY] returns the
    rows it was given, an event is in the list shown exactly when it is a
    stored event whose status is 'approved'; the passes shown are the stored
    registrations of the user, all of them. *)
Theorem students_see_approved_events :
  forall (c : SupabaseClient)
         (order : forall T : Type, (T -> string) -> bool -> list T -> list T)
         (eenv renv : ReadEnv.t) (user : User.t) (db : Store),
    order_permutes order ->
    ReadEnv.fault eenv = None ->
    ReadEnv.fault renv = None ->
    exists evs,
      StudentDashboard.refresh (Some c) order eenv renv user db
      = Resolved (evs,
                  map mapReg
                    (filter (fun r => String.eqb (RegistrationRow.user_id r)
                                                 (User._id user))
                            (registrations db)))
      /\ forall e, In e evs <->
                   exists row, In row (events db)
                               /\ mapEvent row = e
                               /\ EventRow.status row = approved.
Proof.
  intros c order eenv renv user db Hperm He Hr.
  unfold StudentDashboard.refresh, DB.getEvents, DB.getRegistrationsByUser, select_all.
  rewrite He, Hr. simpl. eexists. split; [reflexivity|].
  intros e. rewrite filter_In, in_map_iff. split.
  - intros [(row & <- & Hin) Hst]. exists row.
    split; [exact (Permutation_in _ (Hperm _ _ _ _) Hin)|].
    split; [reflexivity|]. simpl in Hst.
    destruct (EventRow.status row); try discriminate. reflexivity.
  - intros (row & Hin & <- & Hst). split.
    + exists row. split; [reflexivity|].
      exact (Permutation_in _ (Permutation_sym (Hperm _ _ _ _)) Hin).
    + simpl. rewrite Hst. reflexivity.
Qed.

Lemma students_see_approved_events_witness :
  exists evs,
    StudentDashboard.refresh (supabase no_env) as_stored served served
      (mapUser ann) campus
    = Resolved (evs,
                map mapReg
                  (filter (fun r => String.eqb (RegistrationRow.user_id r) "u1")
                          (registrations campus)))
    /\ forall e, In e evs <->
                 exists row, In row (events campus)
                             /\ mapEvent row = e
                             /\ EventRow.status row = approved.
Proof.
  rewrite supabase_configured.
  apply (students_see_approved_events _ as_stored served served (mapUser ann) campus
           as_stored_permutes); reflexivity.
Defined.

Lemma update_events_In (eventId : string) (s : ApprovalStatus)
    (rows : list EventRow.t) (r' : EventRow.t) :
  In r' (map (fun e => if String.eqb (EventRow.id e) eventId
                       then set_event_status s e else e) rows)
  <-> exists r, In r rows
                /\ r' = (if String.eqb (EventRow.id r) eventId
                         then set_event_status s r else r).
Proof.
  rewrite in_map_iff. split; intros (r & H1 & H2); exists r; auto.
Qed.

Lemma event_shown_core :
  forall (c : SupabaseClient)
         (order : forall T : Type, (T -> string) -> bool -> list T -> list T)
         (uenv eenv renv : ReadEnv.t) (v : Verdict)
         (user : User.t) (db : Store) (row : EventRow.t),
    order_permutes order ->
    ~ In (EventRow.id row) (map EventRow.id (events db)) ->
    EventRow.status row = pending ->
    ReadEnv.fault uenv = None ->
    ReadEnv.fault eenv = None ->
    ReadEnv.fault renv = None ->
    let db1 := with_events (events db ++ [row]) db in
    (exists evs regs,
        StudentDashboard.refresh (Some c) order eenv renv user db1
        = Resolved (evs, regs)
        /\ forall e', In e' evs -> Event._id e' <> EventRow.id row)
    /\ (exists evs regs,
          StudentDashboard.refresh (Some c) order eenv renv user
            (snd (DB.updateEventStatus (Some c) uenv (EventRow.id row) v db1))
          = Resolved (evs, regs)
          /\ ((exists e', In e' evs /\ Event._id e' = EventRow.id row)
              <-> v = verdict_approved)).
Proof.
  intros c order uenv eenv renv v user db row Hperm Hfresh Hpending Hu He Hr db1.
  split.
  - destruct (student_refresh_spec c order eenv renv user db1 Hperm He Hr)
      as (evs & Hrun & Hspec).
    exists evs. eexists. split; [exact Hrun|].
    intros e' He' Hid. apply Hspec in He' as (r & Hin & <- & Hst).
    simpl in Hin, Hid. apply in_app_or in Hin as [Hin|[<-|[]]].
    + apply Hfresh. rewrite <- Hid. now apply in_map.
    + congruence.
  - destruct (student_refresh_spec c order eenv renv user
                (snd (DB.updateEventStatus (Some c) uenv (EventRow.id row) v db1))
                Hperm He Hr) as (evs & Hrun & Hspec).
    exists evs. eexists. split; [exact Hrun|].
    unfold DB.updateEventStatus, update_where in Hspec. rewrite Hu in Hspec.
    simpl in Hspec. split.
    + intros (e' & He' & Hid). apply Hspec in He' as (r' & Hin & <- & Hst).
      simpl in Hid. apply update_events_In in Hin as (r & Hin & ->).
      assert (Hrid : EventRow.id r = EventRow.id row).
      { rewrite <- Hid. destruct (String.eqb (EventRow.id r) (EventRow.id row));
          reflexivity. }
      rewrite Hrid, String.eqb_refl in Hst. simpl in Hst.
      destruct v; [reflexivity | discriminate].
    + intros ->. exists (mapEvent (set_event_status approved row)). split.
      * apply Hspec. exists (set_event_status approved row).
        split; [|split; reflexivity].
        apply update_events_In. exists row. split.
        -- apply in_or_app. right. left. reflexivity.
        -- rewrite String.eqb_refl. reflexivity.
      * reflexivity.
Qed.

(** X14: a new event is hidden from students until it is approved.  Right
    after [createEvent] has created it, no event of its id is in the list
    students are shown; after a served [updateEventStatus] on its id, an event
    of that id is shown exactly when the verdict was 'approved'. *)
Theorem event_shown_once_approved :
  forall (c : SupabaseClient)
         (order : forall T : Type, (T -> string) -> bool -> list T -> list T)
         (env : InsertEnv.t) (uenv eenv renv : ReadEnv.t) (v : Verdict)
         (user : User.t) (evt : NewEvent.t) (db db1 : Store) (e : Event.t),
    order_permutes order ->
    DB.createEvent (Some c) env evt db = (Resolved e, db1) ->
    ReadEnv.fault uenv = None ->
    ReadEnv.fault eenv = None ->
    ReadEnv.fault renv = None ->
    (exists evs regs,
        StudentDashboard.refresh (Some c) order eenv renv user db1
        = Resolved (evs, regs)
        /\ forall e', In e' evs -> Event._id e' <> Event._id e)
    /\ (exists evs regs,
          StudentDashboard.refresh (Some c) order eenv renv user
            (snd (DB.updateEventStatus (Some c) uenv (Event._id e) v db1))
          = Resolved (evs, regs)
          /\ ((exists e', In e' evs /\ Event._id e' = Event._id e)
              <-> v = verdict_approved)).
Proof.
  intros c order env uenv eenv renv v user evt db db1 e Hperm Hcreate Hu He Hr.
  destruct (createEvent_cases (Some c) env evt db) as [[err H] | (Hout & Hfresh & _)].
  - rewrite H in Hcreate. discriminate.
  - rewrite Hout in Hcreate. injection Hcreate as <- <-.
    eapply (event_shown_core c order uenv eenv renv v user db);
      [exact Hperm | exact Hfresh | reflexivity | exact Hu | exact He | exact Hr].
Qed.

Lemma event_shown_once_approved_witness :
  (exists evs regs,
      StudentDashboard.refresh (supabase no_env) as_stored served served
        (mapUser ann)
        (snd (DB.createEvent (supabase no_env) calm_event_insert seminar campus))
      = Resolved (evs, regs)
      /\ forall e', In e' evs -> Event._id e' <> "e2")
  /\ (exists evs regs,
        StudentDashboard.refresh (supabase no_env) as_stored served served
          (mapUser ann)
          (snd (DB.updateEventStatus (supabase no_env) served "e2" verdict_approved
                  (snd (DB.createEvent (supabase no_env) calm_event_insert
                          seminar campus))))
        = Resolved (evs, regs)
        /\ ((exists e', In e' evs /\ Event._id e' = "e2")
            <-> verdict_approved = verdict_approved)).
Proof.
  rewrite supabase_configured.
  refine (event_shown_once_approved _ as_stored calm_event_insert served served
            served verdict_approved (mapUser ann) seminar campus _
            (mapEvent seminar_row) as_stored_permutes _ _ _ _); reflexivity.
Defined.

(** ** Passes and their payloads *)

(** X15: when two or more stored Registrations carry the scanned payload,
    [checkInUser] answers 'Invalid registration code.' and changes nothing:
    none of them can be checked in by scanning. *)
Theorem checkInUser_ambiguous_payload :
  forall (client : option SupabaseClient) (env : CheckInEnv.t)
         (qrPayload : string) (db : Store)
         (first second : RegistrationRow.t) (others : list RegistrationRow.t),
    client <> None ->
    filter (fun r => String.eqb (RegistrationRow.qr_payload r) qrPayload)
           (registrations db) = first :: second :: others ->
    DB.checkInUser client env qrPayload db
    = (Resolved {| success := false;
                   message := Some "Invalid registration code.";
                   registration := None |}, db).
Proof.
  intros client env qrPayload db first second others Hclient Hsel.
  destruct client as [c|]; [|contradiction].
  unfold DB.checkInUser, fetch_by_payload. rewrite Hsel. unfold maybeSingle.
  destruct (CheckInEnv.fetchFault env); reflexivity.
Qed.

Lemma checkInUser_ambiguous_payload_witness :
  DB.checkInUser (supabase no_env) calm_scan "e1:u1" campus_twice
  = (Resolved {| success := false;
                 message := Some "Invalid registration code.";
                 registration := None |}, campus_twice).
Proof.
  apply (checkInUser_ambiguous_payload (supabase no_env) calm_scan "e1:u1"
           campus_twice pass second_pass []).
  - rewrite supabase_configured. discriminate.
  - reflexivity.
Defined.

Lemma mark_checked_in_In_inv (now id : string) (rows : list RegistrationRow.t)
    (r' : RegistrationRow.t) :
  In r' (mark_checked_in now id rows) ->
  exists r, In r rows
            /\ RegistrationRow.qr_payload r' = RegistrationRow.qr_payload r
            /\ RegistrationRow.event_id r' = RegistrationRow.event_id r
            /\ RegistrationRow.user_id r' = RegistrationRow.user_id r
            /\ RegistrationRow.id r' = RegistrationRow.id r.
Proof.
  rewrite mark_checked_in_eq. intros H.
  apply in_map_iff in H as (r & <- & Hin). exists r. split; [assumption|].
  destruct (String.eqb (RegistrationRow.id r) id); repeat split.
Qed.

Lemma run_keeps_payloads :
  forall (client : option SupabaseClient)
         (order : forall T : Type, (T -> string) -> bool -> list T -> list T)
         (c : Call) (db : Store),
    payloads_wellformed db -> payloads_wellformed (run client order c db).
Proof.
  intros client order c db Hinv.
  destruct (drawn_registration_id c) as [id|] eqn:Hdrawn.
  - destruct c; try discriminate. simpl.
    destruct (registerForEvent_cases client env userId userName eventId eventTitle db)
      as [[-> _] | [-> _]]; [assumption|].
    intros r Hr. simpl in Hr. apply in_app_or in Hr as [Hr|[<-|[]]].
    + now apply Hinv.
    + reflexivity.
  - pose proof (run_registrations_step client order c db) as Hstep.
    rewrite Hdrawn in Hstep. unfold payloads_wellformed in *.
    destruct Hstep as [|row Hnone _ _|eventId|now reg _ _].
    + assumption.
    + discriminate.
    + intros r Hr. apply filter_In in Hr as [Hr _]. now apply Hinv.
    + intros r Hr. apply mark_checked_in_In_inv in Hr as (r0 & Hin & -> & -> & -> & _).
      now apply Hinv.
Qed.

(** X16: every pass the facade ever stores carries the payload
    [event_id:user_id] of its own row.  The property is kept by every call,
    so it holds after any sequence of calls on a store where it holds, and
    in particular in every store reached from the empty one. *)
Theorem payloads_stay_wellformed :
  forall (client : option SupabaseClient)
         (order : forall T : Type, (T -> string) -> bool -> list T -> list T)
         (cs : list Call) (db : Store),
    payloads_wellformed db ->
    payloads_wellformed (run_all client order cs db).
Proof.
  intros client order cs. induction cs as [|c cs IH]; intros db Hinv.
  - exact Hinv.
  - simpl. apply IH. now apply run_keeps_payloads.
Qed.

Lemma payloads_stay_wellformed_witness :
  payloads_wellformed
    (run_all (supabase no_env) as_stored
       [call_registerForEvent calm_register "u2" "Bob" "e1" "Rocq workshop";
        call_checkInUser calm_scan "e1:u2";
        call_checkInUser calm_scan "e1:u1"]
       campus).
Proof.
  apply payloads_stay_wellformed.
  intros r [<-|[]]. reflexivity.
Defined.

Lemma payload_injective (e e' u u' : string) :
  no_colon e = true -> no_colon e' = true ->
  e ++ ":" ++ u = e' ++ ":" ++ u' -> e = e' /\ u = u'.
Proof.
  revert e'. induction e as [|a e IH]; intros [|a' e']; simpl; intros He He' H.
  - injection H as ->. auto.
  - injection H as <- _. discriminate.
  - injection H as -> _. discriminate.
  - injection H as -> H.
    apply andb_true_iff in He as [_ He]. apply andb_true_iff in He' as [_ He'].
    destruct (IH e' He He' H) as [-> ->]. auto.
Qed.

(** X17: the payload identifies the pass as long as event ids hold no colon
    (as uuids do).  Two Registrations handed back by [registerForEvent], in
    whatever stores, that carry the same payload were issued for the same
    event and the same user. *)
Theorem registerForEvent_payload_identifies :
  forall (client client' : option SupabaseClient) (env env' : RegisterEnv.t)
         (userId userName eventId eventTitle : string)
         (userId' userName' eventId' eventTitle' : string)
         (db db1 db' db1' : Store) (reg reg' : Registration.t),
    DB.registerForEvent client env userId userName eventId eventTitle db
    = (Resolved (Some reg), db1) ->
    DB.registerForEvent client' env' userId' userName' eventId' eventTitle' db'
    = (Resolved (Some reg'), db1') ->
    no_colon eventId = true ->
    no_colon eventId' = true ->
    Registration.qrPayload reg = Registration.qrPayload reg' ->
    eventId = eventId' /\ userId = userId'.
Proof.
  intros client client' env env' userId userName eventId eventTitle
         userId' userName' eventId' eventTitle' db db1 db' db1' reg reg'
         H H' He He' Hpay.
  destruct (registerForEvent_cases client env userId userName eventId eventTitle db)
    as [[_ Hno] | [Hout _]]; [now elim (Hno reg); rewrite H|].
  destruct (registerForEvent_cases client' env' userId' userName' eventId' eventTitle' db')
    as [[_ Hno] | [Hout' _]]; [now elim (Hno reg'); rewrite H'|].
  rewrite H in Hout. rewrite H' in Hout'.
  injection Hout as -> _. injection Hout' as -> _. simpl in Hpay.
  now apply payload_injective.
Qed.

Lemma registerForEvent_payload_identifies_witness :
  "e1" = "e1" /\ "u2" = "u2".
Proof.
  refine (registerForEvent_payload_identifies (supabase no_env) (supabase no_env)
            calm_register calm_register "u2" "Bob" "e1" "Rocq workshop"
            "u2" "Bob" "e1" "Rocq workshop" campus _ campus_open _
            (mapReg {| RegistrationRow.id := "r2"; RegistrationRow.user_id := "u2";
                       RegistrationRow.user_name := "Bob";
                       RegistrationRow.event_id := "e1";
                       RegistrationRow.event_title := "Rocq workshop";
                       RegistrationRow.timestamp := "2024-01-04T08:00:00Z";
                       RegistrationRow.status := registered;
                       RegistrationRow.qr_payload := "e1:u2";
                       RegistrationRow.check_in_time := None |})
            _ _ _ _ _ _); reflexivity.
Defined.

(** With a colon inside an id the payload is ambiguous: event 'a:b' with user
    'c' and event 'a' with user 'b:c' are written the same. *)
Example payload_with_colon_is_ambiguous :
  "a:b" ++ ":" ++ "c" = "a" ++ ":" ++ "b:c" /\ no_colon "a:b" = false.
Proof. split; reflexivity. Qed.

Lemma filter_unique_in {T K : Type} (key : T -> K) (p : T -> bool)
    (l : list T) (x : T) :
  NoDup (map key l) -> In x l -> p x = true ->
  (forall y, In y l -> p y = true -> key y = key x) ->
  filter p l = [x].
Proof.
  intros Hnd Hin Hpx Hkey. induction l as [|a l IH]; simpl; [contradiction|].
  inversion Hnd as [|k ks Hnot Hnd']; subst.
  destruct Hin as [->|Hin].
  - rewrite Hpx. f_equal. apply filter_nil_iff. intros y Hy.
    destruct (p y) eqn:Hpy; [|reflexivity].
    exfalso. apply Hnot. rewrite <- (Hkey y (or_intror Hy) Hpy). now apply in_map.
  - destruct (p a) eqn:Hpa.
    + exfalso. apply Hnot. rewrite (Hkey a (or_introl eq_refl) Hpa). now apply in_map.
    + apply IH; auto. intros y Hy. apply Hkey. now right.
Qed.

(** Under the two invariants, and with colon-free event ids, a stored pass is
    the only row that carries its payload. *)
Lemma stored_payload_unique (db : Store) (reg : RegistrationRow.t) :
  payloads_wellformed db ->
  one_registration_per_pair db ->
  (forall r, In r (registrations db) -> no_colon (RegistrationRow.event_id r) = true) ->
  In reg (registrations db) ->
  filter (fun r => String.eqb (RegistrationRow.qr_payload r)
                              (RegistrationRow.qr_payload reg))
         (registrations db) = [reg].
Proof.
  intros Hpay Hpairs Hcolon Hin.
  apply (filter_unique_in
           (fun r => (RegistrationRow.user_id r, RegistrationRow.event_id r))
           _ (registrations db) reg Hpairs Hin).
  - apply String.eqb_refl.
  - intros y Hy Hsame. apply String.eqb_eq in Hsame.
    rewrite (Hpay y Hy), (Hpay reg Hin) in Hsame.
    destruct (payload_injective _ _ _ _ (Hcolon y Hy) (Hcolon reg Hin) Hsame)
      as [-> ->].
    reflexivity.
Qed.

(** X18: in a store where each pass carries the payload of its row, no user
    holds two passes for one event and event ids hold no colon, every stored
    pass that is 'registered' can be scanned: when the lookup, the update and
    the re-read are served, [checkInUser] on its payload resolves to
    [success = true] with that pass, now 'checked-in' at the time of the
    scan, whatever becomes of the audit insert. *)
Theorem stored_pass_checks_in :
  forall (c : SupabaseClient) (env : CheckInEnv.t) (db : Store)
         (reg : RegistrationRow.t),
    registrations_pkey db ->
    payloads_wellformed db ->
    one_registration_per_pair db ->
    (forall r, In r (registrations db) ->
               no_colon (RegistrationRow.event_id r) = true) ->
    In reg (registrations db) ->
    RegistrationRow.status reg = registered ->
    CheckInEnv.fetchFault env = None ->
    CheckInEnv.updateFault env = None ->
    CheckInEnv.finalFault env = None ->
    exists db',
      DB.checkInUser (Some c) env (RegistrationRow.qr_payload reg) db
      = (Resolved {| success := true;
                     message := None;
                     registration :=
                       Some (mapReg (set_checked_in (CheckInEnv.now env) reg)) |},
         db')
      /\ In (set_checked_in (CheckInEnv.now env) reg) (registrations db').
Proof.
  intros c env db reg Hpk Hpay Hpairs Hcolon Hin Hst Hf Hu Hfin.
  assert (Hfetch : data (fetch_by_payload env (RegistrationRow.qr_payload reg) db)
                   = Some reg).
  { unfold fetch_by_payload. apply maybeSingle_data. split; [assumption|].
    now apply stored_payload_unique. }
  exists (after_check_in env reg db).
  rewrite (checkInUser_update_served c env _ db reg Hpk Hfetch Hst Hu), Hfin.
  split; [reflexivity|].
  destruct (after_check_in_frame env reg db) as (_ & _ & ->).
  now apply mark_checked_in_In.
Qed.

Lemma stored_pass_checks_in_witness :
  exists db',
    DB.checkInUser (supabase no_env) audit_down "e1:u1" campus
    = (Resolved {| success := true;
                   message := None;
                   registration := Some (mapReg pass_used) |}, db')
    /\ In pass_used (registrations db').
Proof.
  rewrite supabase_configured.
  apply (stored_pass_checks_in _ audit_down campus pass
           (registrations_pkey_ok campus campus_schema)); try reflexivity.
  - intros r [<-|[]]. reflexivity.
  - unfold one_registration_per_pair. simpl. constructor; [intros [] | constructor].
  - intros r [<-|[]]. reflexivity.
  - now left.
Defined.

(** X19: registering twice in a row gives one pass.  When the pair had no
    Registration and the first call created one, a second call for the same
    user and event whose existence lookup is served resolves to [null] and
    leaves the store as the first call left it. *)
Theorem registerForEvent_twice :
  forall (client : option SupabaseClient) (env env2 : RegisterEnv.t)
         (userId userName userName2 eventId eventTitle eventTitle2 : string)
         (db db1 : Store) (reg : Registration.t),
    (forall r, In r (registrations db) ->
               ~ (RegistrationRow.user_id r = userId
                  /\ RegistrationRow.event_id r = eventId)) ->
    DB.registerForEvent client env userId userName eventId eventTitle db
    = (Resolved (Some reg), db1) ->
    RegisterEnv.lookupFault env2 = None ->
    DB.registerForEvent client env2 userId userName2 eventId eventTitle2 db1
    = (Resolved None, db1).
Proof.
  intros client env env2 userId userName userName2 eventId eventTitle eventTitle2
         db db1 reg Hnew Hfirst Hserved.
  destruct (registerForEvent_cases client env userId userName eventId eventTitle db)
    as [[_ Hno] | [Hout _]]; [now elim (Hno reg); rewrite Hfirst|].
  rewrite Hfirst in Hout. injection Hout as _ ->.
  destruct client as [c|]; [|discriminate].
  unfold DB.registerForEvent. rewrite Hserved. simpl.
  rewrite filter_snoc_fresh.
  - reflexivity.
  - intros y Hy. destruct (_ && _) eqn:E; [|reflexivity].
    apply pair_selected in E. now elim (Hnew y Hy).
  - simpl. now rewrite !String.eqb_refl.
Qed.

Lemma registerForEvent_twice_witness :
  DB.registerForEvent (supabase no_env) calm_register "u1" "Ann" "e1" "Rocq workshop"
    (snd (DB.registerForEvent (supabase no_env) lookup_down
            "u1" "Ann" "e1" "Rocq workshop" campus_open))
  = (Resolved None,
     snd (DB.registerForEvent (supabase no_env) lookup_down
            "u1" "Ann" "e1" "Rocq workshop" campus_open)).
Proof.
  refine (registerForEvent_twice (supabase no_env) lookup_down calm_register
            "u1" "Ann" "Ann" "e1" "Rocq workshop" "Rocq workshop"
            campus_open _ _ _ _ _).
  - intros r [].
  - vm_compute. reflexivity.
  - reflexivity.
Defined.

(** X20: a new pass shows up in the student's list and blocks a second
    click.  After [registerForEvent] has created a Registration, a served
    [getRegistrationsByUser] for that user lists it, lists passes of that user
    only, and with that list in its state the event card answers a click on
    the same event with the alert, sending nothing. *)
Theorem registerForEvent_then_listed :
  forall (client : option SupabaseClient) (env env2 : RegisterEnv.t)
         (renv : ReadEnv.t) (user : User.t) (e : Event.t)
         (db db1 : Store) (reg : Registration.t),
    DB.registerForEvent client env (User._id user) (User.name user)
      (Event._id e) (Event.title e) db = (Resolved (Some reg), db1) ->
    ReadEnv.fault renv = None ->
    exists regs,
      DB.getRegistrationsByUser client renv (User._id user) db1 = (Resolved regs, db1)
      /\ In reg regs
      /\ (forall r, In r regs -> Registration.userId r = User._id user)
      /\ StudentDashboard.onClick client env2 regs user e db1
         = (StudentDashboard.alert "You already hold a pass for this workshop.", db1).
Proof.
  intros client env env2 renv user e db db1 reg Hreg Hread.
  destruct (registerForEvent_cases client env (User._id user) (User.name user)
              (Event._id e) (Event.title e) db)
    as [[_ Hno] | [Hout _]]; [now elim (Hno reg); rewrite Hreg|].
  rewrite Hreg in Hout. injection Hout as -> ->.
  destruct client as [c|]; [|discriminate].
  match goal with |- context [with_registrations (registrations db ++ [?r]) db] =>
    set (row := r) in * end.
  unfold DB.getRegistrationsByUser, select_all. rewrite Hread. simpl.
  eexists. split; [reflexivity|].
  assert (Hin : In (mapReg row)
                   (map mapReg
                      (filter (fun r => String.eqb (RegistrationRow.user_id r)
                                                   (User._id user))
                              (registrations db ++ [row])))).
  { apply in_map. apply filter_In. split.
    - apply in_or_app. right. left. reflexivity.
    - apply String.eqb_refl. }
  split; [exact Hin|]. split.
  - intros r Hr. apply in_map_iff in Hr as (row' & <- & Hrow).
    apply filter_In in Hrow as [_ E]. now apply String.eqb_eq in E.
  - unfold StudentDashboard.onClick.
    match goal with |- context [existsb ?p ?l] =>
      assert (Hex : existsb p l = true) end.
    { apply existsb_exists. exists (mapReg row). split; [exact Hin|].
      apply String.eqb_refl. }
    rewrite Hex. reflexivity.
Qed.

Lemma registerForEvent_then_listed_witness :
  exists regs,
    DB.getRegistrationsByUser (supabase no_env) served "u2"
      (snd (DB.registerForEvent (supabase no_env) calm_register
              "u2" "Bob" "e1" "Rocq workshop" campus))
    = (Resolved regs,
       snd (DB.registerForEvent (supabase no_env) calm_register
              "u2" "Bob" "e1" "Rocq workshop" campus))
    /\ In (mapReg
             {| RegistrationRow.id := "r2"; RegistrationRow.user_id := "u2";
                RegistrationRow.user_name := "Bob"; RegistrationRow.event_id := "e1";
                RegistrationRow.event_title := "Rocq workshop";
                RegistrationRow.timestamp := "2024-01-04T08:00:00Z";
                RegistrationRow.status := registered;
                RegistrationRow.qr_payload := "e1:u2";
                RegistrationRow.check_in_time := None |}) regs
    /\ (forall r, In r regs -> Registration.userId r = "u2")
    /\ StudentDashboard.onClick (supabase no_env) calm_register regs
         (mapUser bob) (mapEvent workshop)
         (snd (DB.registerForEvent (supabase no_env) calm_register
                 "u2" "Bob" "e1" "Rocq workshop" campus))
       = (StudentDashboard.alert "You already hold a pass for this workshop.",
          snd (DB.registerForEvent (supabase no_env) calm_register
                 "u2" "Bob" "e1" "Rocq workshop" campus)).
Proof.
  apply (registerForEvent_then_listed (supabase no_env) calm_register calm_register
           served (mapUser bob) (mapEvent workshop) campus); reflexivity.
Defined.

Lemma filter_payload_mark_checked_in (now id qrPayload : string)
    (rows : list RegistrationRow.t) :
  filter (fun r => String.eqb (RegistrationRow.qr_payload r) qrPayload)
         (mark_checked_in now id rows)
  = mark_checked_in now id
      (filter (fun r => String.eqb (RegistrationRow.qr_payload r) qrPayload) rows).
Proof.
  rewrite !mark_checked_in_eq.
  induction rows as [|a rows IH]; simpl; [reflexivity|].
  assert (E : RegistrationRow.qr_payload
                (if String.eqb (RegistrationRow.id a) id
                 then set_checked_in now a else a)
              = RegistrationRow.qr_payload a)
    by (destruct (String.eqb (RegistrationRow.id a) id); reflexivity).
  rewrite E. destruct (String.eqb (RegistrationRow.qr_payload a) qrPayload);
    simpl; now rewrite IH.
Qed.

(** X21: scanning a pass again is harmless.  After a scan that resolved to
    [success = true], a second scan of the same payload whose lookup is
    served resolves to 'Already checked in!' with the Registration the first
    scan handed back, check-in time included, and changes nothing. *)
Theorem second_scan_is_turned_away :
  forall (client : option SupabaseClient) (env env2 : CheckInEnv.t)
         (qrPayload : string) (db db1 : Store)
         (res : CheckInResult),
    registrations_pkey db ->
    DB.checkInUser client env qrPayload db = (Resolved res, db1) ->
    success res = true ->
    CheckInEnv.fetchFault env2 = None ->
    DB.checkInUser client env2 qrPayload db1
    = (Resolved {| success := false;
                   message := Some "Already checked in!";
                   registration := registration res |}, db1).
Proof.
  intros client env env2 qrPayload db db1 res Hpk Hrun Hsuccess Hserved.
  destruct (checkInUser_success_inv _ _ _ _ _ _ Hrun Hsuccess)
    as (c & reg & -> & Hfetch & Hst & Hu).
  rewrite (checkInUser_update_served _ _ _ _ _ Hpk Hfetch Hst Hu) in Hrun.
  destruct (CheckInEnv.finalFault env); [discriminate|].
  injection Hrun as <- <-. simpl.
  destruct (after_check_in_frame env reg db) as (_ & _ & Hregs).
  unfold DB.checkInUser, fetch_by_payload. rewrite Hserved, Hregs.
  rewrite filter_payload_mark_checked_in.
  unfold fetch_by_payload in Hfetch. apply maybeSingle_data in Hfetch as [_ ->].
  rewrite mark_checked_in_eq. simpl. rewrite String.eqb_refl. reflexivity.
Qed.

Lemma second_scan_is_turned_away_witness :
  DB.checkInUser (supabase no_env) link_lost "e1:u1"
    (snd (DB.checkInUser (supabase no_env) calm_scan "e1:u1" campus))
  = (Resolved {| success := false;
                 message := Some "Already checked in!";
                 registration := Some (mapReg pass_used) |},
     snd (DB.checkInUser (supabase no_env) calm_scan "e1:u1" campus)).
Proof.
  apply (second_scan_is_turned_away (supabase no_env) calm_scan link_lost "e1:u1"
           campus _
           {| success := true; message := None;
              registration := Some (mapReg pass_used) |}
           (registrations_pkey_ok campus campus_schema)); reflexivity.
Defined.

(** ** What the facade never removes *)

Lemma same_account_refl (u : UserRow.t) : same_account u u.
Proof. repeat split. Qed.

Lemma insert_user_tables (fault : Fault) (row : UserRow.t) (db : Store) :
  (users (snd (insert_user fault row db)) = users db
   \/ users (snd (insert_user fault row db)) = (users db ++ [row])%list)
  /\ participants (snd (insert_user fault row db)) = participants db.
Proof.
  destruct (insert_user_cases fault row db) as [(_ & _ & -> & _) | (-> & _)];
    simpl; auto.
Qed.

Lemma insert_event_tables (fault : Fault) (row : EventRow.t) (db : Store) :
  users (snd (insert_event fault row db)) = users db
  /\ participants (snd (insert_event fault row db)) = participants db.
Proof.
  unfold insert_event. destruct fault; [auto|].
  repeat match goal with |- context [if ?b then _ else _] => destruct b end;
    simpl; auto.
Qed.

Lemma insert_registration_tables (fault : Fault) (row : RegistrationRow.t)
    (db : Store) :
  users (snd (insert_registration fault row db)) = users db
  /\ participants (snd (insert_registration fault row db)) = participants db.
Proof.
  unfold insert_registration. destruct fault; [auto|].
  repeat match goal with |- context [if ?b then _ else _] => destruct b end;
    simpl; auto.
Qed.

Lemma checkInUser_tables (client : option SupabaseClient) (env : CheckInEnv.t)
    (qrPayload : string) (db : Store) :
  users (snd (DB.checkInUser client env qrPayload db)) = users db
  /\ (participants (snd (DB.checkInUser client env qrPayload db)) = participants db
      \/ exists reg,
           In reg (registrations db)
           /\ participants (snd (DB.checkInUser client env qrPayload db))
              = (participants db ++ [DB.audit_row env reg])%list).
Proof.
  unfold DB.checkInUser.
  destruct client as [c|]; [|auto].
  destruct (error (fetch_by_payload env qrPayload db)) as [e|]; [auto|].
  destruct (data (fetch_by_payload env qrPayload db)) as [reg|] eqn:Hfetch; [|auto].
  destruct (RegistrationRow.status reg); simpl; [|auto].
  destruct (CheckInEnv.updateFault env) as [e|]; simpl; [auto|].
  rewrite <- !mark_checked_in_eq.
  destruct (fetch_by_payload_In _ _ _ _ Hfetch) as [Hin _].
  match goal with |- context [match ?d with Some _ => _ | None => _ end] =>
    destruct d end; simpl;
    (destruct (insert_participant_cases (CheckInEnv.insertFault env)
                 (DB.audit_row env reg)
                 (with_registrations
                    (mark_checked_in (CheckInEnv.now env) (RegistrationRow.id reg)
                       (registrations db)) db)) as [[_ ->] | [-> _]];
     simpl; split; auto; right; exists reg; auto).
Qed.

Lemma update_users_same_account (sel : UserRow.t -> bool) (s : ApprovalStatus)
    (rows : list UserRow.t) :
  Forall2 same_account rows
    (map (fun u => if sel u then set_user_status s u else u) rows).
Proof.
  induction rows as [|u us IH]; simpl; constructor; [|exact IH].
  destruct (sel u); repeat split.
Qed.

(** How one call moves the tables [users] and [participants]. *)
Lemma run_users_participants :
  forall (client : option SupabaseClient)
         (order : forall T : Type, (T -> string) -> bool -> list T -> list T)
         (c : Call) (db : Store),
    (exists kept added,
        users (run client order c db) = (kept ++ added)%list
        /\ Forall2 same_account (users db) kept
        /\ length added <= 1)
    /\ ((forall env eventId, c <> call_deleteEvent env eventId) ->
        exists added,
          participants (run client order c db) = (participants db ++ added)%list
          /\ length added <= 1).
Proof.
  intros client order c db.
  assert (Hsame : forall d : Store,
            users d = users db -> participants d = participants db ->
            (exists kept added,
                users d = (kept ++ added)%list
                /\ Forall2 same_account (users db) kept
                /\ length added <= 1)
            /\ ((forall env eventId, c <> call_deleteEvent env eventId) ->
                exists added,
                  participants d = (participants db ++ added)%list
                  /\ length added <= 1)).
  { intros d Hu Hp. split.
    - exists (users db), []. rewrite Hu, app_nil_r.
      split; [reflexivity|]. split; [|simpl; lia].
      apply Forall2_same, same_account_refl.
    - intros _. exists []. rewrite Hp, app_nil_r. split; [reflexivity | simpl; lia]. }
  assert (Hins : forall (d : Store) (row : UserRow.t),
            (users d = users db \/ users d = (users db ++ [row])%list) ->
            participants d = participants db ->
            (exists kept added,
                users d = (kept ++ added)%list
                /\ Forall2 same_account (users db) kept
                /\ length added <= 1)
            /\ ((forall env eventId, c <> call_deleteEvent env eventId) ->
                exists added,
                  participants d = (participants db ++ added)%list
                  /\ length added <= 1)).
  { intros d row [Hu|Hu] Hp; [now apply Hsame|]. split.
    - exists (users db), [row]. split; [exact Hu|]. split; [|simpl; lia].
      apply Forall2_same, same_account_refl.
    - intros _. exists []. rewrite Hp, app_nil_r. split; [reflexivity | simpl; lia]. }
  destruct c; simpl.
  - unfold DB.init. destruct client; [|now apply Hsame].
    match goal with |- context [data ?m] => destruct (data m) end;
      [now apply Hsame|]. simpl.
    destruct (insert_user_tables (InitEnv.insertFault env) (DB.admin_seed env) db)
      as [Hu Hp]. now apply (Hins _ (DB.admin_seed env)).
  - unfold DB.findUserByEmail. destruct client; [|now apply Hsame].
    match goal with |- context [error ?m] => destruct (error m) end;
      [now apply Hsame|].
    match goal with |- context [data ?m] => destruct (data m) end; now apply Hsame.
  - unfold DB.createUser. destruct client; [|now apply Hsame].
    match goal with |- context [insert_user ?f ?r ?d] =>
      destruct (insert_user_tables f r d) as [Hu Hp];
      destruct (insert_user f r d) as [res db'] eqn:E; set (row := r) in * end.
    simpl in Hu, Hp.
    destruct (error res); [|destruct (data res)]; simpl; now apply (Hins _ row).
  - unfold DB.getAllUsers. destruct client; [|now apply Hsame].
    match goal with |- context [error ?m] => destruct (error m) end;
      [now apply Hsame|].
    match goal with |- context [data ?m] => destruct (data m) end; now apply Hsame.
  - unfold DB.getPendingUsers. destruct client; [|now apply Hsame].
    match goal with |- context [error ?m] => destruct (error m) end;
      [now apply Hsame|].
    match goal with |- context [data ?m] => destruct (data m) end; now apply Hsame.
  - unfold DB.updateUserStatus, update_where. destruct client; [|now apply Hsame].
    destruct (ReadEnv.fault env); simpl; [now apply Hsame|]. split.
    + eexists. exists []. rewrite app_nil_r. split; [reflexivity|].
      split; [|simpl; lia].
      apply update_users_same_account.
    + intros _. exists []. rewrite app_nil_r. split; [reflexivity | simpl; lia].
  - unfold DB.getEvents. destruct client; [|now apply Hsame].
    match goal with |- context [error ?m] => destruct (error m) end;
      [now apply Hsame|].
    match goal with |- context [data ?m] => destruct (data m) end; now apply Hsame.
  - unfold DB.createEvent. destruct client; [|now apply Hsame].
    match goal with |- context [insert_event ?f ?r ?d] =>
      destruct (insert_event_tables f r d) as [Hu Hp];
      destruct (insert_event f r d) as [res db'] end.
    simpl in Hu, Hp.
    destruct (error res); [|destruct (data res)]; simpl; now apply Hsame.
  - unfold DB.updateEventStatus, update_where. destruct client; [|now apply Hsame].
    destruct (ReadEnv.fault env); simpl; now apply Hsame.
  - unfold DB.deleteEvent, delete_event. destruct client; [|now apply Hsame].
    destruct (ReadEnv.fault env) as [e|]; simpl; [now apply Hsame|]. split.
    + exists (users db), []. rewrite app_nil_r. split; [reflexivity|].
      split; [apply Forall2_same, same_account_refl | simpl; lia].
    + intros H. now elim (H env eventId).
  - unfold DB.registerForEvent. destruct client; [|now apply Hsame].
    match goal with |- context [data ?m] => destruct (data m) end;
      [now apply Hsame|].
    match goal with |- context [insert_registration ?f ?r ?d] =>
      destruct (insert_registration_tables f r d) as [Hu Hp];
      destruct (insert_registration f r d) as [res db'] end.
    simpl in Hu, Hp.
    destruct (error res); [|destruct (data res)]; simpl; now apply Hsame.
  - unfold DB.getRegistrationsByUser. destruct client; [|now apply Hsame].
    match goal with |- context [error ?m] => destruct (error m) end;
      [now apply Hsame|].
    match goal with |- context [data ?m] => destruct (data m) end; now apply Hsame.
  - unfold DB.getRegistrationsByEvent. destruct client; [|now apply Hsame].
    match goal with |- context [error ?m] => destruct (error m) end;
      [now apply Hsame|].
    match goal with |- context [data ?m] => destruct (data m) end; now apply Hsame.
  - unfold DB.getAllParticipants. destruct client; [|now apply Hsame].
    match goal with |- context [error ?m] => destruct (error m) end;
      [now apply Hsame|].
    match goal with |- context [data ?m] => destruct (data m) end; now apply Hsame.
  - destruct (checkInUser_tables client env qrPayload db)
      as [Hu [Hp | (reg & _ & Hp)]]; [now apply Hsame|].
    split.
    + exists (users db), []. rewrite Hu, app_nil_r. split; [reflexivity|].
      split; [apply Forall2_same, same_account_refl | simpl; lia].
    + intros _. exists [DB.audit_row env reg]. split; [exact Hp | simpl; lia].
Qed.

Lemma same_account_trans (u v w : UserRow.t) :
  same_account u v -> same_account v w -> same_account u w.
Proof.
  unfold same_account.
  intros (A1 & A2 & A3 & A4 & A5 & A6 & A7 & A8) (B1 & B2 & B3 & B4 & B5 & B6 & B7 & B8).
  repeat split; congruence.
Qed.

Lemma Forall2_In_l {A B : Type} (R : A -> B -> Prop) (l : list A) (l' : list B)
    (x : A) :
  Forall2 R l l' -> In x l -> exists y, In y l' /\ R x y.
Proof.
  induction 1 as [|a b l l' Hab _ IH]; intros Hin; [contradiction|].
  destruct Hin as [->|Hin].
  - exists b. split; [now left | assumption].
  - destruct (IH Hin) as (y & Hy & Hxy). exists y. split; [now right | assumption].
Qed.

(** X22: no call of the facade removes an account or rewrites anything of it
    but its status.  After any sequence of calls, every user that was stored
    is still stored with the same id, name, e-mail, password, role,
    university id, photo and creation time. *)
Theorem accounts_are_kept :
  forall (client : option SupabaseClient)
         (order : forall T : Type, (T -> string) -> bool -> list T -> list T)
         (cs : list Call) (db : Store) (u : UserRow.t),
    In u (users db) ->
    exists u', In u' (users (run_all client order cs db)) /\ same_account u u'.
Proof.
  intros client order cs. induction cs as [|c cs IH]; intros db u Hin.
  - exists u. split; [assumption | repeat split].
  - simpl.
    destruct (run_users_participants client order c db)
      as [(kept & added & Hus & Hkept & _) _].
    destruct (Forall2_In_l _ _ _ _ Hkept Hin) as (v & Hv & Huv).
    destruct (IH (run client order c db) v) as (w & Hw & Hvw).
    + rewrite Hus. apply in_or_app. now left.
    + exists w. split; [assumption|]. now apply (same_account_trans u v w).
Qed.

Lemma accounts_are_kept_witness :
  exists u',
    In u' (users (run_all (supabase no_env) as_stored
                    [call_updateUserStatus served "u4" verdict_rejected;
                     call_deleteEvent served "e1";
                     call_createUser calm_insert (carol student None)]
                    campus_with_dan))
    /\ same_account dan u'.
Proof.
  apply accounts_are_kept. simpl. auto.
Defined.

(** X23: attendance rows are removed by [deleteEvent] and by nothing else.
    After any sequence of calls none of which is a [deleteEvent], every
    Participant row that was stored is still stored, unchanged. *)
Theorem attendance_is_kept :
  forall (client : option SupabaseClient)
         (order : forall T : Type, (T -> string) -> bool -> list T -> list T)
         (cs : list Call) (db : Store) (p : ParticipantRow.t),
    Forall (fun c => is_deleteEvent c = false) cs ->
    In p (participants db) ->
    In p (participants (run_all client order cs db)).
Proof.
  intros client order cs db p Hcs. revert db.
  induction Hcs as [|c cs Hc _ IH]; intros db Hin; [exact Hin|].
  simpl. apply IH.
  destruct (run_users_participants client order c db) as [_ Hp].
  destruct Hp as (added & -> & _).
  - intros env eventId ->. discriminate.
  - apply in_or_app. now left.
Qed.

Lemma attendance_is_kept_witness :
  In attendance
     (participants
        (run_all (supabase no_env) as_stored
           [call_checkInUser calm_scan "e1:u1";
            call_updateEventStatus served "e1" verdict_rejected;
            call_registerForEvent calm_register "u2" "Bob" "e1" "Rocq workshop"]
           campus_admitted)).
Proof.
  apply attendance_is_kept.
  - repeat constructor.
  - simpl. auto.
Defined.

(** ** The organizer's dashboard and the scanner *)

(** X24: an organizer is shown the events they organize and the attendance
    of those events, no more and no less.  When both reads of
    [OrganizerDashboard.refresh] are served and [ORDER BY] returns the rows
    it was given, an event is listed exactly when it is a stored event whose
    organizer is the user, and a Participant row is listed exactly when it is
    stored and its event is one of those. *)
Theorem organizer_sees_own_attendance :
  forall (c : SupabaseClient)
         (order : forall T : Type, (T -> string) -> bool -> list T -> list T)
         (eenv penv : ReadEnv.t) (user : User.t) (db : Store),
    order_permutes order ->
    ReadEnv.fault eenv = None ->
    ReadEnv.fault penv = None ->
    exists myEvents attendance,
      OrganizerDashboard.refresh (Some c) order eenv penv user db
      = Resolved (myEvents, attendance)
      /\ (forall e, In e myEvents <->
                    exists row, In row (events db)
                                /\ mapEvent row = e
                                /\ EventRow.organizer_id row = User._id user)
      /\ (forall p, In p attendance <->
                    In p (participants db)
                    /\ exists row, In row (events db)
                                   /\ EventRow.organizer_id row = User._id user
                                   /\ EventRow.id row = ParticipantRow.event_id p).
Proof.
  intros c order eenv penv user db Hperm He Hp.
  unfold OrganizerDashboard.refresh, DB.getEvents, DB.getAllParticipants, select_all.
  rewrite He, Hp. simpl. eexists. eexists. split; [reflexivity|].
  assert (Hmine : forall e,
            In e (filter (fun e => String.eqb (Event.organizerId e) (User._id user))
                         (map mapEvent (order _ EventRow.created_at false (events db))))
            <-> exists row, In row (events db)
                            /\ mapEvent row = e
                            /\ EventRow.organizer_id row = User._id user).
  { intros e. rewrite filter_In, in_map_iff. split.
    - intros [(row & <- & Hin) Ho]. exists row.
      split; [exact (Permutation_in _ (Hperm _ _ _ _) Hin)|].
      split; [reflexivity|]. now apply String.eqb_eq in Ho.
    - intros (row & Hin & <- & Ho). split.
      + exists row. split; [reflexivity|].
        exact (Permutation_in _ (Permutation_sym (Hperm _ _ _ _)) Hin).
      + simpl. rewrite Ho. apply String.eqb_refl. }
  split; [exact Hmine|].
  intros p. rewrite filter_In, mem_In, in_map_iff. split.
  - intros [Hin (e & Hid & Hmy)]. split.
    + exact (Permutation_in _ (Hperm _ _ _ _) Hin).
    + apply Hmine in Hmy as (row & Hrow & <- & Ho). exists row. auto.
  - intros [Hin (row & Hrow & Ho & Hid)]. split.
    + exact (Permutation_in _ (Permutation_sym (Hperm _ _ _ _)) Hin).
    + exists (mapEvent row). split; [exact Hid|].
      apply Hmine. exists row. auto.
Qed.

Lemma organizer_sees_own_attendance_witness :
  exists myEvents attendance,
    OrganizerDashboard.refresh (supabase no_env) as_stored served served
      (mapUser bob) campus_admitted
    = Resolved (myEvents, attendance)
    /\ (forall e, In e myEvents <->
                  exists row, In row (events campus_admitted)
                              /\ mapEvent row = e
                              /\ EventRow.organizer_id row = "u2")
    /\ (forall p, In p attendance <->
                  In p (participants campus_admitted)
                  /\ exists row, In row (events campus_admitted)
                                 /\ EventRow.organizer_id row = "u2"
                                 /\ EventRow.id row = ParticipantRow.event_id p).
Proof.
  rewrite supabase_configured.
  apply (organizer_sees_own_attendance _ as_stored served served (mapUser bob)
           campus_admitted as_stored_permutes); reflexivity.
Defined.

(** Bob is shown the workshop and Ann's attendance; Ann, who organizes
    nothing, is shown neither. *)
Example organizer_refresh_bob_and_ann :
  OrganizerDashboard.refresh (supabase no_env) as_stored served served
    (mapUser bob) campus_admitted
  = Resolved ([mapEvent workshop], [attendance])
  /\ OrganizerDashboard.refresh (supabase no_env) as_stored served served
       (mapUser ann) campus_admitted
     = Resolved ([], []).
Proof. split; reflexivity. Qed.

(** X25: the scanner can report a failure for a check-in that took place.
    When the lookup hands back a pass that is 'registered', the update is
    served and the re-read is not, [processCode] ends with the alert 'Check-in
    failed.' although the pass is stored as 'checked-in'; scanning the code
    again, with the lookup served, shows 'Already checked in!' with that
    pass. *)
Theorem processCode_alert_after_check_in :
  forall (c : SupabaseClient) (env env2 : CheckInEnv.t) (code : string)
         (db : Store) (reg : RegistrationRow.t) (e : PostgrestError),
    registrations_pkey db ->
    code <> "" ->
    data (fetch_by_payload env code db) = Some reg ->
    RegistrationRow.status reg = registered ->
    CheckInEnv.updateFault env = None ->
    CheckInEnv.finalFault env = Some e ->
    CheckInEnv.fetchFault env2 = None ->
    exists db',
      CheckInScanner.processCode (Some c) env false code db
      = (CheckInScanner.alert "Check-in failed.", db')
      /\ In (set_checked_in (CheckInEnv.now env) reg) (registrations db')
      /\ CheckInScanner.processCode (Some c) env2 false code db'
         = (CheckInScanner.setResult
              {| success := false;
                 message := Some "Already checked in!";
                 registration :=
                   Some (mapReg (set_checked_in (CheckInEnv.now env) reg)) |},
            db').
Proof.
  intros c env env2 code db reg e Hpk Hcode Hfetch Hst Hu Hfin Hserved.
  assert (Htruthy : truthy code = true).
  { unfold truthy. apply negb_true_iff. now apply String.eqb_neq. }
  exists (after_check_in env reg db).
  destruct (after_check_in_frame env reg db) as (_ & _ & Hregs).
  unfold CheckInScanner.processCode. rewrite Htruthy.
  rewrite (checkInUser_update_served c env code db reg Hpk Hfetch Hst Hu), Hfin.
  cbn [orb negb].
  split; [reflexivity|].
  split; [rewrite Hregs; apply mark_checked_in_In;
          now apply (fetch_by_payload_In env code db reg)|].
  unfold DB.checkInUser, fetch_by_payload. rewrite Hserved, Hregs.
  rewrite filter_payload_mark_checked_in.
  unfold fetch_by_payload in Hfetch. apply maybeSingle_data in Hfetch as [_ ->].
  rewrite mark_checked_in_eq. simpl. rewrite String.eqb_refl. reflexivity.
Qed.

Lemma processCode_alert_after_check_in_witness :
  exists db',
    CheckInScanner.processCode (supabase no_env) link_lost false "e1:u1" campus
    = (CheckInScanner.alert "Check-in failed.", db')
    /\ In pass_used (registrations db')
    /\ CheckInScanner.processCode (supabase no_env) calm_scan false "e1:u1" db'
       = (CheckInScanner.setResult
            {| success := false;
               message := Some "Already checked in!";
               registration := Some (mapReg pass_used) |}, db').
Proof.
  rewrite supabase_configured.
  apply (processCode_alert_after_check_in _ link_lost calm_scan "e1:u1" campus pass
           "fetch failed" (registrations_pkey_ok campus campus_schema));
    try reflexivity.
  discriminate.
Defined.

(** ** Invariants over sequences of calls *)

(** X26: as long as the existence lookup of every [registerForEvent] is
    served, no sequence of calls of the facade gives a user two passes for
    one event: 'at most one Registration per (user_id, event_id)' is kept. *)
Theorem pairs_stay_unique :
  forall (client : option SupabaseClient)
         (order : forall T : Type, (T -> string) -> bool -> list T -> list T)
         (cs : list Call) (db : Store),
    Forall (fun c => lookup_served c = true) cs ->
    one_registration_per_pair db ->
    one_registration_per_pair (run_all client order cs db).
Proof.
  intros client order cs db Hcs. revert db.
  induction Hcs as [|c cs Hc _ IH]; intros db Hinv; [exact Hinv|].
  simpl. apply IH. apply run_keeps_pairs; [|exact Hinv].
  intros env userId userName eventId eventTitle ->. simpl in Hc.
  destruct (RegisterEnv.lookupFault env); [discriminate | reflexivity].
Qed.

Lemma pairs_stay_unique_witness :
  one_registration_per_pair
    (run_all (supabase no_env) as_stored
       [call_registerForEvent calm_register "u1" "Ann" "e1" "Rocq workshop";
        call_registerForEvent calm_register "u2" "Bob" "e1" "Rocq workshop";
        call_checkInUser calm_scan "e1:u1";
        call_registerForEvent calm_register "u1" "Ann" "e1" "Rocq workshop"]
       campus).
Proof.
  apply pairs_stay_unique.
  - repeat constructor.
  - unfold one_registration_per_pair. simpl. constructor; [intros [] | constructor].
Defined.

